(** * zdns command line front end: the configuration pipeline of [main]

    A shallow embedding of [src/zdns/main.go].  The program is one function,
    [main]: it declares the global flags, resolves the lookup module, parses
    the command line, derives the remaining fields of [zdns.GlobalConf] and
    hands the configuration to the lookup engine.  Every [log.Fatal] of the
    source is an early exit; here it is the [Fatal] result of an error monad,
    so that the order of the checks is the order of the binds.  The nil
    dereference that a failing [os.Stdin.Stat()] leads to ends the run in
    the same way and is a [Fatal] result of its own.

    Go strings are byte strings: they are modelled as [string], one [ascii]
    per byte.  [int] is taken to be 64 bits wide (amd64, arm64). *)

From Stdlib Require Import ZArith Ascii String List Bool Lia.
From stdpp Require Import base list strings.

Local Open Scope string_scope.
Local Open Scope list_scope.
Local Open Scope Z_scope.

(** ** Package [unicode/utf8] and [unicode] *)

Module utf8.

(** [utf8.RuneSelf]: bytes below it are single-byte runes. *)
Definition RuneSelf : Z := 128.

Definition byte (z : Z) : ascii := ascii_of_N (Z.to_N (Z.land z 255)).

Definition byteval (c : ascii) : Z := Z.of_N (N_of_ascii c).

(** [utf8.EncodeRune] for a valid code point (no surrogate, at most
    U+10FFFF), as the bytes of a Go string. *)
Definition EncodeRune (r : Z) : string :=
  if r <? 128 then String (byte r) ""
  else if r <? 2048 then
    String (byte (Z.lor 192 (Z.shiftr r 6)))
      (String (byte (Z.lor 128 (Z.land r 63))) "")
  else if r <? 65536 then
    String (byte (Z.lor 224 (Z.shiftr r 12)))
      (String (byte (Z.lor 128 (Z.land (Z.shiftr r 6) 63)))
         (String (byte (Z.lor 128 (Z.land r 63))) ""))
  else
    String (byte (Z.lor 240 (Z.shiftr r 18)))
      (String (byte (Z.lor 128 (Z.land (Z.shiftr r 12) 63)))
         (String (byte (Z.lor 128 (Z.land (Z.shiftr r 6) 63)))
            (String (byte (Z.lor 128 (Z.land r 63))) ""))).

End utf8.

Module unicode.

(** The code points of [unicode.White_Space], the table behind
    [unicode.IsSpace]: U+0009..U+000D, U+0020, U+0085, U+00A0, U+1680,
    U+2000..U+200A, U+2028, U+2029, U+202F, U+205F, U+3000. *)
Definition White_Space : list Z :=
  [9; 10; 11; 12; 13; 32; 133; 160; 5760;
   8192; 8193; 8194; 8195; 8196; 8197; 8198; 8199; 8200; 8201; 8202;
   8232; 8233; 8239; 8287; 12288].

End unicode.

(** ** Package [strings] *)

Module strings.

Fixpoint HasPrefix (s prefix : string) {struct prefix} : bool :=
  match prefix, s with
  | EmptyString, _ => true
  | String _ _, EmptyString => false
  | String p prefix', String c s' =>
      if Ascii.eqb c p then HasPrefix s' prefix' else false
  end.

(** [strings.Contains(s, substr)]: [substr] occurs at some offset. *)
Fixpoint Contains (s substr : string) : bool :=
  HasPrefix s substr
  || match s with
     | EmptyString => false
     | String _ s' => Contains s' substr
     end.

(** [genSplit] for a separator of at least one byte.  [skip] counts the
    bytes of a separator occurrence that are still to be passed over. *)
Fixpoint splitFrom (sep : string) (skip : nat) (s : string) : list string :=
  match s with
  | EmptyString => [EmptyString]
  | String c s' =>
      match skip with
      | S k => splitFrom sep k s'
      | O =>
          if HasPrefix s sep
          then EmptyString :: splitFrom sep (String.length sep - 1) s'
          else match splitFrom sep 0 s' with
               | x :: xs => String c x :: xs
               | [] => [String c EmptyString]
               end
      end
  end.

(** [strings.Split(s, sep)].  With an empty separator Go explodes [s] into
    its UTF-8 sequences; byte by byte here, which is the same on ASCII
    text.  [main] only splits on [","] and on a line feed. *)
Definition Split (s sep : string) : list string :=
  match sep with
  | EmptyString => map (fun c => String c EmptyString) (list_ascii_of_string s)
  | String _ _ => splitFrom sep 0 s
  end.

Fixpoint Join (elems : list string) (sep : string) : string :=
  match elems with
  | [] => EmptyString
  | [x] => x
  | x :: xs => x +:+ sep +:+ Join xs sep
  end.

Fixpoint inCutset (c : ascii) (cutset : string) : bool :=
  match cutset with
  | EmptyString => false
  | String d cutset' => Ascii.eqb c d || inCutset c cutset'
  end.

Fixpoint TrimLeft (s cutset : string) : string :=
  match s with
  | EmptyString => EmptyString
  | String c s' => if inCutset c cutset then TrimLeft s' cutset else s
  end.

Fixpoint TrimRight (s cutset : string) : string :=
  match s with
  | EmptyString => EmptyString
  | String c s' =>
      match TrimRight s' cutset with
      | EmptyString =>
          if inCutset c cutset then EmptyString else String c EmptyString
      | String _ _ as r => String c r
      end
  end.

(** [strings.Trim(s, cutset)] for a cutset of ASCII bytes, where Go works
    byte by byte ([trimLeftByte], [trimRightByte], [trimLeftASCII],
    [trimRightASCII]): the right end first, then the left end. *)
Definition Trim (s cutset : string) : string :=
  TrimLeft (TrimRight s cutset) cutset.

(** The UTF-8 encodings of the white space code points. *)
Definition spaceEncodings : list string :=
  map utf8.EncodeRune unicode.White_Space.

(** [s[n:]] and [s[:n]]. *)
Fixpoint skipBytes (n : nat) (s : string) : string :=
  match n, s with
  | S k, String _ s' => skipBytes k s'
  | _, _ => s
  end.

Fixpoint takeBytes (n : nat) (s : string) : string :=
  match n, s with
  | S k, String c s' => String c (takeBytes k s')
  | _, _ => EmptyString
  end.

(** [strings.HasSuffix(s, suffix)]:
    [len(s) >= len(suffix) && s[len(s)-len(suffix):] == suffix]. *)
Definition HasSuffix (s suffix : string) : bool :=
  (String.length suffix <=? String.length s)%nat
  && String.eqb (skipBytes (String.length s - String.length suffix) s) suffix.

(** [TrimLeftFunc(s, unicode.IsSpace)]: leading white space runes are
    removed one at a time; a byte that starts no white space encoding
    (an invalid sequence decodes to U+FFFD) stops the scan.  [fuel] bounds
    the number of runes, the length of [s] is enough. *)
Fixpoint trimLeftSpace (fuel : nat) (s : string) : string :=
  match fuel with
  | O => s
  | S fuel' =>
      match List.find (HasPrefix s) spaceEncodings with
      | Some e => trimLeftSpace fuel' (skipBytes (String.length e) s)
      | None => s
      end
  end.

(** [TrimRightFunc(s, unicode.IsSpace)]: the same from the end, where the
    last rune is a white space when its encoding is a suffix. *)
Fixpoint trimRightSpace (fuel : nat) (s : string) : string :=
  match fuel with
  | O => s
  | S fuel' =>
      match List.find (HasSuffix s) spaceEncodings with
      | Some e =>
          trimRightSpace fuel' (takeBytes (String.length s - String.length e) s)
      | None => s
      end
  end.

(** [strings.TrimSpace(s)]: leading, then trailing white space removed. *)
Definition TrimSpace (s : string) : string :=
  let left := trimLeftSpace (String.length s) s in
  trimRightSpace (String.length left) left.

Definition isASCII (s : string) : bool :=
  forallb (fun c => utf8.byteval c <? utf8.RuneSelf) (list_ascii_of_string s).

Definition upperByte (c : ascii) : ascii :=
  let v := utf8.byteval c in
  if (97 <=? v) && (v <=? 122) then utf8.byte (v - 32) else c.

Fixpoint mapBytes (f : ascii -> ascii) (s : string) : string :=
  match s with
  | EmptyString => EmptyString
  | String c s' => String (f c) (mapBytes f s')
  end.

Section Upper.
(** [strings.Map(unicode.ToUpper, s)], the path [ToUpper] takes when
    [s] has a byte at or above [utf8.RuneSelf].  The Unicode case tables
    are not modelled: the mapping is a parameter. *)
Variable unicodeToUpper : string -> string.

(** [strings.ToUpper(s)]: ASCII text is mapped byte by byte. *)
Definition ToUpper (s : string) : string :=
  if isASCII s then mapBytes upperByte s else unicodeToUpper s.
End Upper.

End strings.

(** ** Packages [time], [os], [dns] and [logrus]: the constants [main] uses *)

Module time.

(** [time.Duration] is an [int64] count of nanoseconds. *)
Definition wrap64 (z : Z) : Z := (z + 2 ^ 63) mod 2 ^ 64 - 2 ^ 63.

Definition Second : Z := 1000000000.

(** [time.Second * time.Duration(n)]: the product wraps around in 64 bits. *)
Definition ofSeconds (n : Z) : Z := wrap64 (Second * wrap64 n).

Definition RFC3339 : string := "2006-01-02T15:04:05Z07:00".

Definition RFC3339Nano : string := "2006-01-02T15:04:05.999999999Z07:00".

End time.

Module os.

(** [os.ModeCharDevice], a bit of [os.FileMode]. *)
Definition ModeCharDevice : Z := Z.shiftl 1 21.

End os.

Module dns.

Definition ClassINET : Z := 1.

Definition ClassCSNET : Z := 2.

Definition ClassCHAOS : Z := 3.

Definition ClassHESIOD : Z := 4.

Definition ClassNONE : Z := 254.

Definition ClassANY : Z := 255.

End dns.

Module log.

Inductive Level : Set :=
| PanicLevel
| FatalLevel
| ErrorLevel
| WarnLevel
| InfoLevel
| DebugLevel.

End log.

Definition LF : string := String (ascii_of_nat 10) EmptyString.

(** ** [zdns.GlobalConf]

    The fields [main] reads or writes.  [Module] and [Class] are reserved
    words here, hence [Module_] and [Class_]. *)

Record GlobalConf : Type := mkGlobalConf {
  Threads : Z;
  GoMaxProcs : Z;
  NamePrefix : string;
  AlexaFormat : bool;
  IterativeResolution : bool;
  InputFilePath : string;
  OutputFilePath : string;
  MetadataFilePath : string;
  LogFilePath : string;
  ResultVerbosity : string;
  IncludeInOutput : string;
  Verbosity : Z;
  Retries : Z;
  MaxDepth : Z;
  CacheSize : Z;
  InputHandler : string;
  OutputHandler : string;
  TCPOnly : bool;
  UDPOnly : bool;
  Module_ : string;
  Timeout : Z;
  IterationTimeout : Z;
  Class_ : Z;
  NameServers : list string;
  NameServersSpecified : bool;
  TimeFormat : string;
  OutputGroups : list string;
  PassedName : string
}.

(** The values of the flags after [flags.Parse]: the nineteen flags bound to
    fields of [gc] (lines 45-65), the six bound to local variables (lines
    66-71), and [flags.Args()], the arguments left unparsed. *)
Record Flags : Type := mkFlags {
  flag_threads : Z;
  flag_go_processes : Z;
  flag_prefix : string;
  flag_alexa : bool;
  flag_iterative : bool;
  flag_input_file : string;
  flag_output_file : string;
  flag_metadata_file : string;
  flag_log_file : string;
  flag_result_verbosity : string;
  flag_include_fields : string;
  flag_verbosity : Z;
  flag_retries : Z;
  flag_max_depth : Z;
  flag_cache_size : Z;
  flag_input_handler : string;
  flag_output_handler : string;
  flag_tcp_only : bool;
  flag_udp_only : bool;
  servers_string : string;
  config_file : string;
  timeout : Z;
  iterationTimeout : Z;
  class_string : string;
  nanoSeconds : bool;
  Args : list string
}.

(** The defaults the flags are declared with. *)
Definition defaultFlags : Flags :=
  {| flag_threads := 1000;
     flag_go_processes := 0;
     flag_prefix := "";
     flag_alexa := false;
     flag_iterative := false;
     flag_input_file := "-";
     flag_output_file := "-";
     flag_metadata_file := "";
     flag_log_file := "";
     flag_result_verbosity := "normal";
     flag_include_fields := "";
     flag_verbosity := 3;
     flag_retries := 1;
     flag_max_depth := 10;
     flag_cache_size := 10000;
     flag_input_handler := "file";
     flag_output_handler := "file";
     flag_tcp_only := false;
     flag_udp_only := false;
     servers_string := "";
     config_file := "/etc/resolv.conf";
     timeout := 15;
     iterationTimeout := 4;
     class_string := "INET";
     nanoSeconds := false;
     Args := [] |}.

(** [gc] once the flags are parsed: [var gc zdns.GlobalConf] is the zero
    value, [gc.Module] is assigned on line 76, and [flags.Parse] stores the
    bound flags. *)
Definition parsedConf (module : string) (f : Flags) : GlobalConf :=
  {| Threads := flag_threads f;
     GoMaxProcs := flag_go_processes f;
     NamePrefix := flag_prefix f;
     AlexaFormat := flag_alexa f;
     IterativeResolution := flag_iterative f;
     InputFilePath := flag_input_file f;
     OutputFilePath := flag_output_file f;
     MetadataFilePath := flag_metadata_file f;
     LogFilePath := flag_log_file f;
     ResultVerbosity := flag_result_verbosity f;
     IncludeInOutput := flag_include_fields f;
     Verbosity := flag_verbosity f;
     Retries := flag_retries f;
     MaxDepth := flag_max_depth f;
     CacheSize := flag_cache_size f;
     InputHandler := flag_input_handler f;
     OutputHandler := flag_output_handler f;
     TCPOnly := flag_tcp_only f;
     UDPOnly := flag_udp_only f;
     Module_ := module;
     Timeout := 0;
     IterationTimeout := 0;
     Class_ := 0;
     NameServers := [];
     NameServersSpecified := false;
     TimeFormat := "";
     OutputGroups := [];
     PassedName := "" |}.

(** Assignments [gc.Field = v]. *)

Definition set_Timeout (v : Z) (gc : GlobalConf) : GlobalConf :=
  {| Threads := Threads gc; GoMaxProcs := GoMaxProcs gc;
     NamePrefix := NamePrefix gc; AlexaFormat := AlexaFormat gc;
     IterativeResolution := IterativeResolution gc;
     InputFilePath := InputFilePath gc; OutputFilePath := OutputFilePath gc;
     MetadataFilePath := MetadataFilePath gc; LogFilePath := LogFilePath gc;
     ResultVerbosity := ResultVerbosity gc;
     IncludeInOutput := IncludeInOutput gc; Verbosity := Verbosity gc;
     Retries := Retries gc; MaxDepth := MaxDepth gc;
     CacheSize := CacheSize gc; InputHandler := InputHandler gc;
     OutputHandler := OutputHandler gc; TCPOnly := TCPOnly gc;
     UDPOnly := UDPOnly gc; Module_ := Module_ gc; Timeout := v;
     IterationTimeout := IterationTimeout gc; Class_ := Class_ gc;
     NameServers := NameServers gc;
     NameServersSpecified := NameServersSpecified gc;
     TimeFormat := TimeFormat gc; OutputGroups := OutputGroups gc;
     PassedName := PassedName gc |}.

Definition set_IterationTimeout (v : Z) (gc : GlobalConf) : GlobalConf :=
  {| Threads := Threads gc; GoMaxProcs := GoMaxProcs gc;
     NamePrefix := NamePrefix gc; AlexaFormat := AlexaFormat gc;
     IterativeResolution := IterativeResolution gc;
     InputFilePath := InputFilePath gc; OutputFilePath := OutputFilePath gc;
     MetadataFilePath := MetadataFilePath gc; LogFilePath := LogFilePath gc;
     ResultVerbosity := ResultVerbosity gc;
     IncludeInOutput := IncludeInOutput gc; Verbosity := Verbosity gc;
     Retries := Retries gc; MaxDepth := MaxDepth gc;
     CacheSize := CacheSize gc; InputHandler := InputHandler gc;
     OutputHandler := OutputHandler gc; TCPOnly := TCPOnly gc;
     UDPOnly := UDPOnly gc; Module_ := Module_ gc; Timeout := Timeout gc;
     IterationTimeout := v; Class_ := Class_ gc;
     NameServers := NameServers gc;
     NameServersSpecified := NameServersSpecified gc;
     TimeFormat := TimeFormat gc; OutputGroups := OutputGroups gc;
     PassedName := PassedName gc |}.

Definition set_Class_ (v : Z) (gc : GlobalConf) : GlobalConf :=
  {| Threads := Threads gc; GoMaxProcs := GoMaxProcs gc;
     NamePrefix := NamePrefix gc; AlexaFormat := AlexaFormat gc;
     IterativeResolution := IterativeResolution gc;
     InputFilePath := InputFilePath gc; OutputFilePath := OutputFilePath gc;
     MetadataFilePath := MetadataFilePath gc; LogFilePath := LogFilePath gc;
     ResultVerbosity := ResultVerbosity gc;
     IncludeInOutput := IncludeInOutput gc; Verbosity := Verbosity gc;
     Retries := Retries gc; MaxDepth := MaxDepth gc;
     CacheSize := CacheSize gc; InputHandler := InputHandler gc;
     OutputHandler := OutputHandler gc; TCPOnly := TCPOnly gc;
     UDPOnly := UDPOnly gc; Module_ := Module_ gc; Timeout := Timeout gc;
     IterationTimeout := IterationTimeout gc; Class_ := v;
     NameServers := NameServers gc;
     NameServersSpecified := NameServersSpecified gc;
     TimeFormat := TimeFormat gc; OutputGroups := OutputGroups gc;
     PassedName := PassedName gc |}.

Definition set_NameServers (v : list string) (gc : GlobalConf) : GlobalConf :=
  {| Threads := Threads gc; GoMaxProcs := GoMaxProcs gc;
     NamePrefix := NamePrefix gc; AlexaFormat := AlexaFormat gc;
     IterativeResolution := IterativeResolution gc;
     InputFilePath := InputFilePath gc; OutputFilePath := OutputFilePath gc;
     MetadataFilePath := MetadataFilePath gc; LogFilePath := LogFilePath gc;
     ResultVerbosity := ResultVerbosity gc;
     IncludeInOutput := IncludeInOutput gc; Verbosity := Verbosity gc;
     Retries := Retries gc; MaxDepth := MaxDepth gc;
     CacheSize := CacheSize gc; InputHandler := InputHandler gc;
     OutputHandler := OutputHandler gc; TCPOnly := TCPOnly gc;
     UDPOnly := UDPOnly gc; Module_ := Module_ gc; Timeout := Timeout gc;
     IterationTimeout := IterationTimeout gc; Class_ := Class_ gc;
     NameServers := v; NameServersSpecified := NameServersSpecified gc;
     TimeFormat := TimeFormat gc; OutputGroups := OutputGroups gc;
     PassedName := PassedName gc |}.

Definition set_NameServersSpecified (v : bool) (gc : GlobalConf) : GlobalConf :=
  {| Threads := Threads gc; GoMaxProcs := GoMaxProcs gc;
     NamePrefix := NamePrefix gc; AlexaFormat := AlexaFormat gc;
     IterativeResolution := IterativeResolution gc;
     InputFilePath := InputFilePath gc; OutputFilePath := OutputFilePath gc;
     MetadataFilePath := MetadataFilePath gc; LogFilePath := LogFilePath gc;
     ResultVerbosity := ResultVerbosity gc;
     IncludeInOutput := IncludeInOutput gc; Verbosity := Verbosity gc;
     Retries := Retries gc; MaxDepth := MaxDepth gc;
     CacheSize := CacheSize gc; InputHandler := InputHandler gc;
     OutputHandler := OutputHandler gc; TCPOnly := TCPOnly gc;
     UDPOnly := UDPOnly gc; Module_ := Module_ gc; Timeout := Timeout gc;
     IterationTimeout := IterationTimeout gc; Class_ := Class_ gc;
     NameServers := NameServers gc; NameServersSpecified := v;
     TimeFormat := TimeFormat gc; OutputGroups := OutputGroups gc;
     PassedName := PassedName gc |}.

Definition set_TimeFormat (v : string) (gc : GlobalConf) : GlobalConf :=
  {| Threads := Threads gc; GoMaxProcs := GoMaxProcs gc;
     NamePrefix := NamePrefix gc; AlexaFormat := AlexaFormat gc;
     IterativeResolution := IterativeResolution gc;
     InputFilePath := InputFilePath gc; OutputFilePath := OutputFilePath gc;
     MetadataFilePath := MetadataFilePath gc; LogFilePath := LogFilePath gc;
     ResultVerbosity := ResultVerbosity gc;
     IncludeInOutput := IncludeInOutput gc; Verbosity := Verbosity gc;
     Retries := Retries gc; MaxDepth := MaxDepth gc;
     CacheSize := CacheSize gc; InputHandler := InputHandler gc;
     OutputHandler := OutputHandler gc; TCPOnly := TCPOnly gc;
     UDPOnly := UDPOnly gc; Module_ := Module_ gc; Timeout := Timeout gc;
     IterationTimeout := IterationTimeout gc; Class_ := Class_ gc;
     NameServers := NameServers gc;
     NameServersSpecified := NameServersSpecified gc; TimeFormat := v;
     OutputGroups := OutputGroups gc; PassedName := PassedName gc |}.

Definition set_OutputGroups (v : list string) (gc : GlobalConf) : GlobalConf :=
  {| Threads := Threads gc; GoMaxProcs := GoMaxProcs gc;
     NamePrefix := NamePrefix gc; AlexaFormat := AlexaFormat gc;
     IterativeResolution := IterativeResolution gc;
     InputFilePath := InputFilePath gc; OutputFilePath := OutputFilePath gc;
     MetadataFilePath := MetadataFilePath gc; LogFilePath := LogFilePath gc;
     ResultVerbosity := ResultVerbosity gc;
     IncludeInOutput := IncludeInOutput gc; Verbosity := Verbosity gc;
     Retries := Retries gc; MaxDepth := MaxDepth gc;
     CacheSize := CacheSize gc; InputHandler := InputHandler gc;
     OutputHandler := OutputHandler gc; TCPOnly := TCPOnly gc;
     UDPOnly := UDPOnly gc; Module_ := Module_ gc; Timeout := Timeout gc;
     IterationTimeout := IterationTimeout gc; Class_ := Class_ gc;
     NameServers := NameServers gc;
     NameServersSpecified := NameServersSpecified gc;
     TimeFormat := TimeFormat gc; OutputGroups := v;
     PassedName := PassedName gc |}.

Definition set_PassedName (v : string) (gc : GlobalConf) : GlobalConf :=
  {| Threads := Threads gc; GoMaxProcs := GoMaxProcs gc;
     NamePrefix := NamePrefix gc; AlexaFormat := AlexaFormat gc;
     IterativeResolution := IterativeResolution gc;
     InputFilePath := InputFilePath gc; OutputFilePath := OutputFilePath gc;
     MetadataFilePath := MetadataFilePath gc; LogFilePath := LogFilePath gc;
     ResultVerbosity := ResultVerbosity gc;
     IncludeInOutput := IncludeInOutput gc; Verbosity := Verbosity gc;
     Retries := Retries gc; MaxDepth := MaxDepth gc;
     CacheSize := CacheSize gc; InputHandler := InputHandler gc;
     OutputHandler := OutputHandler gc; TCPOnly := TCPOnly gc;
     UDPOnly := UDPOnly gc; Module_ := Module_ gc; Timeout := Timeout gc;
     IterationTimeout := IterationTimeout gc; Class_ := Class_ gc;
     NameServers := NameServers gc;
     NameServersSpecified := NameServersSpecified gc;
     TimeFormat := TimeFormat gc; OutputGroups := OutputGroups gc;
     PassedName := v |}.

(** ** Fatal exits

    One constructor per [log.Fatal] / [log.Fatalf] call of [main], in the
    order of the source, one for the exit of the [flag] package
    ([flag.ExitOnError]: a usage error, or [-help]), and one for the
    run-time panic of line 193: line 190 drops the error of
    [os.Stdin.Stat()], and when that call fails its [FileInfo] is nil, so
    that [stat.Mode()] is a nil dereference. *)

Inductive FatalError : Type :=
| NoModuleSpecified (valid : string)        (* line 74 *)
| FlagExit                                  (* lines 79, 83 *)
| InvalidModule (valid : string)            (* line 80 *)
| LogFileUnopenable (path err : string)     (* line 89 *)
| UnknownVerbosity                          (* line 106 *)
| UnknownClass                              (* line 126 *)
| NameServersUnavailable (err : string)     (* line 137 *)
| FileUnreadable (path err : string)        (* line 149 *)
| FileEmpty (path : string)                 (* line 152 *)
| InvalidGoProcesses                        (* line 172 *)
| TransportConflict                         (* line 178 *)
| InvalidResultVerbosity                    (* line 183 *)
| NilStatPanic                              (* line 193 *)
| UnusedArguments (args : list string)      (* line 196 *)
| StdinNotAllowed                           (* line 205 *)
| InitializeFailed (err : string)           (* line 210 *)
| LookupsFailed (err : string)              (* line 214 *)
| FinalizeFailed (err : string).            (* line 218 *)

Inductive Result (A : Type) : Type :=
| Fatal (e : FatalError)
| Ok (a : A).

Arguments Fatal {A} e.
Arguments Ok {A} a.

Definition bind {A B : Type} (m : Result A) (k : A -> Result B) : Result B :=
  match m with
  | Fatal e => Fatal e
  | Ok a => k a
  end.

Notation "x <- m ;; k" := (bind m (fun x => k))
  (at level 100, m at next level, right associativity).

Notation "m ;;; k" := (bind m (fun _ => k))
  (at level 100, right associativity).

(** [if cond { log.Fatal(...) }] *)
Definition fatalIf (cond : bool) (e : FatalError) : Result unit :=
  if cond then Fatal e else Ok tt.

(** ** The world around [main] *)

(** [zdns.GlobalLookupFactory], as far as [main] calls it.  [AddFlags] acts
    on the flag set and shows in what [flagsParse] accepts.  [Initialize]
    receives [&gc] and may write to it. *)
Record GlobalLookupFactory : Type := mkFactory {
  AllowStdIn : bool;
  Initialize : GlobalConf -> GlobalConf * option string;
  Finalize : option string
}.

(** Package [zdns] (not part of this program's source) and the operating
    system.  A [string] in an [inl] or in an [option] result is the text of
    a Go [error]. *)
Record Env : Type := mkEnv {
  (* package zdns *)
  RootServers : list string;
  GetLookup : string -> option GlobalLookupFactory;
  ValidlookupsString : string;
  GetDNSServers : string -> string + list string;
  DoLookups : GlobalLookupFactory -> GlobalConf -> option string;
  (* package unicode: case mapping of text that is not ASCII *)
  unicodeToUpper : string -> string;
  (* package flag: the parse of the given arguments by the flag set, with
     the flags of the given module added; [None] when the package exits *)
  flagsParse : option GlobalLookupFactory -> list string -> option Flags;
  (* package os *)
  osArgs : list string;
  OpenFile : string -> option string;
  ReadFile : string -> string + string;
  (* [os.Stdin.Stat()]: the mode of the [FileInfo], [None] when the call
     fails and the [FileInfo] is nil *)
  stdinStat : option Z;
  (* whether standard input is a terminal; [main] has no way to ask *)
  stdinTerminal : bool
}.

(** What [main] leaves behind apart from [gc]: the logger's output and level,
    and [GOMAXPROCS] when it was set. *)
Record Runtime : Type := mkRuntime {
  logOutput : option string;
  logLevel : log.Level;
  maxProcs : option Z
}.

(** ** The stages of [main] *)

(** Lines 86-92: the log file. *)
Definition openLog (env : Env) (LogFilePath : string) : Result (option string) :=
  if String.eqb LogFilePath "" then Ok None
  else match OpenFile env LogFilePath with
       | Some err => Fatal (LogFileUnopenable LogFilePath err)
       | None => Ok (Some LogFilePath)
       end.

(** Lines 94-107: [switch gc.Verbosity]. *)
Definition levelOf (Verbosity : Z) : Result log.Level :=
  if Verbosity =? 1 then Ok log.FatalLevel
  else if Verbosity =? 2 then Ok log.ErrorLevel
  else if Verbosity =? 3 then Ok log.WarnLevel
  else if Verbosity =? 4 then Ok log.InfoLevel
  else if Verbosity =? 5 then Ok log.DebugLevel
  else Fatal UnknownVerbosity.

(** Lines 112-128: [switch strings.ToUpper( *class_string )]. *)
Definition classOf (env : Env) (class_string : string) : Result Z :=
  let u := strings.ToUpper (unicodeToUpper env) class_string in
  if String.eqb u "INET" || String.eqb u "IN" then Ok dns.ClassINET
  else if String.eqb u "CSNET" || String.eqb u "CS" then Ok dns.ClassCSNET
  else if String.eqb u "CHAOS" || String.eqb u "CH" then Ok dns.ClassCHAOS
  else if String.eqb u "HESIOD" || String.eqb u "HS" then Ok dns.ClassHESIOD
  else if String.eqb u "NONE" then Ok dns.ClassNONE
  else if String.eqb u "ANY" then Ok dns.ClassANY
  else Fatal UnknownClass.

(** Lines 159-161, the body of the loop at index [i]: [s] is [ns[i]]. *)
Definition repairAt (ns : list string) (i : nat) : list string :=
  match ns !! i with
  | Some s =>
      if negb (strings.Contains s ":")
      then <[i := strings.TrimSpace s +:+ ":53"]> ns
      else ns
  | None => ns
  end.

(** Lines 158-162: [for i, s := range ns], an update in place. *)
Definition repairPorts (ns : list string) : list string :=
  foldl repairAt ns (seq 0 (length ns)).

(** Lines 159-161 on one entry. *)
Definition repairEntry (s : string) : string :=
  if negb (strings.Contains s ":") then strings.TrimSpace s +:+ ":53" else s.

(** Lines 145-157: the entries of an explicit designation, whose first byte
    is [c]: the lines of the file named after ['@'], or the inline list. *)
Definition designated (env : Env) (c : ascii) (rest : string) : Result (list string) :=
  if Ascii.eqb c "@"
  then let filepath := rest in
       match ReadFile env filepath with
       | inl err => Fatal (FileUnreadable filepath err)
       | inr f =>
           if (String.length f =? 0)%nat then Fatal (FileEmpty filepath)
           else Ok (strings.Split (strings.Trim f LF) LF)
       end
  else Ok (strings.Split (String c rest) ",").

(** Lines 129-165: [gc.NameServers] and [gc.NameServersSpecified]. *)
Definition nameServers (env : Env) (iterative : bool)
    (servers_string config_file : string) : Result (list string * bool) :=
  match servers_string with
  | EmptyString =>
      if iterative then Ok (RootServers env, false)
      else match GetDNSServers env config_file with
           | inl err => Fatal (NameServersUnavailable err)
           | inr ns => Ok (ns, false)
           end
  | String c rest =>
      ns <- designated env c rest ;;
      Ok (repairPorts ns, true)
  end.

(** Lines 181-187: the output groups.  [groups] is computed first, the
    verbosity is checked, then both are appended to [gc.OutputGroups]. *)
Definition outputGroups (OutputGroups : list string)
    (ResultVerbosity IncludeInOutput : string) : Result (list string) :=
  let groups := strings.Split IncludeInOutput "," in
  fatalIf (negb (String.eqb ResultVerbosity "short")
           && negb (String.eqb ResultVerbosity "normal")
           && negb (String.eqb ResultVerbosity "long")
           && negb (String.eqb ResultVerbosity "trace"))
          InvalidResultVerbosity ;;;
  Ok ((OutputGroups ++ [ResultVerbosity]) ++ groups).

(** Line 193: the condition under which a left-over argument is a name to
    look up. *)
Definition digLike (mode : Z) (InputFilePath : string) (args : list string) : bool :=
  negb (Z.land mode os.ModeCharDevice =? 0)
  && String.eqb InputFilePath "-"
  && (length args =? 1)%nat.

(** Lines 189-198: [gc.PassedName].  [stat.Mode()] is the first thing
    line 193 evaluates. *)
Definition passedName (env : Env) (args : list string) (gc : GlobalConf) : Result GlobalConf :=
  if (0 <? length args)%nat then
    match stdinStat env with
    | None => Fatal NilStatPanic
    | Some mode =>
        if digLike mode (InputFilePath gc) args
        then Ok (set_PassedName (nth 0 args "") gc)
        else Fatal (UnusedArguments args)
    end
  else Ok gc.

(** Lines 73-83: the module and the command line. *)
Definition moduleAndFlags (env : Env) : Result (GlobalLookupFactory * string * Flags) :=
  match osArgs env with
  | _ :: name :: rest =>
      let module := strings.ToUpper (unicodeToUpper env) name in
      match GetLookup env module with
      | None =>
          match flagsParse env None (name :: rest) with
          | None => Fatal FlagExit
          | Some _ => Fatal (InvalidModule (ValidlookupsString env))
          end
      | Some factory =>
          match flagsParse env (Some factory) rest with
          | None => Fatal FlagExit
          | Some f => Ok (factory, module, f)
          end
      end
  | _ => Fatal (NoModuleSpecified (ValidlookupsString env))
  end.

(** Lines 84-206: from the parsed flags to the configuration that is handed
    over.  The calls that only log ([log.Info]) and the seeding of
    [math/rand] leave no trace here. *)
Definition resolveConf (env : Env) (factory : GlobalLookupFactory)
    (module : string) (f : Flags) : Result (GlobalConf * Runtime) :=
  let gc := parsedConf module f in
  out <- openLog env (LogFilePath gc) ;;
  level <- levelOf (Verbosity gc) ;;
  let gc := set_Timeout (time.ofSeconds (timeout f)) gc in
  let gc := set_IterationTimeout (time.ofSeconds (iterationTimeout f)) gc in
  class <- classOf env (class_string f) ;;
  let gc := set_Class_ class gc in
  ns <- nameServers env (IterativeResolution gc) (servers_string f) (config_file f) ;;
  let gc := set_NameServersSpecified (snd ns) (set_NameServers (fst ns) gc) in
  let gc := set_TimeFormat (if nanoSeconds f then time.RFC3339Nano else time.RFC3339) gc in
  fatalIf (GoMaxProcs gc <? 0) InvalidGoProcesses ;;;
  let procs := if negb (GoMaxProcs gc =? 0) then Some (GoMaxProcs gc) else None in
  fatalIf (UDPOnly gc && TCPOnly gc) TransportConflict ;;;
  groups <- outputGroups (OutputGroups gc) (ResultVerbosity gc) (IncludeInOutput gc) ;;
  let gc := set_OutputGroups groups gc in
  gc <- passedName env (Args f) gc ;;
  fatalIf (negb (AllowStdIn factory) && String.eqb (InputFilePath gc) "-") StdinNotAllowed ;;;
  Ok (gc, {| logOutput := out; logLevel := level; maxProcs := procs |}).

(** Lines 40-206: everything [main] does before it calls the factory's
    [Initialize]. *)
Definition configure (env : Env) : Result (GlobalLookupFactory * GlobalConf * Runtime) :=
  mf <- moduleAndFlags env ;;
  let '(factory, module, f) := mf in
  c <- resolveConf env factory module f ;;
  Ok (factory, fst c, snd c).

(** Lines 208-219: the hand-over to the module and to the engine. *)
Definition handOver (env : Env) (factory : GlobalLookupFactory) (gc : GlobalConf) : Result GlobalConf :=
  let '(gc, err) := Initialize factory gc in
  match err with
  | Some e => Fatal (InitializeFailed e)
  | None =>
      match DoLookups env factory gc with
      | Some e => Fatal (LookupsFailed e)
      | None =>
          match Finalize factory with
          | Some e => Fatal (FinalizeFailed e)
          | None => Ok gc
          end
      end
  end.

Definition main (env : Env) : Result GlobalConf :=
  c <- configure env ;;
  let '(factory, gc, _) := c in
  handOver env factory gc.

(** ** Command lines

    The flags as a command line leaves them, starting from the defaults. *)

(** [--name-servers] *)
Definition with_name_servers (v_servers_string : string) (f : Flags) : Flags :=
  {| flag_threads := flag_threads f;
     flag_go_processes := flag_go_processes f; flag_prefix := flag_prefix f;
     flag_alexa := flag_alexa f; flag_iterative := flag_iterative f;
     flag_input_file := flag_input_file f;
     flag_output_file := flag_output_file f;
     flag_metadata_file := flag_metadata_file f;
     flag_log_file := flag_log_file f;
     flag_result_verbosity := flag_result_verbosity f;
     flag_include_fields := flag_include_fields f;
     flag_verbosity := flag_verbosity f; flag_retries := flag_retries f;
     flag_max_depth := flag_max_depth f;
     flag_cache_size := flag_cache_size f;
     flag_input_handler := flag_input_handler f;
     flag_output_handler := flag_output_handler f;
     flag_tcp_only := flag_tcp_only f; flag_udp_only := flag_udp_only f;
     servers_string := v_servers_string; config_file := config_file f;
     timeout := timeout f; iterationTimeout := iterationTimeout f;
     class_string := class_string f; nanoSeconds := nanoSeconds f;
     Args := Args f |}.

(** [--iterative] *)
Definition with_iterative (v_flag_iterative : bool) (f : Flags) : Flags :=
  {| flag_threads := flag_threads f;
     flag_go_processes := flag_go_processes f; flag_prefix := flag_prefix f;
     flag_alexa := flag_alexa f; flag_iterative := v_flag_iterative;
     flag_input_file := flag_input_file f;
     flag_output_file := flag_output_file f;
     flag_metadata_file := flag_metadata_file f;
     flag_log_file := flag_log_file f;
     flag_result_verbosity := flag_result_verbosity f;
     flag_include_fields := flag_include_fields f;
     flag_verbosity := flag_verbosity f; flag_retries := flag_retries f;
     flag_max_depth := flag_max_depth f;
     flag_cache_size := flag_cache_size f;
     flag_input_handler := flag_input_handler f;
     flag_output_handler := flag_output_handler f;
     flag_tcp_only := flag_tcp_only f; flag_udp_only := flag_udp_only f;
     servers_string := servers_string f; config_file := config_file f;
     timeout := timeout f; iterationTimeout := iterationTimeout f;
     class_string := class_string f; nanoSeconds := nanoSeconds f;
     Args := Args f |}.

(** [--tcp-only], [--udp-only] *)
Definition with_transport (v_flag_tcp_only : bool) (v_flag_udp_only : bool) (f : Flags) : Flags :=
  {| flag_threads := flag_threads f;
     flag_go_processes := flag_go_processes f; flag_prefix := flag_prefix f;
     flag_alexa := flag_alexa f; flag_iterative := flag_iterative f;
     flag_input_file := flag_input_file f;
     flag_output_file := flag_output_file f;
     flag_metadata_file := flag_metadata_file f;
     flag_log_file := flag_log_file f;
     flag_result_verbosity := flag_result_verbosity f;
     flag_include_fields := flag_include_fields f;
     flag_verbosity := flag_verbosity f; flag_retries := flag_retries f;
     flag_max_depth := flag_max_depth f;
     flag_cache_size := flag_cache_size f;
     flag_input_handler := flag_input_handler f;
     flag_output_handler := flag_output_handler f;
     flag_tcp_only := v_flag_tcp_only; flag_udp_only := v_flag_udp_only;
     servers_string := servers_string f; config_file := config_file f;
     timeout := timeout f; iterationTimeout := iterationTimeout f;
     class_string := class_string f; nanoSeconds := nanoSeconds f;
     Args := Args f |}.

(** [--result-verbosity], [--include-fields] *)
Definition with_output (v_flag_result_verbosity : string) (v_flag_include_fields : string) (f : Flags) : Flags :=
  {| flag_threads := flag_threads f;
     flag_go_processes := flag_go_processes f; flag_prefix := flag_prefix f;
     flag_alexa := flag_alexa f; flag_iterative := flag_iterative f;
     flag_input_file := flag_input_file f;
     flag_output_file := flag_output_file f;
     flag_metadata_file := flag_metadata_file f;
     flag_log_file := flag_log_file f;
     flag_result_verbosity := v_flag_result_verbosity;
     flag_include_fields := v_flag_include_fields;
     flag_verbosity := flag_verbosity f; flag_retries := flag_retries f;
     flag_max_depth := flag_max_depth f;
     flag_cache_size := flag_cache_size f;
     flag_input_handler := flag_input_handler f;
     flag_output_handler := flag_output_handler f;
     flag_tcp_only := flag_tcp_only f; flag_udp_only := flag_udp_only f;
     servers_string := servers_string f; config_file := config_file f;
     timeout := timeout f; iterationTimeout := iterationTimeout f;
     class_string := class_string f; nanoSeconds := nanoSeconds f;
     Args := Args f |}.

(** [--timeout], [--iteration-timeout] *)
Definition with_timeouts (v_timeout : Z) (v_iterationTimeout : Z) (f : Flags) : Flags :=
  {| flag_threads := flag_threads f;
     flag_go_processes := flag_go_processes f; flag_prefix := flag_prefix f;
     flag_alexa := flag_alexa f; flag_iterative := flag_iterative f;
     flag_input_file := flag_input_file f;
     flag_output_file := flag_output_file f;
     flag_metadata_file := flag_metadata_file f;
     flag_log_file := flag_log_file f;
     flag_result_verbosity := flag_result_verbosity f;
     flag_include_fields := flag_include_fields f;
     flag_verbosity := flag_verbosity f; flag_retries := flag_retries f;
     flag_max_depth := flag_max_depth f;
     flag_cache_size := flag_cache_size f;
     flag_input_handler := flag_input_handler f;
     flag_output_handler := flag_output_handler f;
     flag_tcp_only := flag_tcp_only f; flag_udp_only := flag_udp_only f;
     servers_string := servers_string f; config_file := config_file f;
     timeout := v_timeout; iterationTimeout := v_iterationTimeout;
     class_string := class_string f; nanoSeconds := nanoSeconds f;
     Args := Args f |}.

(** [--class] *)
Definition with_class (v_class_string : string) (f : Flags) : Flags :=
  {| flag_threads := flag_threads f;
     flag_go_processes := flag_go_processes f; flag_prefix := flag_prefix f;
     flag_alexa := flag_alexa f; flag_iterative := flag_iterative f;
     flag_input_file := flag_input_file f;
     flag_output_file := flag_output_file f;
     flag_metadata_file := flag_metadata_file f;
     flag_log_file := flag_log_file f;
     flag_result_verbosity := flag_result_verbosity f;
     flag_include_fields := flag_include_fields f;
     flag_verbosity := flag_verbosity f; flag_retries := flag_retries f;
     flag_max_depth := flag_max_depth f;
     flag_cache_size := flag_cache_size f;
     flag_input_handler := flag_input_handler f;
     flag_output_handler := flag_output_handler f;
     flag_tcp_only := flag_tcp_only f; flag_udp_only := flag_udp_only f;
     servers_string := servers_string f; config_file := config_file f;
     timeout := timeout f; iterationTimeout := iterationTimeout f;
     class_string := v_class_string; nanoSeconds := nanoSeconds f;
     Args := Args f |}.

(** [--input-file] *)
Definition with_input_file (v_flag_input_file : string) (f : Flags) : Flags :=
  {| flag_threads := flag_threads f;
     flag_go_processes := flag_go_processes f; flag_prefix := flag_prefix f;
     flag_alexa := flag_alexa f; flag_iterative := flag_iterative f;
     flag_input_file := v_flag_input_file;
     flag_output_file := flag_output_file f;
     flag_metadata_file := flag_metadata_file f;
     flag_log_file := flag_log_file f;
     flag_result_verbosity := flag_result_verbosity f;
     flag_include_fields := flag_include_fields f;
     flag_verbosity := flag_verbosity f; flag_retries := flag_retries f;
     flag_max_depth := flag_max_depth f;
     flag_cache_size := flag_cache_size f;
     flag_input_handler := flag_input_handler f;
     flag_output_handler := flag_output_handler f;
     flag_tcp_only := flag_tcp_only f; flag_udp_only := flag_udp_only f;
     servers_string := servers_string f; config_file := config_file f;
     timeout := timeout f; iterationTimeout := iterationTimeout f;
     class_string := class_string f; nanoSeconds := nanoSeconds f;
     Args := Args f |}.

(** Arguments after the flags. *)
Definition with_args (v_Args : list string) (f : Flags) : Flags :=
  {| flag_threads := flag_threads f;
     flag_go_processes := flag_go_processes f; flag_prefix := flag_prefix f;
     flag_alexa := flag_alexa f; flag_iterative := flag_iterative f;
     flag_input_file := flag_input_file f;
     flag_output_file := flag_output_file f;
     flag_metadata_file := flag_metadata_file f;
     flag_log_file := flag_log_file f;
     flag_result_verbosity := flag_result_verbosity f;
     flag_include_fields := flag_include_fields f;
     flag_verbosity := flag_verbosity f; flag_retries := flag_retries f;
     flag_max_depth := flag_max_depth f;
     flag_cache_size := flag_cache_size f;
     flag_input_handler := flag_input_handler f;
     flag_output_handler := flag_output_handler f;
     flag_tcp_only := flag_tcp_only f; flag_udp_only := flag_udp_only f;
     servers_string := servers_string f; config_file := config_file f;
     timeout := timeout f; iterationTimeout := iterationTimeout f;
     class_string := class_string f; nanoSeconds := nanoSeconds f;
     Args := v_Args |}.

(** ** A sample world

    One module, ["A"], that reads standard input; one readable file,
    ["servers.txt"]; a resolver configuration at the default path. *)

Definition sampleFactory : GlobalLookupFactory :=
  {| AllowStdIn := true;
     Initialize := fun gc => (gc, None);
     Finalize := None |}.

(** [os.FileMode] of a terminal ([Dcrw--w----]), of [/dev/null]
    ([Dcrw-rw-rw-]) and of a pipe ([prw-------]). *)
Definition terminalMode : Z := Z.lor (Z.shiftl 1 26) (Z.lor (Z.shiftl 1 21) 400).

Definition devNullMode : Z := Z.lor (Z.shiftl 1 26) (Z.lor (Z.shiftl 1 21) 438).

Definition pipeMode : Z := Z.lor (Z.shiftl 1 25) 384.

(** What standard input is attached to in the sample worlds; with a closed
    descriptor [Stat] fails. *)
Inductive StdinKind : Set :=
| Terminal
| DevNull
| Pipe
| ClosedStdin.

Definition statOf (kind : StdinKind) : option Z :=
  match kind with
  | Terminal => Some terminalMode
  | DevNull => Some devNullMode
  | Pipe => Some pipeMode
  | ClosedStdin => None
  end.

Definition isTerminal (kind : StdinKind) : bool :=
  match kind with
  | Terminal => true
  | _ => false
  end.

Definition sampleEnv (f : Flags) (file : string) (kind : StdinKind) : Env :=
  {| RootServers := ["198.41.0.4:53"; "192.228.79.201:53"];
     GetLookup := fun m => if String.eqb m "A" then Some sampleFactory else None;
     ValidlookupsString := "A";
     GetDNSServers := fun path =>
       if String.eqb path "/etc/resolv.conf" then inr ["127.0.0.1:53"]
       else inl "no such file or directory";
     DoLookups := fun _ _ => None;
     unicodeToUpper := fun s => s;
     flagsParse := fun _ _ => Some f;
     osArgs := ["zdns"; "a"];
     OpenFile := fun _ => None;
     ReadFile := fun path =>
       if String.eqb path "servers.txt" then inr file
       else inl "no such file or directory";
     stdinStat := statOf kind;
     stdinTerminal := isTerminal kind |}.

(** Sample command lines and worlds. *)

Definition inlineFlags : Flags :=
  with_name_servers "10.0.0.1,10.0.0.2:5353" defaultFlags.

Definition inlineEnv : Env := sampleEnv inlineFlags "" Pipe.

Definition fileFlags : Flags := with_name_servers "@servers.txt" defaultFlags.

Definition twoLines : string := "a.b.c" +:+ LF +:+ "d.e.f" +:+ LF.

Definition fileEnv : Env := sampleEnv fileFlags twoLines Pipe.

Definition leadingBlank : string := LF +:+ "a.b.c" +:+ LF.

Definition leadingBlankEnv : Env := sampleEnv fileFlags leadingBlank Pipe.

Definition iterativeFlags : Flags := with_iterative true defaultFlags.

Definition iterativeEnv : Env := sampleEnv iterativeFlags "" Pipe.

Definition defaultEnv : Env := sampleEnv defaultFlags "" Pipe.

Definition longFlags : Flags := with_output "long" "class,ttl" defaultFlags.

Definition longEnv : Env := sampleEnv longFlags "" Pipe.

Definition bogusTierFlags : Flags := with_output "bogus" "" defaultFlags.

Definition digFlags : Flags := with_args ["example.com"] defaultFlags.

Definition digEnv : Env := sampleEnv digFlags "" Terminal.

Definition pipedDigEnv : Env := sampleEnv digFlags "" Pipe.

Definition devNullDigEnv : Env := sampleEnv digFlags "" DevNull.

Definition closedDigEnv : Env := sampleEnv digFlags "" ClosedStdin.

Definition twoArgsFlags : Flags := with_args ["example.com"; "example.org"] defaultFlags.

Definition twoArgsEnv : Env := sampleEnv twoArgsFlags "" Terminal.

Definition conflictFlags : Flags := with_transport true true defaultFlags.

Definition conflictEnv : Env := sampleEnv conflictFlags "" Pipe.

Definition bogusConflictFlags : Flags := with_transport true true bogusTierFlags.

Definition bogusConflictEnv : Env := sampleEnv bogusConflictFlags "" Pipe.

Definition bogusClassFlags : Flags := with_class "bogus" defaultFlags.

Definition negativeFlags : Flags := with_timeouts (-1) (-5) defaultFlags.

Definition negativeEnv : Env := sampleEnv negativeFlags "" Pipe.

Definition spacedFlags : Flags := with_name_servers " 1.2.3.4:5353, 8.8.8.8 " defaultFlags.

Definition spacedEnv : Env := sampleEnv spacedFlags "" Pipe.

(** ** The statements under test, in the words of the specification *)

(** A run of white space: encodings of white space code points, one after
    the other. *)
Inductive Spaces : string -> Prop :=
| Spaces_nil : Spaces ""
| Spaces_cons (e a : string) :
    In e strings.spaceEncodings -> Spaces a -> Spaces (e +:+ a).

(** [n] copies of one byte. *)
Fixpoint repeatByte (c : ascii) (n : nat) : string :=
  match n with
  | O => EmptyString
  | S n' => String c (repeatByte c n')
  end.


(** The class synonyms: full name or two-letter form, and the class code. *)
Definition classTable : list (string * Z) :=
  [("INET", dns.ClassINET); ("IN", dns.ClassINET);
   ("CSNET", dns.ClassCSNET); ("CS", dns.ClassCSNET);
   ("CHAOS", dns.ClassCHAOS); ("CH", dns.ClassCHAOS);
   ("HESIOD", dns.ClassHESIOD); ("HS", dns.ClassHESIOD);
   ("NONE", dns.ClassNONE); ("ANY", dns.ClassANY)].

Definition classCode (name : string) : option Z :=
  snd <$> List.find (fun p => String.eqb name (fst p)) classTable.

(** The verbosity tiers. *)
Definition tiers : list string := ["short"; "normal"; "long"; "trace"].

(** "Split on line breaks, trailing blank lines trimmed", read literally:
    only the end of the content is trimmed. *)
Definition linesTrailingTrimmed (content : string) : list string :=
  strings.Split (strings.TrimRight content LF) LF.

(** What [main] looks at on line 193: [Stat] on standard input succeeds
    and the mode has the character device bit.  A terminal has it, and so
    has [/dev/null]. *)
Definition stdinCharDevice (env : Env) : Prop :=
  exists mode, stdinStat env = Some mode /\ Z.land mode os.ModeCharDevice <> 0.

(** "Standard input is attached to an interactive terminal (not piped)". *)
Definition stdinInteractive (env : Env) : Prop := stdinTerminal env = true.

(** The condition of line 193 on the standard input of the world; no name
    is accepted when [Stat] fails. *)
Definition digLikeOn (env : Env) (InputFilePath : string) (args : list string) : bool :=
  match stdinStat env with
  | Some mode => digLike mode InputFilePath args
  | None => false
  end.

(** The outcome of lines 189-198 as a check on the flags. *)
Definition leftOverCheck (env : Env) (InputFilePath : string) (args : list string)
    : option FatalError :=
  match args with
  | [] => None
  | _ :: _ =>
      match stdinStat env with
      | None => Some NilStatPanic
      | Some mode =>
          if digLike mode InputFilePath args then None
          else Some (UnusedArguments args)
      end
  end.

Definition failure {A : Type} (m : Result A) : option FatalError :=
  match m with
  | Fatal e => Some e
  | Ok _ => None
  end.

(** The configuration a successful resolution hands over. *)
Definition conf (r : Result (GlobalConf * Runtime)) : option GlobalConf :=
  match r with
  | Ok (gc, _) => Some gc
  | Fatal _ => None
  end.

(** The value of a run that did not fail. *)
Definition failure_free {A : Type} (m : Result A) : option A :=
  match m with
  | Ok a => Some a
  | Fatal _ => None
  end.

(** The configuration and the runtime settings of the default command line
    in the sample world. *)
Definition parsedConfDefault : GlobalConf :=
  set_OutputGroups ["normal"; ""]
    (set_TimeFormat time.RFC3339
       (set_NameServersSpecified false
          (set_NameServers ["127.0.0.1:53"]
             (set_Class_ dns.ClassINET
                (set_IterationTimeout 4000000000
                   (set_Timeout 15000000000 (parsedConf "A" defaultFlags))))))).

Definition runtimeDefault : Runtime :=
  {| logOutput := None; logLevel := log.WarnLevel; maxProcs := None |}.

(** The same with [--timeout=-1 --iteration-timeout=-5], and with
    [--result-verbosity=long --include-fields=class,ttl]. *)
Definition negativeConf : GlobalConf :=
  set_IterationTimeout (-5000000000) (set_Timeout (-1000000000) parsedConfDefault).

Definition longConf : GlobalConf :=
  set_OutputGroups ["long"; "class"; "ttl"]
    (set_TimeFormat time.RFC3339
       (set_NameServersSpecified false
          (set_NameServers ["127.0.0.1:53"]
             (set_Class_ dns.ClassINET
                (set_IterationTimeout 4000000000
                   (set_Timeout 15000000000 (parsedConf "A" longFlags))))))).

(** The checks after the parse, each one evaluated on the flags alone, in
    the order in which [main] makes them. *)
Definition checks (env : Env) (factory : GlobalLookupFactory) (f : Flags) : list (option FatalError) :=
  [ failure (openLog env (flag_log_file f));
    failure (levelOf (flag_verbosity f));
    failure (classOf env (class_string f));
    failure (nameServers env (flag_iterative f) (servers_string f) (config_file f));
    failure (fatalIf (flag_go_processes f <? 0) InvalidGoProcesses);
    failure (fatalIf (flag_udp_only f && flag_tcp_only f) TransportConflict);
    failure (outputGroups [] (flag_result_verbosity f) (flag_include_fields f));
    leftOverCheck env (flag_input_file f) (Args f);
    failure (fatalIf (negb (AllowStdIn factory) && String.eqb (flag_input_file f) "-")
                     StdinNotAllowed) ].

Fixpoint firstFailure (l : list (option FatalError)) : option FatalError :=
  match l with
  | [] => None
  | Some e :: _ => Some e
  | None :: l' => firstFailure l'
  end.

(** ** Further definitions

    The numeric value of a [logrus.Level] ([PanicLevel] is 0, [DebugLevel]
    is 5). *)
Definition levelValue (l : log.Level) : Z :=
  match l with
  | log.PanicLevel => 0
  | log.FatalLevel => 1
  | log.ErrorLevel => 2
  | log.WarnLevel => 3
  | log.InfoLevel => 4
  | log.DebugLevel => 5
  end.

(** [strings.Count(s, string(c))] for one byte. *)
Fixpoint countByte (c : ascii) (s : string) : nat :=
  match s with
  | EmptyString => O
  | String d s' => if Ascii.eqb d c then S (countByte c s') else countByte c s'
  end.

(** The class codes [main] can assign. *)
Definition classCodes : list Z :=
  [dns.ClassINET; dns.ClassCSNET; dns.ClassCHAOS; dns.ClassHESIOD;
   dns.ClassNONE; dns.ClassANY].

(** [--go-processes] *)
Definition with_go_processes (v_flag_go_processes : Z) (f : Flags) : Flags :=
  {| flag_threads := flag_threads f;
     flag_go_processes := v_flag_go_processes; flag_prefix := flag_prefix f;
     flag_alexa := flag_alexa f; flag_iterative := flag_iterative f;
     flag_input_file := flag_input_file f;
     flag_output_file := flag_output_file f;
     flag_metadata_file := flag_metadata_file f;
     flag_log_file := flag_log_file f;
     flag_result_verbosity := flag_result_verbosity f;
     flag_include_fields := flag_include_fields f;
     flag_verbosity := flag_verbosity f; flag_retries := flag_retries f;
     flag_max_depth := flag_max_depth f;
     flag_cache_size := flag_cache_size f;
     flag_input_handler := flag_input_handler f;
     flag_output_handler := flag_output_handler f;
     flag_tcp_only := flag_tcp_only f; flag_udp_only := flag_udp_only f;
     servers_string := servers_string f; config_file := config_file f;
     timeout := timeout f; iterationTimeout := iterationTimeout f;
     class_string := class_string f; nanoSeconds := nanoSeconds f;
     Args := Args f |}.

(** [--verbosity] *)
Definition with_verbosity (v_flag_verbosity : Z) (f : Flags) : Flags :=
  {| flag_threads := flag_threads f;
     flag_go_processes := flag_go_processes f; flag_prefix := flag_prefix f;
     flag_alexa := flag_alexa f; flag_iterative := flag_iterative f;
     flag_input_file := flag_input_file f;
     flag_output_file := flag_output_file f;
     flag_metadata_file := flag_metadata_file f;
     flag_log_file := flag_log_file f;
     flag_result_verbosity := flag_result_verbosity f;
     flag_include_fields := flag_include_fields f;
     flag_verbosity := v_flag_verbosity; flag_retries := flag_retries f;
     flag_max_depth := flag_max_depth f;
     flag_cache_size := flag_cache_size f;
     flag_input_handler := flag_input_handler f;
     flag_output_handler := flag_output_handler f;
     flag_tcp_only := flag_tcp_only f; flag_udp_only := flag_udp_only f;
     servers_string := servers_string f; config_file := config_file f;
     timeout := timeout f; iterationTimeout := iterationTimeout f;
     class_string := class_string f; nanoSeconds := nanoSeconds f;
     Args := Args f |}.

(** [--log-file] *)
Definition with_log_file (v_flag_log_file : string) (f : Flags) : Flags :=
  {| flag_threads := flag_threads f;
     flag_go_processes := flag_go_processes f; flag_prefix := flag_prefix f;
     flag_alexa := flag_alexa f; flag_iterative := flag_iterative f;
     flag_input_file := flag_input_file f;
     flag_output_file := flag_output_file f;
     flag_metadata_file := flag_metadata_file f;
     flag_log_file := v_flag_log_file;
     flag_result_verbosity := flag_result_verbosity f;
     flag_include_fields := flag_include_fields f;
     flag_verbosity := flag_verbosity f; flag_retries := flag_retries f;
     flag_max_depth := flag_max_depth f;
     flag_cache_size := flag_cache_size f;
     flag_input_handler := flag_input_handler f;
     flag_output_handler := flag_output_handler f;
     flag_tcp_only := flag_tcp_only f; flag_udp_only := flag_udp_only f;
     servers_string := servers_string f; config_file := config_file f;
     timeout := timeout f; iterationTimeout := iterationTimeout f;
     class_string := class_string f; nanoSeconds := nanoSeconds f;
     Args := Args f |}.

(** [--threads], [--retries], [--max-depth], [--cache-size] *)
Definition with_limits
    (v_flag_threads : Z) (v_flag_retries : Z) (v_flag_max_depth : Z) (v_flag_cache_size : Z) (f : Flags) : Flags :=
  {| flag_threads := v_flag_threads;
     flag_go_processes := flag_go_processes f; flag_prefix := flag_prefix f;
     flag_alexa := flag_alexa f; flag_iterative := flag_iterative f;
     flag_input_file := flag_input_file f;
     flag_output_file := flag_output_file f;
     flag_metadata_file := flag_metadata_file f;
     flag_log_file := flag_log_file f;
     flag_result_verbosity := flag_result_verbosity f;
     flag_include_fields := flag_include_fields f;
     flag_verbosity := flag_verbosity f; flag_retries := v_flag_retries;
     flag_max_depth := v_flag_max_depth;
     flag_cache_size := v_flag_cache_size;
     flag_input_handler := flag_input_handler f;
     flag_output_handler := flag_output_handler f;
     flag_tcp_only := flag_tcp_only f; flag_udp_only := flag_udp_only f;
     servers_string := servers_string f; config_file := config_file f;
     timeout := timeout f; iterationTimeout := iterationTimeout f;
     class_string := class_string f; nanoSeconds := nanoSeconds f;
     Args := Args f |}.

Definition negativeLimitsFlags : Flags := with_limits (-5) (-1) (-10) (-1) defaultFlags.

(** A module that needs a file to read, and a world where no log file can
    be opened. *)
Definition noStdinFactory : GlobalLookupFactory :=
  {| AllowStdIn := false;
     Initialize := fun gc => (gc, None);
     Finalize := None |}.

Definition readOnlyEnv (f : Flags) : Env :=
  {| RootServers := ["198.41.0.4:53"; "192.228.79.201:53"];
     GetLookup := fun m => if String.eqb m "A" then Some sampleFactory else None;
     ValidlookupsString := "A";
     GetDNSServers := fun _ => inr ["127.0.0.1:53"];
     DoLookups := fun _ _ => None;
     unicodeToUpper := fun s => s;
     flagsParse := fun _ _ => Some f;
     osArgs := ["zdns"; "a"];
     OpenFile := fun _ => Some "permission denied";
     ReadFile := fun _ => inl "no such file or directory";
     stdinStat := Some pipeMode;
     stdinTerminal := false |}.

Definition negativeProcsFlags : Flags := with_go_processes (-1) defaultFlags.

(** An invalid result verbosity, both transport flags and [--verbosity=6]. *)
Definition loudConflictFlags : Flags := with_verbosity 6 bogusConflictFlags.

Definition fourProcsFlags : Flags := with_go_processes 4 defaultFlags.

Definition fourProcsEnv : Env := sampleEnv fourProcsFlags "" Pipe.

Definition quietFlags : Flags := with_verbosity 1 defaultFlags.

Definition loudFlags : Flags := with_verbosity 6 defaultFlags.

Definition loggedFlags : Flags := with_log_file "zdns.log" defaultFlags.

Definition loggedEnv : Env := sampleEnv loggedFlags "" Pipe.

Definition fileInputFlags : Flags := with_input_file "names.txt" defaultFlags.

Definition blankLines : string := LF +:+ LF +:+ LF.

Definition blankFileEnv : Env := sampleEnv fileFlags blankLines Pipe.

Definition noArgsEnv : Env :=
  {| RootServers := [];
     GetLookup := fun _ => None;
     ValidlookupsString := "A";
     GetDNSServers := fun _ => inl "no such file or directory";
     DoLookups := fun _ _ => None;
     unicodeToUpper := fun s => s;
     flagsParse := fun _ _ => None;
     osArgs := ["zdns"];
     OpenFile := fun _ => None;
     ReadFile := fun _ => inl "no such file or directory";
     stdinStat := Some pipeMode;
     stdinTerminal := false |}.

(** * Properties *)

(** ** The error monad *)

Lemma bind_Ok_inv {A B : Type} (m : Result A) (k : A -> Result B) (b : B) :
  bind m k = Ok b -> exists a, m = Ok a /\ k a = Ok b.
Proof.
  destruct m as [e | a]; simpl; intros H.
  - discriminate H.
  - exists a. split; [reflexivity | exact H].
Qed.

Lemma bind_Fatal_inv {A B : Type} (m : Result A) (k : A -> Result B) (e : FatalError) :
  bind m k = Fatal e -> m = Fatal e \/ exists a, m = Ok a /\ k a = Fatal e.
Proof.
  destruct m as [e' | a]; simpl; intros H.
  - left. injection H as ->. reflexivity.
  - right. exists a. split; [reflexivity | exact H].
Qed.

Lemma fatalIf_Ok_inv (cond : bool) (e : FatalError) (u : unit) :
  fatalIf cond e = Ok u -> cond = false.
Proof. destruct cond; simpl; [discriminate | reflexivity]. Qed.

Lemma Result_cases {A : Type} (m : Result A) :
  (exists e, m = Fatal e) \/ (exists a, m = Ok a).
Proof. destruct m as [e | a]; [left | right]; eauto. Qed.

Lemma failure_None {A : Type} (m : Result A) :
  failure m = None <-> exists a, m = Ok a.
Proof.
  destruct m as [e | a]; simpl; split; intros H.
  - discriminate H.
  - destruct H as [a H]. discriminate H.
  - eauto.
  - reflexivity.
Qed.

(** ** The library model on examples *)

Example Split_commas :
  strings.Split "10.0.0.1,10.0.0.2:5353" "," = ["10.0.0.1"; "10.0.0.2:5353"].
Proof. reflexivity. Qed.

Example Split_empty : strings.Split "" "," = [""].
Proof. reflexivity. Qed.

Example Split_edges : strings.Split ",a,,b," "," = [""; "a"; ""; "b"; ""].
Proof. reflexivity. Qed.

Example Split_long_separator : strings.Split "a, b, c" ", " = ["a"; "b"; "c"].
Proof. reflexivity. Qed.

Example Contains_colon :
  strings.Contains "10.0.0.2:5353" ":" = true /\ strings.Contains "10.0.0.1" ":" = false.
Proof. split; reflexivity. Qed.

Example TrimSpace_ascii : strings.TrimSpace "  10.0.0.1 " = "10.0.0.1".
Proof. vm_compute. reflexivity. Qed.

Example TrimSpace_inner : strings.TrimSpace " a b " = "a b".
Proof. vm_compute. reflexivity. Qed.

(** U+00A0 in front, U+2028 behind. *)
Example TrimSpace_unicode :
  strings.TrimSpace (utf8.EncodeRune 160 +:+ "a b" +:+ utf8.EncodeRune 8232) = "a b".
Proof. vm_compute. reflexivity. Qed.

(** A lone continuation byte is no white space. *)
Example TrimSpace_invalid :
  strings.TrimSpace (String (utf8.byte 133) " a") = String (utf8.byte 133) " a".
Proof. vm_compute. reflexivity. Qed.

Example Trim_newlines :
  strings.Trim (LF +:+ "a.b.c" +:+ LF +:+ "d.e.f" +:+ LF +:+ LF) LF
  = "a.b.c" +:+ LF +:+ "d.e.f".
Proof. reflexivity. Qed.

Example ToUpper_ascii (u : string -> string) : strings.ToUpper u "iNet" = "INET".
Proof. reflexivity. Qed.

Example ofSeconds_default : time.ofSeconds 15 = 15000000000.
Proof. reflexivity. Qed.

Example ofSeconds_wraps : time.ofSeconds 9223372037 = -9223372036709551616.
Proof. reflexivity. Qed.

Example terminal_is_char_device :
  Z.land terminalMode os.ModeCharDevice = os.ModeCharDevice
  /\ Z.land pipeMode os.ModeCharDevice = 0.
Proof. split; reflexivity. Qed.

Example main_default :
  failure_free (main defaultEnv) = Some parsedConfDefault.
Proof. vm_compute. reflexivity. Qed.

(** ** The port repair loop is a map *)

(** One iteration, at the boundary between the entries already visited and
    those still to visit. *)
Lemma repairAt_middle (visited : list string) (x : string) (rest : list string) :
  repairAt (visited ++ x :: rest) (length visited)
  = (visited ++ repairEntry x :: rest).
Proof.
  unfold repairAt, repairEntry.
  rewrite list_lookup_middle by reflexivity.
  destruct (negb (strings.Contains x ":")); [| reflexivity].
  rewrite insert_app_r_alt by lia.
  rewrite Nat.sub_diag. reflexivity.
Qed.

Lemma foldl_repairAt (rest visited : list string) :
  foldl repairAt (visited ++ rest) (seq (length visited) (length rest))
  = (visited ++ map repairEntry rest).
Proof.
  revert visited. induction rest as [| x rest IH]; intros visited.
  - reflexivity.
  - cbn [length seq foldl map].
    rewrite repairAt_middle.
    specialize (IH (visited ++ [repairEntry x])).
    rewrite length_app in IH. cbn [length] in IH.
    rewrite Nat.add_1_r in IH.
    rewrite <- !app_assoc in IH. exact IH.
Qed.

Lemma repairPorts_map (ns : list string) : repairPorts ns = map repairEntry ns.
Proof. exact (foldl_repairAt ns []). Qed.

Lemma lookup_map {A B : Type} (g : A -> B) (l : list A) (i : nat) :
  map g l !! i = g <$> l !! i.
Proof.
  revert i. induction l as [| x l IH]; intros [| i]; try reflexivity.
  exact (IH i).
Qed.

(** ** What a successful run of the checks says about [gc] *)

Lemma passedName_Ok_inv (env : Env) (args : list string) (gc0 gc : GlobalConf) :
  passedName env args gc0 = Ok gc ->
  (args = [] /\ gc = gc0)
  \/ (digLikeOn env (InputFilePath gc0) args = true
      /\ gc = set_PassedName (nth 0 args "") gc0).
Proof.
  unfold passedName, digLikeOn. destruct args as [| a args]; simpl.
  - intros H. injection H as <-. left. split; reflexivity.
  - destruct (stdinStat env) as [mode |]; [| discriminate].
    destruct (digLike _ _ _); intros H; [| discriminate H].
    injection H as <-. right. split; reflexivity.
Qed.

Lemma resolveConf_Ok_inv (env : Env) (factory : GlobalLookupFactory)
    (module : string) (f : Flags) (gc : GlobalConf) (rt : Runtime) :
  resolveConf env factory module f = Ok (gc, rt) ->
  openLog env (flag_log_file f) = Ok (logOutput rt)
  /\ levelOf (flag_verbosity f) = Ok (logLevel rt)
  /\ classOf env (class_string f) = Ok (Class_ gc)
  /\ nameServers env (flag_iterative f) (servers_string f) (config_file f)
     = Ok (NameServers gc, NameServersSpecified gc)
  /\ (flag_go_processes f <? 0) = false
  /\ flag_udp_only f && flag_tcp_only f = false
  /\ outputGroups [] (flag_result_verbosity f) (flag_include_fields f)
     = Ok (OutputGroups gc)
  /\ ((Args f = [] /\ PassedName gc = "")
      \/ (digLikeOn env (flag_input_file f) (Args f) = true
          /\ PassedName gc = nth 0 (Args f) ""))
  /\ negb (AllowStdIn factory) && String.eqb (flag_input_file f) "-" = false
  /\ Timeout gc = time.ofSeconds (timeout f)
  /\ IterationTimeout gc = time.ofSeconds (iterationTimeout f)
  /\ TimeFormat gc = (if nanoSeconds f then time.RFC3339Nano else time.RFC3339)
  /\ TCPOnly gc = flag_tcp_only f
  /\ UDPOnly gc = flag_udp_only f
  /\ InputFilePath gc = flag_input_file f
  /\ Module_ gc = module.
Proof.
  unfold resolveConf. intros H.
  apply bind_Ok_inv in H as (out & Hout & H).
  apply bind_Ok_inv in H as (level & Hlevel & H).
  apply bind_Ok_inv in H as (class & Hclass & H).
  apply bind_Ok_inv in H as ([ns spec] & Hns & H).
  apply bind_Ok_inv in H as (u1 & Hprocs & H).
  apply bind_Ok_inv in H as (u2 & Htransport & H).
  apply bind_Ok_inv in H as (groups & Hgroups & H).
  apply bind_Ok_inv in H as (gc1 & Hname & H).
  apply bind_Ok_inv in H as (u3 & Hstdin & H).
  injection H as <- <-.
  apply fatalIf_Ok_inv in Hprocs, Htransport, Hstdin.
  cbn in Hout, Hlevel, Hns, Hprocs, Htransport, Hgroups.
  apply passedName_Ok_inv in Hname as [[Hargs ->] | [Hdig ->]];
    cbn in Hstdin |- *; repeat split; try assumption; try reflexivity.
  - left. split; [assumption | reflexivity].
  - right. split; [assumption | reflexivity].
Qed.

(** ** The first failing check decides the outcome *)

Lemma failure_passedName (env : Env) (args : list string) (gc : GlobalConf) :
  failure (passedName env args gc) = leftOverCheck env (InputFilePath gc) args.
Proof.
  unfold passedName, leftOverCheck. destruct args as [| a args]; [reflexivity |].
  cbn [length Nat.ltb Nat.leb].
  destruct (stdinStat env) as [mode |]; [| reflexivity].
  destruct (digLike _ _ _); reflexivity.
Qed.

Lemma passedName_InputFilePath (env : Env) (args : list string) (gc0 gc : GlobalConf) :
  passedName env args gc0 = Ok gc -> InputFilePath gc = InputFilePath gc0.
Proof.
  intros H. apply passedName_Ok_inv in H as [[_ ->] | [_ ->]]; reflexivity.
Qed.

Lemma failure_resolveConf (env : Env) (factory : GlobalLookupFactory)
    (module : string) (f : Flags) :
  failure (resolveConf env factory module f) = firstFailure (checks env factory f).
Proof.
  unfold resolveConf, checks. cbn [firstFailure].
  cbn [LogFilePath Verbosity parsedConf].
  destruct (openLog env (flag_log_file f)) as [e | out]; [reflexivity |].
  destruct (levelOf (flag_verbosity f)) as [e | level]; [reflexivity |].
  destruct (classOf env (class_string f)) as [e | class]; [reflexivity |].
  cbn.
  destruct (nameServers env (flag_iterative f) (servers_string f) (config_file f))
    as [e | ns]; [reflexivity |].
  cbn.
  destruct (flag_go_processes f <? 0); [reflexivity |].
  cbn.
  destruct (flag_udp_only f && flag_tcp_only f); [reflexivity |].
  cbn.
  destruct (outputGroups [] (flag_result_verbosity f) (flag_include_fields f))
    as [e | groups]; [reflexivity |].
  cbn [failure bind].
  match goal with
  | |- context [passedName env (Args f) ?g] =>
      pose proof (failure_passedName env (Args f) g) as Hfail;
      pose proof (passedName_InputFilePath env (Args f) g) as Hpath;
      destruct (passedName env (Args f) g) as [e | gc]
  end;
    cbn [InputFilePath set_OutputGroups set_TimeFormat set_NameServersSpecified
         set_NameServers set_Class_ set_IterationTimeout set_Timeout parsedConf]
      in Hfail, Hpath;
    rewrite <- Hfail; cbn [failure bind].
  - reflexivity.
  - rewrite (Hpath gc eq_refl).
    destruct (negb (AllowStdIn factory) && String.eqb (flag_input_file f) "-");
      reflexivity.
Qed.

Lemma firstFailure_In (l : list (option FatalError)) (e : FatalError) :
  In (Some e) l -> exists e', firstFailure l = Some e'.
Proof.
  induction l as [| [e0 |] l IH]; simpl; intros H.
  - destruct H.
  - eauto.
  - destruct H as [H | H]; [discriminate H | auto].
Qed.

Lemma firstFailure_app_None (l1 l2 : list (option FatalError)) :
  Forall (fun o => o = None) l1 -> firstFailure (l1 ++ l2) = firstFailure l2.
Proof.
  induction 1 as [| o l1 Ho _ IH]; simpl; [reflexivity |].
  subst o. exact IH.
Qed.

(** A failing check makes the whole resolution fail, whatever the others do. *)
Lemma resolveConf_fails (env : Env) (factory : GlobalLookupFactory)
    (module : string) (f : Flags) (e : FatalError) :
  In (Some e) (checks env factory f) ->
  exists e', resolveConf env factory module f = Fatal e'.
Proof.
  intros H. apply firstFailure_In in H as [e' H].
  rewrite <- (failure_resolveConf env factory module f) in H.
  exists e'. destruct (resolveConf env factory module f); simpl in H.
  - injection H as ->. reflexivity.
  - discriminate H.
Qed.

(** [configure] and [main] stop where the resolution stops. *)
Lemma configure_fails (env : Env) (factory : GlobalLookupFactory)
    (module : string) (f : Flags) (e : FatalError) :
  moduleAndFlags env = Ok (factory, module, f) ->
  resolveConf env factory module f = Fatal e ->
  configure env = Fatal e /\ main env = Fatal e.
Proof.
  intros Hparse Hres. unfold main, configure.
  rewrite Hparse. simpl. rewrite Hres. simpl. split; reflexivity.
Qed.

Lemma configure_Ok_inv (env : Env) (factory : GlobalLookupFactory)
    (gc : GlobalConf) (rt : Runtime) :
  configure env = Ok (factory, gc, rt) ->
  exists module f,
    moduleAndFlags env = Ok (factory, module, f)
    /\ resolveConf env factory module f = Ok (gc, rt).
Proof.
  unfold configure. intros H.
  apply bind_Ok_inv in H as ([[factory' module] f] & Hparse & H).
  apply bind_Ok_inv in H as ([gc' rt'] & Hres & H).
  injection H as -> -> ->.
  exists module, f. split; assumption.
Qed.

Lemma configure_Ok (env : Env) (factory : GlobalLookupFactory)
    (module : string) (f : Flags) (gc : GlobalConf) (rt : Runtime) :
  moduleAndFlags env = Ok (factory, module, f) ->
  resolveConf env factory module f = Ok (gc, rt) ->
  configure env = Ok (factory, gc, rt).
Proof.
  intros Hparse Hres. unfold configure.
  rewrite Hparse. simpl. rewrite Hres. reflexivity.
Qed.

(** ** Appending strings *)

Lemma append_cons (x : ascii) (a b : string) :
  String x a +:+ b = String x (a +:+ b).
Proof. reflexivity. Qed.

Lemma append_nil_l (b : string) : "" +:+ b = b.
Proof. reflexivity. Qed.

Lemma append_assoc (a b c : string) : (a +:+ b) +:+ c = a +:+ (b +:+ c).
Proof.
  induction a as [| x a IH]; [reflexivity |].
  rewrite !append_cons, IH. reflexivity.
Qed.

Lemma append_nil_r (a : string) : a +:+ "" = a.
Proof.
  induction a as [| x a IH]; [reflexivity |].
  rewrite append_cons, IH. reflexivity.
Qed.

Lemma append_not_nil (t : string) (d : ascii) : t +:+ String d "" <> "".
Proof. destruct t; discriminate. Qed.

(** ** [strings.TrimSpace] *)

Lemma length_append (a b : string) :
  String.length (a +:+ b) = (String.length a + String.length b)%nat.
Proof.
  induction a as [| x a IH]; [reflexivity |].
  rewrite append_cons. cbn [String.length]. rewrite IH. reflexivity.
Qed.

Lemma take_skip (n : nat) (s : string) :
  strings.takeBytes n s +:+ strings.skipBytes n s = s.
Proof.
  revert s. induction n as [| n IH]; intros [| c s]; try reflexivity.
  cbn [strings.takeBytes strings.skipBytes]. rewrite append_cons, IH. reflexivity.
Qed.

Lemma length_takeBytes (n : nat) (s : string) :
  (n <= String.length s)%nat -> String.length (strings.takeBytes n s) = n.
Proof.
  revert s. induction n as [| n IH]; intros [| c s] Hn; cbn in Hn |- *; try lia.
  rewrite IH by lia. reflexivity.
Qed.

Lemma HasPrefix_split (s e : string) :
  strings.HasPrefix s e = true -> s = e +:+ strings.skipBytes (String.length e) s.
Proof.
  revert s. induction e as [| p e IH]; intros s H; [reflexivity |].
  destruct s as [| c s]; [discriminate H |].
  cbn [strings.HasPrefix] in H.
  destruct (Ascii.eqb_spec c p) as [-> | _]; [| discriminate H].
  cbn [String.length strings.skipBytes]. rewrite append_cons, <- (IH s H).
  reflexivity.
Qed.

Lemma HasPrefix_append (t b e : string) :
  strings.HasPrefix t e = true -> strings.HasPrefix (t +:+ b) e = true.
Proof.
  revert t. induction e as [| p e IH]; intros t H; [reflexivity |].
  destruct t as [| c t]; [discriminate H |].
  rewrite append_cons. cbn [strings.HasPrefix] in H |- *.
  destruct (Ascii.eqb c p); [apply IH, H | discriminate H].
Qed.

Lemma HasSuffix_split (s e : string) :
  strings.HasSuffix s e = true ->
  s = strings.takeBytes (String.length s - String.length e) s +:+ e
  /\ (String.length e <= String.length s)%nat.
Proof.
  unfold strings.HasSuffix. intros H.
  apply andb_true_iff in H as [Hlen Heq].
  apply Nat.leb_le in Hlen. apply String.eqb_eq in Heq.
  split; [| exact Hlen].
  pose proof (take_skip (String.length s - String.length e) s) as Hcut.
  rewrite Heq in Hcut. symmetry. exact Hcut.
Qed.

Lemma spaceEncodings_nonempty (e : string) :
  In e strings.spaceEncodings -> (1 <= String.length e)%nat.
Proof.
  intros H.
  assert (Hall : Forall (fun e => (1 <= String.length e)%nat) strings.spaceEncodings).
  { vm_compute. repeat constructor. }
  rewrite Forall_forall in Hall. apply Hall. apply list_elem_of_In. exact H.
Qed.

Lemma Spaces_append (a b : string) : Spaces a -> Spaces b -> Spaces (a +:+ b).
Proof.
  intros Ha Hb. induction Ha as [| e a He Ha IH]; [exact Hb |].
  rewrite append_assoc. apply Spaces_cons; assumption.
Qed.

Lemma Spaces_one (e : string) : In e strings.spaceEncodings -> Spaces e.
Proof.
  intros He. rewrite <- (append_nil_r e). apply Spaces_cons; [exact He | constructor].
Qed.

(** The length of the text is fuel enough: what [trimLeftSpace] returns
    starts with no white space, and it removed white space only. *)
Lemma trimLeftSpace_spec (fuel : nat) (s : string) :
  (String.length s <= fuel)%nat ->
  exists a,
    Spaces a
    /\ s = a +:+ strings.trimLeftSpace fuel s
    /\ List.find (strings.HasPrefix (strings.trimLeftSpace fuel s))
         strings.spaceEncodings = None.
Proof.
  revert s. induction fuel as [| fuel IH]; intros s Hlen.
  - destruct s as [| c s]; [| cbn in Hlen; lia].
    exists "". split; [constructor |]. split; reflexivity.
  - cbn [strings.trimLeftSpace].
    destruct (List.find (strings.HasPrefix s) strings.spaceEncodings) as [e |] eqn:Hfind.
    + apply find_some in Hfind as [He Hpre].
      pose proof (spaceEncodings_nonempty e He) as Hne.
      pose proof (HasPrefix_split s e Hpre) as Hsplit.
      assert (Hshort : (String.length (strings.skipBytes (String.length e) s) <= fuel)%nat).
      { apply (f_equal String.length) in Hsplit. rewrite length_append in Hsplit. lia. }
      destruct (IH _ Hshort) as (a & Ha & Heq & Hdone).
      exists (e +:+ a). split; [apply Spaces_cons; assumption |].
      split; [| exact Hdone].
      rewrite append_assoc, <- Heq. exact Hsplit.
    + exists "". split; [constructor |]. split; [reflexivity | exact Hfind].
Qed.

Lemma trimRightSpace_spec (fuel : nat) (s : string) :
  (String.length s <= fuel)%nat ->
  exists b,
    Spaces b
    /\ s = strings.trimRightSpace fuel s +:+ b
    /\ List.find (strings.HasSuffix (strings.trimRightSpace fuel s))
         strings.spaceEncodings = None.
Proof.
  revert s. induction fuel as [| fuel IH]; intros s Hlen.
  - destruct s as [| c s]; [| cbn in Hlen; lia].
    exists "". split; [constructor |]. split; reflexivity.
  - cbn [strings.trimRightSpace].
    destruct (List.find (strings.HasSuffix s) strings.spaceEncodings) as [e |] eqn:Hfind.
    + apply find_some in Hfind as [He Hsuf].
      pose proof (spaceEncodings_nonempty e He) as Hne.
      destruct (HasSuffix_split s e Hsuf) as [Hsplit Hle].
      assert (Hshort : (String.length
                          (strings.takeBytes (String.length s - String.length e) s)
                        <= fuel)%nat).
      { rewrite length_takeBytes by lia. lia. }
      destruct (IH _ Hshort) as (b & Hb & Heq & Hdone).
      exists (b +:+ e). split; [apply Spaces_append; [exact Hb | apply Spaces_one, He] |].
      split; [| exact Hdone].
      rewrite <- append_assoc, <- Heq. exact Hsplit.
    + exists "". split; [constructor |]. split; [| exact Hfind].
      rewrite append_nil_r. reflexivity.
Qed.

(** [TrimSpace] removes a run of white space at each end, and what it
    returns neither starts nor ends with white space. *)
Lemma TrimSpace_spec (s : string) :
  exists a b,
    Spaces a /\ Spaces b
    /\ s = a +:+ strings.TrimSpace s +:+ b
    /\ List.find (strings.HasPrefix (strings.TrimSpace s)) strings.spaceEncodings = None
    /\ List.find (strings.HasSuffix (strings.TrimSpace s)) strings.spaceEncodings = None.
Proof.
  unfold strings.TrimSpace.
  destruct (trimLeftSpace_spec (String.length s) s (Nat.le_refl _))
    as (a & Ha & Hleft & Hstart).
  set (left := strings.trimLeftSpace (String.length s) s) in *.
  destruct (trimRightSpace_spec (String.length left) left (Nat.le_refl _))
    as (b & Hb & Hright & Hend).
  exists a, b. split; [exact Ha |]. split; [exact Hb |].
  split; [rewrite <- Hright; exact Hleft |].
  split; [| exact Hend].
  destruct (List.find (strings.HasPrefix (strings.trimRightSpace _ _)) _)
    as [e |] eqn:Hfind; [| reflexivity].
  apply find_some in Hfind as [He Hpre].
  apply (HasPrefix_append _ b) in Hpre. rewrite <- Hright in Hpre.
  pose proof (find_none _ _ Hstart e He) as Hno. cbv beta in Hno.
  congruence.
Qed.

(** ** [strings.Split] on a one-byte separator *)

Lemma splitFrom_nonempty (sep : string) (skip : nat) (s : string) :
  strings.splitFrom sep skip s <> [].
Proof.
  revert skip. induction s as [| c s IH]; intros skip; cbn [strings.splitFrom].
  - discriminate.
  - destruct skip as [| k]; [| apply IH].
    destruct (strings.HasPrefix (String c s) sep); [discriminate |].
    destruct (strings.splitFrom sep 0 s); discriminate.
Qed.

Lemma Join_cons_byte (c : ascii) (x : string) (xs : list string) (sep : string) :
  strings.Join (String c x :: xs) sep = String c (strings.Join (x :: xs) sep).
Proof. destruct xs; reflexivity. Qed.

(** Joining the pieces with the separator gives the string back. *)
Lemma Join_Split_byte (d : ascii) (s : string) :
  strings.Join (strings.Split s (String d "")) (String d "") = s.
Proof.
  unfold strings.Split.
  induction s as [| c s IH]; [reflexivity |].
  cbn [strings.splitFrom strings.HasPrefix String.length Nat.sub].
  pose proof (splitFrom_nonempty (String d "") 0 s) as Hne.
  destruct (Ascii.eqb_spec c d) as [-> | Hcd].
  - destruct (strings.splitFrom (String d "") 0 s) as [| y ys]; [contradiction |].
    change (String d (strings.Join (y :: ys) (String d "")) = String d s).
    rewrite IH. reflexivity.
  - destruct (strings.splitFrom (String d "") 0 s) as [| y ys]; [contradiction |].
    rewrite Join_cons_byte, IH. reflexivity.
Qed.

(** No piece contains the separator. *)
Lemma Split_byte_free (d : ascii) (s : string) :
  Forall (fun e => strings.Contains e (String d "") = false)
         (strings.Split s (String d "")).
Proof.
  unfold strings.Split.
  induction s as [| c s IH].
  - repeat constructor.
  - cbn [strings.splitFrom strings.HasPrefix String.length Nat.sub].
    pose proof (splitFrom_nonempty (String d "") 0 s) as Hne.
    destruct (Ascii.eqb_spec c d) as [-> | Hcd].
    + constructor; [reflexivity | exact IH].
    + destruct (strings.splitFrom (String d "") 0 s) as [| y ys]; [contradiction |].
      inversion IH as [| ? ? Hy Hys]; subst.
      constructor; [| exact Hys].
      cbn [strings.Contains strings.HasPrefix].
      destruct (Ascii.eqb_spec c d) as [Heq | _]; [contradiction |].
      exact Hy.
Qed.

(** ** Name servers given on the command line *)

Lemma repairEntry_with_port (e : string) :
  strings.Contains e ":" = true -> repairEntry e = e.
Proof. unfold repairEntry. intros ->. reflexivity. Qed.

Lemma repairEntry_without_port (e : string) :
  strings.Contains e ":" = false -> repairEntry e = strings.TrimSpace e +:+ ":53".
Proof. unfold repairEntry. intros ->. reflexivity. Qed.

Lemma nameServers_inline (env : Env) (iterative : bool) (c : ascii)
    (rest config_file : string) :
  c <> "@"%char ->
  nameServers env iterative (String c rest) config_file
  = Ok (map repairEntry (strings.Split (String c rest) ","), true).
Proof.
  intros Hc. unfold nameServers, designated.
  destruct (Ascii.eqb_spec c "@") as [Heq | _]; [contradiction |].
  cbn [bind]. rewrite repairPorts_map. reflexivity.
Qed.

(** C1. An inline designation (not empty, not starting with ['@']) is split
    on commas; an entry without [':'] is trimmed of white space and gets
    [":53"], an entry with [':'] gets no port; the list keeps the order of
    the input, and ["10.0.0.1,10.0.0.2:5353"] gives
    [["10.0.0.1:53"; "10.0.0.2:5353"]]. *)
Theorem inline_designation_default_port (env : Env) (factory : GlobalLookupFactory)
    (module : string) (f : Flags) (c : ascii) (rest : string) :
  servers_string f = String c rest ->
  c <> "@"%char ->
  let entries := strings.Split (servers_string f) "," in
  strings.Join entries "," = servers_string f
  /\ Forall (fun e => strings.Contains e "," = false) entries
  /\ nameServers env (flag_iterative f) (servers_string f) (config_file f)
     = Ok (map repairEntry entries, true)
  /\ (forall gc rt,
        resolveConf env factory module f = Ok (gc, rt) ->
        NameServers gc = map repairEntry entries
        /\ forall (i : nat) (e : string),
             entries !! i = Some e ->
             (strings.Contains e ":" = false ->
              NameServers gc !! i = Some (strings.TrimSpace e +:+ ":53"))
             /\ (strings.Contains e ":" = true -> NameServers gc !! i = Some e))
  /\ (forall e,
        exists a b,
          Spaces a /\ Spaces b
          /\ e = a +:+ strings.TrimSpace e +:+ b
          /\ List.find (strings.HasPrefix (strings.TrimSpace e))
               strings.spaceEncodings = None
          /\ List.find (strings.HasSuffix (strings.TrimSpace e))
               strings.spaceEncodings = None)
  /\ (servers_string f = "10.0.0.1,10.0.0.2:5353" ->
      map repairEntry entries = ["10.0.0.1:53"; "10.0.0.2:5353"]).
Proof.
  intros Hs Hc entries. subst entries.
  split; [apply Join_Split_byte |].
  split; [apply Split_byte_free |].
  assert (Hns : nameServers env (flag_iterative f) (servers_string f) (config_file f)
                = Ok (map repairEntry (strings.Split (servers_string f) ","), true)).
  { rewrite Hs. apply nameServers_inline, Hc. }
  split; [exact Hns |].
  split.
  - intros gc rt Hres.
    apply resolveConf_Ok_inv in Hres as (_ & _ & _ & Hres & _).
    rewrite Hns in Hres.
    assert (Hlist : map repairEntry (strings.Split (servers_string f) ",")
                    = NameServers gc) by congruence.
    split; [symmetry; exact Hlist |].
    intros i e Hi. rewrite <- Hlist, lookup_map, Hi. cbn [fmap option_fmap option_map].
    split; intros He.
    + rewrite repairEntry_without_port by exact He. reflexivity.
    + rewrite repairEntry_with_port by exact He. reflexivity.
  - split; [exact TrimSpace_spec |].
    intros ->. reflexivity.
Qed.

Lemma inline_designation_default_port_witness :
  servers_string inlineFlags = String "1" "0.0.0.1,10.0.0.2:5353"
  /\ "1"%char <> "@"%char
  /\ nameServers inlineEnv (flag_iterative inlineFlags)
       (servers_string inlineFlags) (config_file inlineFlags)
     = Ok (["10.0.0.1:53"; "10.0.0.2:5353"], true)
  /\ failure (resolveConf inlineEnv sampleFactory "A" inlineFlags) = None.
Proof.
  assert (Hc : "1"%char <> "@"%char) by discriminate.
  assert (Hs : servers_string inlineFlags = String "1" "0.0.0.1,10.0.0.2:5353")
    by reflexivity.
  pose proof (inline_designation_default_port inlineEnv sampleFactory "A"
                inlineFlags _ _ Hs Hc) as H.
  cbv zeta in H. destruct H as (_ & _ & Hns & _ & _ & Hex).
  split; [exact Hs |]. split; [exact Hc |].
  split; [rewrite Hns, (Hex Hs); reflexivity |].
  vm_compute. reflexivity.
Defined.

(** ** [strings.Trim] with a one-byte cutset *)

Lemma inCutset_byte (c d : ascii) :
  strings.inCutset c (String d "") = Ascii.eqb c d.
Proof. simpl. apply orb_false_r. Qed.

(** What [TrimRight] removes is a run of the byte, and what it leaves does
    not end with the byte. *)
Lemma TrimRight_byte (d : ascii) (s : string) :
  (exists k, s = strings.TrimRight s (String d "") +:+ repeatByte d k)
  /\ forall t, strings.TrimRight s (String d "") <> t +:+ String d "".
Proof.
  induction s as [| c s [[k Hk] Hend]].
  - split; [exists 0%nat; reflexivity |]. intros t H. symmetry in H.
    exact (append_not_nil t d H).
  - cbn [strings.TrimRight]. rewrite inCutset_byte.
    destruct (strings.TrimRight s (String d "")) as [| a r] eqn:Hr.
    + rewrite append_nil_l in Hk.
      destruct (Ascii.eqb_spec c d) as [-> | Hcd].
      * split.
        -- exists (S k). rewrite append_nil_l. cbn [repeatByte]. rewrite <- Hk. reflexivity.
        -- intros t H. symmetry in H. exact (append_not_nil t d H).
      * split.
        -- exists k. rewrite append_cons, append_nil_l, <- Hk. reflexivity.
        -- intros [| x t] H.
           ++ rewrite append_nil_l in H. injection H as H. contradiction.
           ++ rewrite append_cons in H. injection H as _ H. symmetry in H.
              exact (append_not_nil t d H).
    + split.
      * exists k. rewrite append_cons, <- Hk. reflexivity.
      * intros [| x t] H.
        -- rewrite append_nil_l in H. discriminate H.
        -- rewrite append_cons in H. injection H as _ H. exact (Hend t H).
Qed.

(** What [TrimLeft] removes is a run of the byte, and what it leaves does
    not start with the byte. *)
Lemma TrimLeft_byte (d : ascii) (s : string) :
  (exists k, s = repeatByte d k +:+ strings.TrimLeft s (String d ""))
  /\ forall t, strings.TrimLeft s (String d "") <> String d t.
Proof.
  induction s as [| c s [[k Hk] Hstart]].
  - split; [exists 0%nat; reflexivity | discriminate].
  - cbn [strings.TrimLeft]. rewrite inCutset_byte.
    destruct (Ascii.eqb_spec c d) as [-> | Hcd].
    + split; [| exact Hstart].
      exists (S k). cbn [repeatByte]. rewrite append_cons, <- Hk. reflexivity.
    + split; [exists 0%nat; reflexivity |].
      intros t H. injection H as H _. contradiction.
Qed.

(** [Trim] removes the byte from both ends and nothing else. *)
Lemma Trim_byte (d : ascii) (s : string) :
  (exists k1 k2,
     s = repeatByte d k1 +:+ strings.Trim s (String d "") +:+ repeatByte d k2)
  /\ (forall t, strings.Trim s (String d "") <> String d t)
  /\ (forall t, strings.Trim s (String d "") <> t +:+ String d "").
Proof.
  unfold strings.Trim.
  destruct (TrimRight_byte d s) as [[k2 Hk2] Hend].
  destruct (TrimLeft_byte d (strings.TrimRight s (String d ""))) as [[k1 Hk1] Hstart].
  split; [| split].
  - exists k1, k2. rewrite <- append_assoc, <- Hk1. exact Hk2.
  - exact Hstart.
  - intros t H. apply (Hend (repeatByte d k1 +:+ t)).
    rewrite append_assoc, <- H. exact Hk1.
Qed.

(** ** Name servers read from a file *)

Lemma nameServers_file (env : Env) (iterative : bool) (path config_file : string) :
  nameServers env iterative (String "@" path) config_file
  = match ReadFile env path with
    | inl err => Fatal (FileUnreadable path err)
    | inr content =>
        if (String.length content =? 0)%nat then Fatal (FileEmpty path)
        else Ok (map repairEntry (strings.Split (strings.Trim content LF) LF), true)
    end.
Proof.
  unfold nameServers, designated. cbn [Ascii.eqb Bool.eqb].
  destruct (ReadFile env path) as [err | content]; [reflexivity |].
  destruct (String.length content =? 0)%nat; [reflexivity |].
  cbn [bind]. rewrite repairPorts_map. reflexivity.
Qed.

Lemma nameServers_check (env : Env) (factory : GlobalLookupFactory) (f : Flags) :
  In (failure (nameServers env (flag_iterative f) (servers_string f) (config_file f)))
     (checks env factory f).
Proof. unfold checks. simpl. tauto. Qed.

(** A failure of the name server stage is a failure of the resolution. *)
Lemma nameServers_fatal (env : Env) (factory : GlobalLookupFactory)
    (module : string) (f : Flags) (e : FatalError) :
  nameServers env (flag_iterative f) (servers_string f) (config_file f) = Fatal e ->
  exists e', resolveConf env factory module f = Fatal e'.
Proof.
  intros H. apply (resolveConf_fails env factory module f e).
  pose proof (nameServers_check env factory f) as Hin.
  rewrite H in Hin. exact Hin.
Qed.

Lemma nameServers_resolved (env : Env) (factory : GlobalLookupFactory)
    (module : string) (f : Flags) (gc : GlobalConf) (rt : Runtime)
    (ns : list string) (specified : bool) :
  nameServers env (flag_iterative f) (servers_string f) (config_file f)
  = Ok (ns, specified) ->
  resolveConf env factory module f = Ok (gc, rt) ->
  NameServers gc = ns /\ NameServersSpecified gc = specified.
Proof.
  intros Hns Hres.
  apply resolveConf_Ok_inv in Hres as (_ & _ & _ & Hres & _).
  rewrite Hns in Hres. split; congruence.
Qed.

(** C2, as the code has it.  A designation that starts with ['@'] names a
    file.  An unreadable file and an empty file are fatal.  Otherwise line
    feeds are trimmed from both ends of the content, the leading ones as
    well as the trailing ones, and what is left is split on line feeds;
    the content ["a.b.c\nd.e.f\n"] gives the two entries ["a.b.c"] and
    ["d.e.f"]. *)
Theorem file_designation_lines (env : Env) (factory : GlobalLookupFactory)
    (module : string) (f : Flags) (path : string) :
  servers_string f = String "@" path ->
  (forall err,
     ReadFile env path = inl err ->
     nameServers env (flag_iterative f) (servers_string f) (config_file f)
     = Fatal (FileUnreadable path err)
     /\ exists e, resolveConf env factory module f = Fatal e)
  /\ (ReadFile env path = inr "" ->
      nameServers env (flag_iterative f) (servers_string f) (config_file f)
      = Fatal (FileEmpty path)
      /\ exists e, resolveConf env factory module f = Fatal e)
  /\ (forall content,
        ReadFile env path = inr content ->
        content <> "" ->
        let body := strings.Trim content LF in
        (exists k1 k2, content = repeatByte (ascii_of_nat 10) k1 +:+ body
                                 +:+ repeatByte (ascii_of_nat 10) k2)
        /\ (forall t, body <> LF +:+ t)
        /\ (forall t, body <> t +:+ LF)
        /\ designated env "@" path = Ok (strings.Split body LF)
        /\ nameServers env (flag_iterative f) (servers_string f) (config_file f)
           = Ok (map repairEntry (strings.Split body LF), true)
        /\ forall gc rt,
             resolveConf env factory module f = Ok (gc, rt) ->
             NameServers gc = map repairEntry (strings.Split body LF))
  /\ (ReadFile env path = inr twoLines ->
      designated env "@" path = Ok ["a.b.c"; "d.e.f"]).
Proof.
  intros Hs.
  pose proof (nameServers_file env (flag_iterative f) path (config_file f)) as Hfile.
  rewrite <- Hs in Hfile.
  split; [| split; [| split]].
  - intros err Hread. rewrite Hread in Hfile.
    split; [exact Hfile |]. exact (nameServers_fatal env factory module f _ Hfile).
  - intros Hread. rewrite Hread in Hfile. cbn in Hfile.
    split; [exact Hfile |]. exact (nameServers_fatal env factory module f _ Hfile).
  - intros content Hread Hne body.
    assert (Hlen : (String.length content =? 0)%nat = false).
    { destruct content; [contradiction | reflexivity]. }
    rewrite Hread, Hlen in Hfile.
    destruct (Trim_byte (ascii_of_nat 10) content) as (Hrun & Hstart & Hend).
    split; [exact Hrun |].
    split; [exact Hstart |].
    split; [exact Hend |].
    split.
    { unfold designated. cbn [Ascii.eqb Bool.eqb]. rewrite Hread, Hlen. reflexivity. }
    split; [exact Hfile |].
    intros gc rt Hres.
    exact (proj1 (nameServers_resolved env factory module f gc rt _ _ Hfile Hres)).
  - intros Hread. unfold designated. cbn [Ascii.eqb Bool.eqb]. rewrite Hread.
    reflexivity.
Qed.

Lemma file_designation_lines_witness :
  servers_string fileFlags = String "@" "servers.txt"
  /\ ReadFile fileEnv "servers.txt" = inr twoLines
  /\ designated fileEnv "@" "servers.txt" = Ok ["a.b.c"; "d.e.f"]
  /\ failure (resolveConf fileEnv sampleFactory "A" fileFlags) = None.
Proof.
  assert (Hs : servers_string fileFlags = String "@" "servers.txt") by reflexivity.
  assert (Hread : ReadFile fileEnv "servers.txt" = inr twoLines) by reflexivity.
  pose proof (file_designation_lines fileEnv sampleFactory "A" fileFlags _ Hs)
    as (_ & _ & _ & Hex).
  split; [exact Hs |]. split; [exact Hread |]. split; [exact (Hex Hread) |].
  vm_compute. reflexivity.
Defined.

(** The statement of C2 read literally, with only the end of the content
    trimmed, fails on a file that starts with a blank line: the code drops
    the empty first line. *)
Lemma file_designation_leading_blank :
  ReadFile leadingBlankEnv "servers.txt" = inr leadingBlank
  /\ linesTrailingTrimmed leadingBlank = [""; "a.b.c"]
  /\ designated leadingBlankEnv "@" "servers.txt" = Ok ["a.b.c"]
  /\ designated leadingBlankEnv "@" "servers.txt"
     <> Ok (linesTrailingTrimmed leadingBlank).
Proof.
  split; [reflexivity |]. split; [reflexivity |]. split; [reflexivity |].
  vm_compute. discriminate.
Qed.

(** ** No name servers on the command line *)

(** C3. With an empty [--name-servers]: in iterative mode the name servers
    are [zdns.RootServers] as they are; otherwise the resolver configuration
    at [--conf-file] is read, and a failure to read it is fatal.  Either way
    [NameServersSpecified] is false. *)
Theorem default_name_servers (env : Env) (factory : GlobalLookupFactory)
    (module : string) (f : Flags) :
  servers_string f = "" ->
  (flag_iterative f = true ->
   nameServers env (flag_iterative f) (servers_string f) (config_file f)
   = Ok (RootServers env, false))
  /\ (flag_iterative f = false ->
      forall err,
        GetDNSServers env (config_file f) = inl err ->
        nameServers env (flag_iterative f) (servers_string f) (config_file f)
        = Fatal (NameServersUnavailable err)
        /\ exists e, resolveConf env factory module f = Fatal e)
  /\ (flag_iterative f = false ->
      forall ns,
        GetDNSServers env (config_file f) = inr ns ->
        nameServers env (flag_iterative f) (servers_string f) (config_file f)
        = Ok (ns, false))
  /\ (forall gc rt,
        resolveConf env factory module f = Ok (gc, rt) ->
        NameServersSpecified gc = false
        /\ (flag_iterative f = true -> NameServers gc = RootServers env)
        /\ (flag_iterative f = false ->
            GetDNSServers env (config_file f) = inr (NameServers gc))).
Proof.
  intros Hs.
  assert (Hdef : nameServers env (flag_iterative f) (servers_string f) (config_file f)
                 = if flag_iterative f then Ok (RootServers env, false)
                   else match GetDNSServers env (config_file f) with
                        | inl err => Fatal (NameServersUnavailable err)
                        | inr ns => Ok (ns, false)
                        end).
  { rewrite Hs. reflexivity. }
  split; [| split; [| split]].
  - intros Hit. rewrite Hdef, Hit. reflexivity.
  - intros Hit err Hconf.
    assert (Hfatal : nameServers env (flag_iterative f) (servers_string f) (config_file f)
                     = Fatal (NameServersUnavailable err)).
    { rewrite Hdef, Hit, Hconf. reflexivity. }
    split; [exact Hfatal |]. exact (nameServers_fatal env factory module f _ Hfatal).
  - intros Hit ns Hconf. rewrite Hdef, Hit, Hconf. reflexivity.
  - intros gc rt Hres.
    apply resolveConf_Ok_inv in Hres as (_ & _ & _ & Hres & _).
    rewrite Hdef in Hres.
    destruct (flag_iterative f).
    + injection Hres as Hns Hspec.
      split; [symmetry; exact Hspec |].
      split; [intros _; symmetry; exact Hns | discriminate].
    + destruct (GetDNSServers env (config_file f)) as [err | ns]; [discriminate Hres |].
      injection Hres as Hns Hspec.
      split; [symmetry; exact Hspec |].
      split; [discriminate | intros _; rewrite Hns; reflexivity].
Qed.

Lemma default_name_servers_witness :
  servers_string iterativeFlags = ""
  /\ flag_iterative iterativeFlags = true
  /\ nameServers iterativeEnv (flag_iterative iterativeFlags)
       (servers_string iterativeFlags) (config_file iterativeFlags)
     = Ok (RootServers iterativeEnv, false)
  /\ failure (resolveConf iterativeEnv sampleFactory "A" iterativeFlags) = None
  /\ servers_string defaultFlags = ""
  /\ flag_iterative defaultFlags = false
  /\ GetDNSServers defaultEnv (config_file defaultFlags) = inr ["127.0.0.1:53"]
  /\ nameServers defaultEnv (flag_iterative defaultFlags)
       (servers_string defaultFlags) (config_file defaultFlags)
     = Ok (["127.0.0.1:53"], false).
Proof.
  assert (Hs : servers_string iterativeFlags = "") by reflexivity.
  assert (Hit : flag_iterative iterativeFlags = true) by reflexivity.
  assert (Hs' : servers_string defaultFlags = "") by reflexivity.
  assert (Hit' : flag_iterative defaultFlags = false) by reflexivity.
  assert (Hconf : GetDNSServers defaultEnv (config_file defaultFlags)
                  = inr ["127.0.0.1:53"]) by reflexivity.
  pose proof (default_name_servers iterativeEnv sampleFactory "A" iterativeFlags Hs)
    as (Hroot & _).
  pose proof (default_name_servers defaultEnv sampleFactory "A" defaultFlags Hs')
    as (_ & _ & Hos & _).
  split; [exact Hs |]. split; [exact Hit |]. split; [exact (Hroot Hit) |].
  split; [vm_compute; reflexivity |].
  split; [exact Hs' |]. split; [exact Hit' |]. split; [exact Hconf |].
  exact (Hos Hit' _ Hconf).
Defined.

(** ** The output groups *)

Lemma tier_eqb (tier : string) :
  negb (String.eqb tier "short") && negb (String.eqb tier "normal")
  && negb (String.eqb tier "long") && negb (String.eqb tier "trace") = false
  <-> In tier tiers.
Proof.
  unfold tiers. simpl.
  destruct (String.eqb_spec tier "short"); [subst; simpl; tauto |].
  destruct (String.eqb_spec tier "normal"); [subst; simpl; tauto |].
  destruct (String.eqb_spec tier "long"); [subst; simpl; tauto |].
  destruct (String.eqb_spec tier "trace"); [subst; simpl; tauto |].
  simpl. split; [discriminate |].
  intros [H | [H | [H | [H | []]]]]; symmetry in H; contradiction.
Qed.

Lemma outputGroups_tier (groups : list string) (tier extra : string) :
  In tier tiers ->
  outputGroups groups tier extra = Ok ((groups ++ [tier]) ++ strings.Split extra ",").
Proof.
  intros H. apply tier_eqb in H. unfold outputGroups. rewrite H. reflexivity.
Qed.

Lemma outputGroups_other (groups : list string) (tier extra : string) :
  ~ In tier tiers -> outputGroups groups tier extra = Fatal InvalidResultVerbosity.
Proof.
  intros H. unfold outputGroups.
  destruct (negb (String.eqb tier "short") && negb (String.eqb tier "normal")
            && negb (String.eqb tier "long") && negb (String.eqb tier "trace")) eqn:E.
  - reflexivity.
  - apply tier_eqb in E. contradiction.
Qed.

Lemma outputGroups_check (env : Env) (factory : GlobalLookupFactory) (f : Flags) :
  In (failure (outputGroups [] (flag_result_verbosity f) (flag_include_fields f)))
     (checks env factory f).
Proof. unfold checks. simpl. tauto. Qed.

(** C4. For a result verbosity among short, normal, long and trace the
    output groups are the verbosity followed by the comma-separated pieces
    of [--include-fields] in their order, a single empty piece when that
    flag is empty; any other verbosity is fatal. *)
Theorem output_groups_composition (env : Env) (factory : GlobalLookupFactory)
    (module : string) (f : Flags) :
  (In (flag_result_verbosity f) tiers ->
   outputGroups [] (flag_result_verbosity f) (flag_include_fields f)
   = Ok (flag_result_verbosity f :: strings.Split (flag_include_fields f) ",")
   /\ strings.Join (strings.Split (flag_include_fields f) ",") ","
      = flag_include_fields f
   /\ (flag_include_fields f = "" ->
       outputGroups [] (flag_result_verbosity f) (flag_include_fields f)
       = Ok [flag_result_verbosity f; ""]))
  /\ (~ In (flag_result_verbosity f) tiers ->
      outputGroups [] (flag_result_verbosity f) (flag_include_fields f)
      = Fatal InvalidResultVerbosity
      /\ exists e, resolveConf env factory module f = Fatal e)
  /\ (forall gc rt,
        resolveConf env factory module f = Ok (gc, rt) ->
        In (flag_result_verbosity f) tiers
        /\ OutputGroups gc
           = flag_result_verbosity f :: strings.Split (flag_include_fields f) ","
        /\ head (OutputGroups gc) = Some (flag_result_verbosity f)).
Proof.
  split; [| split].
  - intros Htier. split; [| split].
    + exact (outputGroups_tier [] _ _ Htier).
    + apply Join_Split_byte.
    + intros Hempty. rewrite (outputGroups_tier [] _ _ Htier), Hempty. reflexivity.
  - intros Htier.
    pose proof (outputGroups_other [] _ (flag_include_fields f) Htier) as Hfatal.
    split; [exact Hfatal |].
    apply (resolveConf_fails env factory module f InvalidResultVerbosity).
    pose proof (outputGroups_check env factory f) as Hin.
    rewrite Hfatal in Hin. exact Hin.
  - intros gc rt Hres.
    apply resolveConf_Ok_inv in Hres as (_ & _ & _ & _ & _ & _ & Hgroups & _).
    destruct (in_dec string_dec (flag_result_verbosity f) tiers) as [Htier | Htier].
    + rewrite (outputGroups_tier [] _ _ Htier) in Hgroups.
      injection Hgroups as Hgroups.
      split; [exact Htier |]. rewrite <- Hgroups. split; reflexivity.
    + rewrite (outputGroups_other [] _ _ Htier) in Hgroups. discriminate Hgroups.
Qed.

Lemma output_groups_composition_witness :
  In (flag_result_verbosity longFlags) tiers
  /\ outputGroups [] (flag_result_verbosity longFlags) (flag_include_fields longFlags)
     = Ok ["long"; "class"; "ttl"]
  /\ failure (resolveConf longEnv sampleFactory "A" longFlags) = None
  /\ ~ In (flag_result_verbosity bogusTierFlags) tiers
  /\ outputGroups [] (flag_result_verbosity bogusTierFlags)
       (flag_include_fields bogusTierFlags)
     = Fatal InvalidResultVerbosity.
Proof.
  assert (Hin : In (flag_result_verbosity longFlags) tiers).
  { right. right. left. reflexivity. }
  assert (Hout : ~ In (flag_result_verbosity bogusTierFlags) tiers).
  { intros [H | [H | [H | [H | []]]]]; discriminate H. }
  pose proof (output_groups_composition longEnv sampleFactory "A" longFlags)
    as (Hok & _).
  pose proof (output_groups_composition defaultEnv sampleFactory "A" bogusTierFlags)
    as (_ & Hfatal & _).
  split; [exact Hin |].
  split; [exact (proj1 (Hok Hin)) |].
  split; [vm_compute; reflexivity |].
  split; [exact Hout |].
  exact (proj1 (Hfatal Hout)).
Defined.

(** ** Checks that have passed *)

Lemma failure_Some {A : Type} (m : Result A) (e : FatalError) :
  failure m = Some e <-> m = Fatal e.
Proof.
  destruct m as [e' | a]; simpl; split; intros H; try discriminate H.
  - injection H as ->. reflexivity.
  - injection H as ->. reflexivity.
Qed.

Lemma firstFailure_drop (n : nat) (l : list (option FatalError)) :
  Forall (fun o => o = None) (take n l) ->
  firstFailure l = firstFailure (drop n l).
Proof.
  intros H. rewrite <- (take_drop n l) at 1.
  apply firstFailure_app_None, H.
Qed.

(** When the first [n] checks pass, the outcome is decided by the others. *)
Lemma resolveConf_after (n : nat) (env : Env) (factory : GlobalLookupFactory)
    (module : string) (f : Flags) :
  Forall (fun o => o = None) (take n (checks env factory f)) ->
  failure (resolveConf env factory module f)
  = firstFailure (drop n (checks env factory f)).
Proof.
  intros H. rewrite failure_resolveConf. apply firstFailure_drop, H.
Qed.

Lemma configure_stops (env : Env) (e : FatalError) :
  moduleAndFlags env = Fatal e -> configure env = Fatal e /\ main env = Fatal e.
Proof.
  intros H. unfold main, configure. rewrite H. split; reflexivity.
Qed.

(** ** Arguments left over after the flags *)

Lemma digLike_spec (env : Env) (path : string) (args : list string) :
  digLikeOn env path args = true
  <-> length args = 1%nat /\ stdinCharDevice env /\ path = "-".
Proof.
  unfold digLikeOn, stdinCharDevice.
  destruct (stdinStat env) as [mode |].
  - unfold digLike.
    rewrite !andb_true_iff, negb_true_iff, Z.eqb_neq, String.eqb_eq, Nat.eqb_eq.
    split.
    + intros [[Hbit Hpath] Hlen]. split; [exact Hlen |].
      split; [exists mode; split; [reflexivity | exact Hbit] | exact Hpath].
    + intros (Hlen & (mode' & Hmode & Hbit) & Hpath).
      injection Hmode as <-. tauto.
  - split; [discriminate |].
    intros (_ & (mode & Hmode & _) & _). discriminate Hmode.
Qed.

Lemma leftOverCheck_spec (env : Env) (path : string) (args : list string) :
  leftOverCheck env path args
  = match args with
    | [] => None
    | _ :: _ =>
        match stdinStat env with
        | None => Some NilStatPanic
        | Some _ =>
            if digLikeOn env path args then None else Some (UnusedArguments args)
        end
    end.
Proof.
  unfold leftOverCheck, digLikeOn.
  destruct args; [reflexivity |]. destruct (stdinStat env); reflexivity.
Qed.

Lemma length_one {A : Type} (l : list A) :
  length l = 1%nat <-> exists a, l = [a].
Proof.
  split.
  - destruct l as [| a [| b l]]; simpl; intros H; try discriminate H.
    exists a. reflexivity.
  - intros [a ->]. reflexivity.
Qed.

(** C5, as the code has it.  A left-over argument is taken as the name to
    look up exactly when it is the only one, [os.Stdin.Stat()] succeeds and
    reports a character device, and [--input-file] is ["-"]; then it becomes
    [gc.PassedName].  A terminal is a character device, and so is
    [/dev/null]: nothing tests that the device is a terminal.  When [Stat]
    succeeds, any other non-empty list of left-over arguments is fatal
    ("unused command line flags"), and with no left-over argument
    [gc.PassedName] stays empty. *)
Theorem adhoc_query_name (env : Env) (factory : GlobalLookupFactory)
    (module : string) (f : Flags) :
  (forall gc rt,
     resolveConf env factory module f = Ok (gc, rt) ->
     (Args f = [] /\ PassedName gc = "")
     \/ (exists a, Args f = [a] /\ stdinCharDevice env /\ flag_input_file f = "-"
                   /\ PassedName gc = a))
  /\ (forall a,
        Args f = [a] -> stdinCharDevice env -> flag_input_file f = "-" ->
        (forall gc0,
           InputFilePath gc0 = flag_input_file f ->
           passedName env (Args f) gc0 = Ok (set_PassedName a gc0))
        /\ (Forall (fun o => o = None) (take 7 (checks env factory f)) ->
            AllowStdIn factory = true ->
            exists gc rt,
              resolveConf env factory module f = Ok (gc, rt) /\ PassedName gc = a))
  /\ (Args f = [] -> forall gc0, passedName env (Args f) gc0 = Ok gc0)
  /\ (Args f <> [] ->
      ~ (length (Args f) = 1%nat /\ stdinCharDevice env /\ flag_input_file f = "-") ->
      (exists e, resolveConf env factory module f = Fatal e)
      /\ forall mode,
           stdinStat env = Some mode ->
           (forall gc0,
              InputFilePath gc0 = flag_input_file f ->
              passedName env (Args f) gc0 = Fatal (UnusedArguments (Args f)))
           /\ (Forall (fun o => o = None) (take 7 (checks env factory f)) ->
               resolveConf env factory module f = Fatal (UnusedArguments (Args f)))).
Proof.
  split; [| split; [| split]].
  - intros gc rt Hres.
    apply resolveConf_Ok_inv in Hres as (_ & _ & _ & _ & _ & _ & _ & Hname & _).
    destruct Hname as [Hnone | [Hdig Hname]]; [left; exact Hnone | right].
    apply digLike_spec in Hdig as (Hlen & Hterm & Hpath).
    apply length_one in Hlen as [a Ha].
    exists a. rewrite Ha in Hname. repeat split; assumption.
  - intros a Hargs Hterm Hpath.
    assert (Hdig : digLikeOn env (flag_input_file f) (Args f) = true).
    { apply digLike_spec. rewrite Hargs. repeat split; assumption. }
    destruct Hterm as (mode & Hmode & Hbit).
    split.
    + intros gc0 Hgc0. unfold passedName. unfold digLikeOn in Hdig.
      rewrite Hmode in Hdig |- *. rewrite Hgc0, Hdig, Hargs. reflexivity.
    + intros Hpassed Hstdin.
      pose proof (resolveConf_after 7 env factory module f Hpassed) as Hfail.
      cbn [drop checks firstFailure] in Hfail.
      rewrite leftOverCheck_spec, Hmode, Hdig, Hargs, Hstdin in Hfail.
      cbn in Hfail.
      destruct (resolveConf env factory module f) as [e | [gc rt]] eqn:Hres;
        [discriminate Hfail |].
      exists gc, rt. split; [reflexivity |].
      apply resolveConf_Ok_inv in Hres as (_ & _ & _ & _ & _ & _ & _ & Hname & _).
      destruct Hname as [[Hnone _] | [_ Hname]].
      * rewrite Hargs in Hnone. discriminate Hnone.
      * rewrite Hname, Hargs. reflexivity.
  - intros Hargs gc0. unfold passedName. rewrite Hargs. reflexivity.
  - intros Hargs Hnot.
    assert (Hdig : digLikeOn env (flag_input_file f) (Args f) = false).
    { destruct (digLikeOn _ _ _) eqn:E; [| reflexivity].
      apply digLike_spec in E. contradiction. }
    assert (Hcheck : exists e, leftOverCheck env (flag_input_file f) (Args f) = Some e).
    { rewrite leftOverCheck_spec, Hdig.
      destruct (Args f); [contradiction |].
      destruct (stdinStat env); eauto. }
    split.
    + destruct Hcheck as [e He].
      apply (resolveConf_fails env factory module f e).
      unfold checks. rewrite He. simpl. tauto.
    + intros mode Hmode. split.
      * intros gc0 Hgc0. unfold passedName. unfold digLikeOn in Hdig.
        rewrite Hmode in Hdig |- *. rewrite Hgc0, Hdig.
        destruct (Args f); [contradiction | reflexivity].
      * intros Hpassed.
        pose proof (resolveConf_after 7 env factory module f Hpassed) as Hfail.
        cbn [drop checks firstFailure] in Hfail.
        rewrite leftOverCheck_spec, Hmode, Hdig in Hfail.
        destruct (Args f) as [| a args] eqn:Ha; [contradiction |].
        cbn in Hfail. apply failure_Some, Hfail.
Qed.

Lemma adhoc_query_name_witness :
  Args digFlags = ["example.com"]
  /\ stdinCharDevice digEnv
  /\ flag_input_file digFlags = "-"
  /\ (exists gc rt,
        resolveConf digEnv sampleFactory "A" digFlags = Ok (gc, rt)
        /\ PassedName gc = "example.com")
  /\ Args twoArgsFlags <> []
  /\ ~ (length (Args twoArgsFlags) = 1%nat /\ stdinCharDevice twoArgsEnv
        /\ flag_input_file twoArgsFlags = "-")
  /\ stdinStat twoArgsEnv = Some terminalMode
  /\ resolveConf twoArgsEnv sampleFactory "A" twoArgsFlags
     = Fatal (UnusedArguments (Args twoArgsFlags)).
Proof.
  assert (Hargs : Args digFlags = ["example.com"]) by reflexivity.
  assert (Hterm : stdinCharDevice digEnv).
  { exists terminalMode. split; [reflexivity | vm_compute; discriminate]. }
  assert (Hpath : flag_input_file digFlags = "-") by reflexivity.
  assert (Hpassed : Forall (fun o => o = None)
                      (take 7 (checks digEnv sampleFactory digFlags))).
  { vm_compute. repeat constructor. }
  assert (Hmany : Args twoArgsFlags <> []) by discriminate.
  assert (Hnot : ~ (length (Args twoArgsFlags) = 1%nat /\ stdinCharDevice twoArgsEnv
                    /\ flag_input_file twoArgsFlags = "-")).
  { intros [Hlen _]. discriminate Hlen. }
  assert (Hmode : stdinStat twoArgsEnv = Some terminalMode) by reflexivity.
  assert (Hpassed' : Forall (fun o => o = None)
                       (take 7 (checks twoArgsEnv sampleFactory twoArgsFlags))).
  { vm_compute. repeat constructor. }
  pose proof (adhoc_query_name digEnv sampleFactory "A" digFlags)
    as (_ & Hone & _).
  pose proof (adhoc_query_name twoArgsEnv sampleFactory "A" twoArgsFlags)
    as (_ & _ & _ & Hunused).
  split; [exact Hargs |]. split; [exact Hterm |]. split; [exact Hpath |].
  split; [exact (proj2 (Hone _ Hargs Hterm Hpath) Hpassed eq_refl) |].
  split; [exact Hmany |]. split; [exact Hnot |]. split; [exact Hmode |].
  exact (proj2 (proj2 (Hunused Hmany Hnot) _ Hmode) Hpassed').
Defined.

(** The statement of C5 read literally fails on [/dev/null]: standard input
    is no terminal there, and the left-over argument is accepted all the
    same, because [/dev/null] is a character device. *)
Lemma adhoc_name_from_dev_null :
  Args digFlags = ["example.com"]
  /\ flag_input_file digFlags = "-"
  /\ stdinStat devNullDigEnv = Some devNullMode
  /\ ~ stdinInteractive devNullDigEnv
  /\ PassedName <$> conf (resolveConf devNullDigEnv sampleFactory "A" digFlags)
     = Some "example.com"
  /\ PassedName <$> failure_free (main devNullDigEnv) = Some "example.com".
Proof.
  split; [reflexivity |]. split; [reflexivity |]. split; [reflexivity |].
  split; [unfold stdinInteractive; discriminate |].
  split; vm_compute; reflexivity.
Qed.

(** ** TCP only and UDP only *)

(** C6. With both [--tcp-only] and [--udp-only] the run is fatal whatever
    the other flags are: no configuration reaches [Initialize] or
    [DoLookups]. *)
Theorem transport_conflict_fatal (env : Env) (factory : GlobalLookupFactory)
    (module : string) (f : Flags) :
  flag_tcp_only f = true ->
  flag_udp_only f = true ->
  (exists e, resolveConf env factory module f = Fatal e)
  /\ (forall gc rt, resolveConf env factory module f <> Ok (gc, rt))
  /\ (moduleAndFlags env = Ok (factory, module, f) ->
      exists e, configure env = Fatal e /\ main env = Fatal e)
  /\ (Forall (fun o => o = None) (take 5 (checks env factory f)) ->
      resolveConf env factory module f = Fatal TransportConflict).
Proof.
  intros Htcp Hudp.
  assert (Hfatal : exists e, resolveConf env factory module f = Fatal e).
  { apply (resolveConf_fails env factory module f TransportConflict).
    unfold checks. rewrite Htcp, Hudp. simpl. tauto. }
  split; [exact Hfatal |]. split; [| split].
  - intros gc rt Hok. destruct Hfatal as [e He]. congruence.
  - intros Hparse. destruct Hfatal as [e He]. exists e.
    exact (configure_fails env factory module f e Hparse He).
  - intros Hpassed.
    pose proof (resolveConf_after 5 env factory module f Hpassed) as Hfail.
    cbn [drop checks firstFailure] in Hfail.
    rewrite Htcp, Hudp in Hfail. cbn in Hfail.
    apply failure_Some, Hfail.
Qed.

Lemma transport_conflict_fatal_witness :
  flag_tcp_only conflictFlags = true
  /\ flag_udp_only conflictFlags = true
  /\ moduleAndFlags conflictEnv = Ok (sampleFactory, "A", conflictFlags)
  /\ resolveConf conflictEnv sampleFactory "A" conflictFlags = Fatal TransportConflict
  /\ exists e, configure conflictEnv = Fatal e /\ main conflictEnv = Fatal e.
Proof.
  assert (Htcp : flag_tcp_only conflictFlags = true) by reflexivity.
  assert (Hudp : flag_udp_only conflictFlags = true) by reflexivity.
  assert (Hparse : moduleAndFlags conflictEnv = Ok (sampleFactory, "A", conflictFlags))
    by reflexivity.
  assert (Hpassed : Forall (fun o => o = None)
                      (take 5 (checks conflictEnv sampleFactory conflictFlags))).
  { vm_compute. repeat constructor. }
  pose proof (transport_conflict_fatal conflictEnv sampleFactory "A" conflictFlags
                Htcp Hudp) as (_ & _ & Hmain & Hfirst).
  split; [exact Htcp |]. split; [exact Hudp |]. split; [exact Hparse |].
  split; [exact (Hfirst Hpassed) |].
  exact (Hmain Hparse).
Defined.

(** ** The DNS class *)

Lemma upperByte_ascii (c : ascii) :
  (utf8.byteval (strings.upperByte c) <? utf8.RuneSelf)
  = (utf8.byteval c <? utf8.RuneSelf).
Proof. destruct c as [[] [] [] [] [] [] [] []]; reflexivity. Qed.

Lemma isASCII_upper (s : string) :
  strings.isASCII (strings.mapBytes strings.upperByte s) = strings.isASCII s.
Proof.
  unfold strings.isASCII.
  induction s as [| c s IH]; [reflexivity |].
  cbn [strings.mapBytes list_ascii_of_string forallb].
  rewrite upperByte_ascii, IH. reflexivity.
Qed.

(** Text whose bytes upper-case to ASCII text is ASCII, and [ToUpper] takes
    the byte-wise path on it. *)
Lemma ToUpper_bytes (u : string -> string) (s name : string) :
  strings.isASCII name = true ->
  strings.mapBytes strings.upperByte s = name ->
  strings.ToUpper u s = name.
Proof.
  intros Hascii Hup. unfold strings.ToUpper.
  rewrite <- isASCII_upper, Hup, Hascii. reflexivity.
Qed.

(** The [switch] is a look-up of the upper-cased text in the table. *)
Lemma classOf_table (env : Env) (s : string) :
  classOf env s
  = match classCode (strings.ToUpper (unicodeToUpper env) s) with
    | Some code => Ok code
    | None => Fatal UnknownClass
    end.
Proof.
  unfold classOf, classCode, classTable.
  generalize (strings.ToUpper (unicodeToUpper env) s). intros u.
  cbn [List.find fst snd].
  repeat (destruct (String.eqb u _); [reflexivity |]; cbn [orb]).
  reflexivity.
Qed.

Lemma classTable_names (name : string) (code : Z) :
  In (name, code) classTable ->
  strings.isASCII name = true /\ classCode name = Some code.
Proof.
  unfold classTable. simpl.
  intros [H | [H | [H | [H | [H | [H | [H | [H | [H | [H | []]]]]]]]]]];
    injection H as <- <-; split; reflexivity.
Qed.

Lemma classOf_check (env : Env) (factory : GlobalLookupFactory) (f : Flags) :
  In (failure (classOf env (class_string f))) (checks env factory f).
Proof. unfold checks. simpl. tauto. Qed.

(** C7. The class is found by upper-casing [--class] and looking it up in
    the table of names: a name in any mix of cases gives the code of the
    table, a full name and its two-letter form give the same code, ["in"],
    ["INET"] and the default give [dns.ClassINET], and text that is not in
    the table, such as ["bogus"], is fatal. *)
Theorem class_mapping (env : Env) (factory : GlobalLookupFactory)
    (module : string) (f : Flags) :
  (forall s,
     classOf env s
     = match classCode (strings.ToUpper (unicodeToUpper env) s) with
       | Some code => Ok code
       | None => Fatal UnknownClass
       end)
  /\ (forall s name code,
        In (name, code) classTable ->
        strings.mapBytes strings.upperByte s = name ->
        classOf env s = Ok code)
  /\ (classOf env "IN" = Ok dns.ClassINET /\ classOf env "INET" = Ok dns.ClassINET)
  /\ (classOf env "CS" = Ok dns.ClassCSNET /\ classOf env "CSNET" = Ok dns.ClassCSNET)
  /\ (classOf env "CH" = Ok dns.ClassCHAOS /\ classOf env "CHAOS" = Ok dns.ClassCHAOS)
  /\ (classOf env "HS" = Ok dns.ClassHESIOD /\ classOf env "HESIOD" = Ok dns.ClassHESIOD)
  /\ (classOf env "NONE" = Ok dns.ClassNONE /\ classOf env "ANY" = Ok dns.ClassANY)
  /\ (classOf env "in" = Ok dns.ClassINET
      /\ classOf env (class_string defaultFlags) = Ok dns.ClassINET)
  /\ classOf env "bogus" = Fatal UnknownClass
  /\ (classCode (strings.ToUpper (unicodeToUpper env) (class_string f)) = None ->
      classOf env (class_string f) = Fatal UnknownClass
      /\ exists e, resolveConf env factory module f = Fatal e)
  /\ (forall gc rt,
        resolveConf env factory module f = Ok (gc, rt) ->
        classCode (strings.ToUpper (unicodeToUpper env) (class_string f))
        = Some (Class_ gc)).
Proof.
  split; [exact (classOf_table env) |].
  split.
  { intros s name code Hin Hup.
    destruct (classTable_names name code Hin) as [Hascii Hcode].
    rewrite classOf_table, (ToUpper_bytes _ s name Hascii Hup), Hcode.
    reflexivity. }
  do 5 (split; [split; reflexivity |]).
  split; [split; reflexivity |].
  split; [reflexivity |].
  split.
  - intros Hnone.
    assert (Hfatal : classOf env (class_string f) = Fatal UnknownClass).
    { rewrite classOf_table, Hnone. reflexivity. }
    split; [exact Hfatal |].
    apply (resolveConf_fails env factory module f UnknownClass).
    pose proof (classOf_check env factory f) as Hin.
    rewrite Hfatal in Hin. exact Hin.
  - intros gc rt Hres.
    apply resolveConf_Ok_inv in Hres as (_ & _ & Hclass & _).
    rewrite classOf_table in Hclass.
    destruct (classCode _) as [code |]; [| discriminate Hclass].
    injection Hclass as ->. reflexivity.
Qed.

Lemma class_mapping_witness :
  In ("CHAOS", dns.ClassCHAOS) classTable
  /\ strings.mapBytes strings.upperByte "cHaOs" = "CHAOS"
  /\ classOf defaultEnv "cHaOs" = Ok dns.ClassCHAOS
  /\ classCode (strings.ToUpper (unicodeToUpper defaultEnv) (class_string bogusClassFlags))
     = None
  /\ classOf defaultEnv (class_string bogusClassFlags) = Fatal UnknownClass.
Proof.
  assert (Hin : In ("CHAOS", dns.ClassCHAOS) classTable).
  { do 4 right. left. reflexivity. }
  assert (Hup : strings.mapBytes strings.upperByte "cHaOs" = "CHAOS") by reflexivity.
  assert (Hnone : classCode (strings.ToUpper (unicodeToUpper defaultEnv)
                               (class_string bogusClassFlags)) = None) by reflexivity.
  pose proof (class_mapping defaultEnv sampleFactory "A" bogusClassFlags)
    as (_ & Hcase & _ & _ & _ & _ & _ & _ & _ & Hbogus & _).
  split; [exact Hin |]. split; [exact Hup |].
  split; [exact (Hcase _ _ _ Hin Hup) |].
  split; [exact Hnone |].
  exact (proj1 (Hbogus Hnone)).
Defined.

(** ** The timeouts *)

Lemma ofSeconds_exact (n : Z) :
  -9223372036 <= n <= 9223372036 -> time.ofSeconds n = n * 1000000000.
Proof.
  intros Hn. unfold time.ofSeconds, time.wrap64, time.Second.
  rewrite (Z.mod_small (n + 2 ^ 63)) by lia.
  replace (n + 2 ^ 63 - 2 ^ 63) with n by lia.
  rewrite Z.mod_small by lia. lia.
Qed.

Lemma checks_with_timeouts (env : Env) (factory : GlobalLookupFactory)
    (f : Flags) (t it : Z) :
  checks env factory (with_timeouts t it f) = checks env factory f.
Proof. reflexivity. Qed.

Lemma wrap64_congr (z : Z) : exists k, time.wrap64 z = z + k * 2 ^ 64.
Proof.
  unfold time.wrap64. exists (- ((z + 2 ^ 63) / 2 ^ 64)).
  rewrite Z.mod_eq by lia. lia.
Qed.

Lemma ofSeconds_congr (n : Z) :
  exists k, time.ofSeconds n = n * 1000000000 + k * 2 ^ 64.
Proof.
  unfold time.ofSeconds, time.Second.
  destruct (wrap64_congr n) as [k1 ->].
  destruct (wrap64_congr (1000000000 * (n + k1 * 2 ^ 64))) as [k2 ->].
  exists (1000000000 * k1 + k2). lia.
Qed.

Lemma ofSeconds_range (n : Z) : - 2 ^ 63 <= time.ofSeconds n < 2 ^ 63.
Proof.
  unfold time.ofSeconds, time.wrap64.
  pose proof (Z.mod_pos_bound (time.Second * ((n + 2 ^ 63) mod 2 ^ 64 - 2 ^ 63) + 2 ^ 63)
                (2 ^ 64) ltac:(lia)).
  lia.
Qed.

(** C8, as the code has it.  The two timeouts are turned from seconds into
    [time.Duration] values, nanoseconds in 64 bits, and nothing is checked,
    not even the sign: a negative timeout is accepted like any other, and
    the outcome of the run does not depend on either value. *)
Theorem timeouts_converted_unchecked (env : Env) (factory : GlobalLookupFactory)
    (module : string) (f : Flags) :
  (forall gc rt,
     resolveConf env factory module f = Ok (gc, rt) ->
     Timeout gc = time.ofSeconds (timeout f)
     /\ IterationTimeout gc = time.ofSeconds (iterationTimeout f)
     /\ (exists k, Timeout gc = timeout f * 1000000000 + k * 2 ^ 64)
     /\ (exists k, IterationTimeout gc = iterationTimeout f * 1000000000 + k * 2 ^ 64)
     /\ - 2 ^ 63 <= Timeout gc < 2 ^ 63
     /\ - 2 ^ 63 <= IterationTimeout gc < 2 ^ 63
     /\ (-9223372036 <= timeout f <= 9223372036 ->
         Timeout gc = timeout f * 1000000000)
     /\ (-9223372036 <= iterationTimeout f <= 9223372036 ->
         IterationTimeout gc = iterationTimeout f * 1000000000)
     /\ (-9223372036 <= timeout f < 0 -> Timeout gc < 0)
     /\ (-9223372036 <= iterationTimeout f < 0 -> IterationTimeout gc < 0))
  /\ (forall t it,
        failure (resolveConf env factory module (with_timeouts t it f))
        = failure (resolveConf env factory module f))
  /\ (forall t it gc rt,
        resolveConf env factory module f = Ok (gc, rt) ->
        exists gc' rt',
          resolveConf env factory module (with_timeouts t it f) = Ok (gc', rt')
          /\ Timeout gc' = time.ofSeconds t
          /\ IterationTimeout gc' = time.ofSeconds it).
Proof.
  assert (Hsame : forall t it,
             failure (resolveConf env factory module (with_timeouts t it f))
             = failure (resolveConf env factory module f)).
  { intros t it. rewrite !failure_resolveConf, checks_with_timeouts. reflexivity. }
  split; [| split; [exact Hsame |]].
  - intros gc rt Hres.
    apply resolveConf_Ok_inv in Hres
      as (_ & _ & _ & _ & _ & _ & _ & _ & _ & Ht & Hit & _).
    split; [exact Ht |]. split; [exact Hit |].
    split; [rewrite Ht; apply ofSeconds_congr |].
    split; [rewrite Hit; apply ofSeconds_congr |].
    split; [rewrite Ht; apply ofSeconds_range |].
    split; [rewrite Hit; apply ofSeconds_range |].
    split; [intros Hrange; rewrite Ht; apply ofSeconds_exact, Hrange |].
    split; [intros Hrange; rewrite Hit; apply ofSeconds_exact, Hrange |].
    split; intros Hrange.
    + rewrite Ht, ofSeconds_exact by lia. lia.
    + rewrite Hit, ofSeconds_exact by lia. lia.
  - intros t it gc rt Hres.
    specialize (Hsame t it). rewrite Hres in Hsame. cbn in Hsame.
    destruct (resolveConf env factory module (with_timeouts t it f))
      as [e | [gc' rt']] eqn:Hres'; [discriminate Hsame |].
    exists gc', rt'. split; [reflexivity |].
    apply resolveConf_Ok_inv in Hres'
      as (_ & _ & _ & _ & _ & _ & _ & _ & _ & Ht & Hit & _).
    split; assumption.
Qed.

Lemma timeouts_converted_unchecked_witness :
  resolveConf negativeEnv sampleFactory "A" negativeFlags
  = Ok (negativeConf, runtimeDefault)
  /\ -9223372036 <= timeout negativeFlags < 0
  /\ -9223372036 <= iterationTimeout negativeFlags < 0
  /\ Timeout negativeConf = timeout negativeFlags * 1000000000
  /\ Timeout negativeConf < 0
  /\ IterationTimeout negativeConf < 0.
Proof.
  assert (Hres : resolveConf negativeEnv sampleFactory "A" negativeFlags
                 = Ok (negativeConf, runtimeDefault)) by (vm_compute; reflexivity).
  assert (Ht : -9223372036 <= timeout negativeFlags < 0)
    by (split; [discriminate | reflexivity]).
  assert (Hit : -9223372036 <= iterationTimeout negativeFlags < 0)
    by (split; [discriminate | reflexivity]).
  assert (Ht' : -9223372036 <= timeout negativeFlags <= 9223372036)
    by (split; discriminate).
  pose proof (timeouts_converted_unchecked negativeEnv sampleFactory "A" negativeFlags)
    as (Hconv & _).
  destruct (Hconv _ _ Hres) as (_ & _ & _ & _ & _ & _ & Hexact & _ & Hneg & Hneg').
  split; [exact Hres |]. split; [exact Ht |]. split; [exact Hit |].
  split; [exact (Hexact Ht') |]. split; [exact (Hneg Ht) | exact (Hneg' Hit)].
Defined.

(** A negative [--timeout] is not rejected: the run goes through, with
    negative durations in the configuration. *)
Lemma negative_timeout_accepted :
  timeout negativeFlags = -1
  /\ iterationTimeout negativeFlags = -5
  /\ failure (resolveConf negativeEnv sampleFactory "A" negativeFlags) = None
  /\ Timeout <$> conf (resolveConf negativeEnv sampleFactory "A" negativeFlags)
     = Some (-1000000000)
  /\ IterationTimeout <$> conf (resolveConf negativeEnv sampleFactory "A" negativeFlags)
     = Some (-5000000000)
  /\ Timeout <$> failure_free (main negativeEnv) = Some (-1000000000).
Proof. repeat split; vm_compute; reflexivity. Qed.

(** ** The order of the stages *)

Lemma failure_configure (env : Env) (factory : GlobalLookupFactory)
    (module : string) (f : Flags) :
  moduleAndFlags env = Ok (factory, module, f) ->
  failure (configure env) = failure (resolveConf env factory module f).
Proof.
  intros Hparse. unfold configure. rewrite Hparse. cbn [bind].
  destruct (resolveConf env factory module f); reflexivity.
Qed.

Lemma firstFailure_app_Some (l1 l2 : list (option FatalError)) (e : FatalError) :
  firstFailure l1 = Some e -> firstFailure (l1 ++ l2) = Some e.
Proof.
  induction l1 as [| [e0 |] l1 IH]; simpl; intros H; [discriminate H | exact H | auto].
Qed.

Lemma firstFailure_None (l : list (option FatalError)) :
  firstFailure l = None -> Forall (fun o => o = None) l.
Proof.
  induction l as [| [e0 |] l IH]; simpl; intros H.
  - constructor.
  - discriminate H.
  - constructor; [reflexivity | exact (IH H)].
Qed.

(** The checks before the transport check do not report the error of the
    output groups. *)
Lemma early_failure (env : Env) (factory : GlobalLookupFactory) (f : Flags)
    (e : FatalError) :
  firstFailure (take 5 (checks env factory f)) = Some e ->
  e <> InvalidResultVerbosity /\ e <> TransportConflict.
Proof.
  cbn [take checks firstFailure].
  unfold openLog.
  destruct (String.eqb (flag_log_file f) ""); cbn [failure];
    [| destruct (OpenFile env (flag_log_file f)); cbn [failure];
       [intros H; injection H as <-; split; discriminate |]].
  all: destruct (levelOf (flag_verbosity f)) as [e1 |] eqn:Hlevel; cbn [failure];
    [ assert (e1 = UnknownVerbosity) as ->
        by (unfold levelOf in Hlevel;
            repeat (destruct (_ =? _) in Hlevel; [discriminate Hlevel |]);
            congruence);
      intros H; injection H as <-; split; discriminate |].
  all: rewrite classOf_table;
    destruct (classCode _); cbn [failure];
    [| intros H; injection H as <-; split; discriminate].
  all: unfold nameServers, designated;
    destruct (servers_string f) as [| c rest].
  all: try (destruct (flag_iterative f); cbn [failure];
            [| destruct (GetDNSServers env (config_file f)); cbn [failure];
               [intros H; injection H as <-; split; discriminate |]]).
  all: try (destruct (Ascii.eqb c "@");
            [destruct (ReadFile env rest) as [err | content]; cbn [bind failure];
             [intros H; injection H as <-; split; discriminate |
              destruct (String.length content =? 0)%nat; cbn [bind failure];
              [intros H; injection H as <-; split; discriminate |]]
            | cbn [bind failure]]).
  all: destruct (flag_go_processes f <? 0); cbn [fatalIf failure];
    [intros H; injection H as <-; split; discriminate | discriminate].
Qed.

(** C9, as the code has it.  [main] looks the module up, lets it add its
    flags and parses the command line; then come, in this order, the log
    file, the log level, the timeouts and the class, the name servers, the
    check of [--go-processes], the check of [--tcp-only] against
    [--udp-only], the output groups, the left-over arguments and the check
    that the module may read standard input; the hand-over to the module
    and to the engine comes last.  The first failure ends the run.  So with
    both transport flags the error reported is never that of an invalid
    result verbosity: it is the transport conflict when the checks before
    it pass, and the error of the first of them that fails otherwise.  An
    invalid result verbosity without a transport conflict, the checks
    before it passing, is reported whatever the left-over arguments and the
    standard input check are. *)
Theorem stages_in_source_order (env : Env) (factory : GlobalLookupFactory)
    (module : string) (f : Flags) :
  (forall prog name rest,
     osArgs env = prog :: name :: rest ->
     GetLookup env (strings.ToUpper (unicodeToUpper env) name) = None ->
     main env = Fatal FlagExit
     \/ main env = Fatal (InvalidModule (ValidlookupsString env)))
  /\ (forall e, moduleAndFlags env = Fatal e -> configure env = Fatal e /\ main env = Fatal e)
  /\ (forall gc',
        main env = Ok gc' ->
        exists factory' gc rt,
          configure env = Ok (factory', gc, rt) /\ handOver env factory' gc = Ok gc')
  /\ (moduleAndFlags env = Ok (factory, module, f) ->
      failure (configure env) = firstFailure (checks env factory f)
      /\ forall e, firstFailure (checks env factory f) = Some e ->
                   configure env = Fatal e /\ main env = Fatal e)
  /\ (flag_tcp_only f = true ->
      flag_udp_only f = true ->
      exists e,
        resolveConf env factory module f = Fatal e
        /\ (moduleAndFlags env = Ok (factory, module, f) -> main env = Fatal e)
        /\ e <> InvalidResultVerbosity
        /\ (firstFailure (take 5 (checks env factory f)) = None ->
            e = TransportConflict)
        /\ (forall e', firstFailure (take 5 (checks env factory f)) = Some e' ->
                       e = e'))
  /\ (~ In (flag_result_verbosity f) tiers ->
      Forall (fun o => o = None) (take 5 (checks env factory f)) ->
      (flag_tcp_only f = true -> flag_udp_only f = true ->
       resolveConf env factory module f = Fatal TransportConflict)
      /\ (flag_udp_only f && flag_tcp_only f = false ->
          resolveConf env factory module f = Fatal InvalidResultVerbosity)).
Proof.
  split.
  { intros prog name rest Hargs Hlookup.
    unfold main, configure, moduleAndFlags. rewrite Hargs, Hlookup.
    destruct (flagsParse env None (name :: rest)); [right | left]; reflexivity. }
  split; [exact (configure_stops env) |].
  split.
  { intros gc' Hmain. unfold main in Hmain.
    apply bind_Ok_inv in Hmain as ([[factory' gc] rt] & Hconf & Hhand).
    exists factory', gc, rt. split; assumption. }
  split.
  { intros Hparse.
    split.
    + rewrite (failure_configure env factory module f Hparse).
      apply failure_resolveConf.
    + intros e He. rewrite <- (failure_resolveConf env factory module f) in He.
      apply failure_Some in He.
      exact (configure_fails env factory module f e Hparse He). }
  split.
  - intros Htcp Hudp.
    pose proof (failure_resolveConf env factory module f) as Hfail.
    rewrite <- (take_drop 5 (checks env factory f)) in Hfail.
    destruct (firstFailure (take 5 (checks env factory f))) as [e |] eqn:Hearly.
    + rewrite (firstFailure_app_Some _ _ e Hearly) in Hfail.
      apply failure_Some in Hfail.
      exists e. split; [exact Hfail |].
      split; [intros Hparse; exact (proj2 (configure_fails _ _ _ _ _ Hparse Hfail)) |].
      split; [exact (proj1 (early_failure env factory f e Hearly)) |].
      split; [discriminate |].
      intros e' He'. congruence.
    + rewrite (firstFailure_app_None _ _ (firstFailure_None _ Hearly)) in Hfail.
      cbn [drop checks firstFailure] in Hfail.
      rewrite Htcp, Hudp in Hfail. cbn in Hfail. apply failure_Some in Hfail.
      exists TransportConflict. split; [exact Hfail |].
      split; [intros Hparse; exact (proj2 (configure_fails _ _ _ _ _ Hparse Hfail)) |].
      split; [discriminate |].
      split; [reflexivity | discriminate].
  - intros Htier Hpassed.
    pose proof (resolveConf_after 5 env factory module f Hpassed) as Hfail.
    cbn [drop checks firstFailure] in Hfail.
    split.
    + intros Htcp Hudp. rewrite Htcp, Hudp in Hfail. cbn in Hfail.
      apply failure_Some, Hfail.
    + intros Hfree. rewrite Hfree in Hfail.
      rewrite (outputGroups_other [] _ (flag_include_fields f) Htier) in Hfail.
      cbn in Hfail. apply failure_Some, Hfail.
Qed.

Lemma stages_in_source_order_witness :
  moduleAndFlags bogusConflictEnv = Ok (sampleFactory, "A", bogusConflictFlags)
  /\ ~ In (flag_result_verbosity bogusConflictFlags) tiers
  /\ flag_tcp_only bogusConflictFlags = true
  /\ flag_udp_only bogusConflictFlags = true
  /\ resolveConf bogusConflictEnv sampleFactory "A" bogusConflictFlags
     = Fatal TransportConflict
  /\ flag_udp_only bogusTierFlags && flag_tcp_only bogusTierFlags = false
  /\ resolveConf defaultEnv sampleFactory "A" bogusTierFlags
     = Fatal InvalidResultVerbosity
  /\ flag_tcp_only loudConflictFlags = true
  /\ flag_udp_only loudConflictFlags = true
  /\ firstFailure (take 5 (checks defaultEnv sampleFactory loudConflictFlags))
     = Some UnknownVerbosity
  /\ exists e,
       resolveConf defaultEnv sampleFactory "A" loudConflictFlags = Fatal e
       /\ e = UnknownVerbosity.
Proof.
  assert (Hparse : moduleAndFlags bogusConflictEnv
                   = Ok (sampleFactory, "A", bogusConflictFlags)) by reflexivity.
  assert (Htier : ~ In "bogus" tiers).
  { intros [H | [H | [H | [H | []]]]]; discriminate H. }
  assert (Hpassed : Forall (fun o => o = None)
                      (take 5 (checks bogusConflictEnv sampleFactory bogusConflictFlags))).
  { vm_compute. repeat constructor. }
  assert (Hpassed' : Forall (fun o => o = None)
                       (take 5 (checks defaultEnv sampleFactory bogusTierFlags))).
  { vm_compute. repeat constructor. }
  assert (Hearly : firstFailure (take 5 (checks defaultEnv sampleFactory loudConflictFlags))
                   = Some UnknownVerbosity) by (vm_compute; reflexivity).
  pose proof (stages_in_source_order bogusConflictEnv sampleFactory "A"
                bogusConflictFlags) as (_ & _ & _ & _ & _ & Hboth).
  pose proof (stages_in_source_order defaultEnv sampleFactory "A" bogusTierFlags)
    as (_ & _ & _ & _ & _ & Honly).
  pose proof (stages_in_source_order defaultEnv sampleFactory "A" loudConflictFlags)
    as (_ & _ & _ & _ & Hloud & _).
  split; [exact Hparse |]. split; [exact Htier |].
  split; [reflexivity |]. split; [reflexivity |].
  split; [exact (proj1 (Hboth Htier Hpassed) eq_refl eq_refl) |].
  split; [reflexivity |].
  split; [exact (proj2 (Honly Htier Hpassed') eq_refl) |].
  split; [reflexivity |]. split; [reflexivity |]. split; [exact Hearly |].
  destruct (Hloud eq_refl eq_refl) as (e & Hres & _ & _ & _ & Hsame).
  exists e. split; [exact Hres | exact (Hsame _ Hearly)].
Defined.

(** With an invalid result verbosity and both transport flags, what [main]
    reports is the transport conflict, not the invalid verbosity. *)
Lemma conflict_reported_before_verbosity :
  outputGroups [] (flag_result_verbosity bogusConflictFlags)
    (flag_include_fields bogusConflictFlags) = Fatal InvalidResultVerbosity
  /\ flag_tcp_only bogusConflictFlags = true
  /\ flag_udp_only bogusConflictFlags = true
  /\ main bogusConflictEnv = Fatal TransportConflict
  /\ main bogusConflictEnv <> Fatal InvalidResultVerbosity.
Proof.
  split; [reflexivity |]. split; [reflexivity |]. split; [reflexivity |].
  split; [vm_compute; reflexivity |].
  vm_compute. discriminate.
Qed.

(** ** Entries that come with a port *)

(** C10. An entry of an explicit designation, inline or from a file, that
    contains [':'] is in [gc.NameServers] as it was written, white space
    included ([" 1.2.3.4:5353"] keeps its leading space); only entries
    without [':'] are changed. *)
Theorem entries_with_port_verbatim (env : Env) (factory : GlobalLookupFactory)
    (module : string) (f : Flags) (c : ascii) (rest : string)
    (entries : list string) :
  servers_string f = String c rest ->
  designated env c rest = Ok entries ->
  exists ns,
    nameServers env (flag_iterative f) (servers_string f) (config_file f)
    = Ok (ns, true)
    /\ length ns = length entries
    /\ (forall (i : nat) (e : string),
          entries !! i = Some e ->
          (strings.Contains e ":" = true -> ns !! i = Some e)
          /\ (ns !! i <> Some e -> strings.Contains e ":" = false))
    /\ (forall gc rt,
          resolveConf env factory module f = Ok (gc, rt) -> NameServers gc = ns)
    /\ (In " 1.2.3.4:5353" entries -> In " 1.2.3.4:5353" ns).
Proof.
  intros Hs Hentries. exists (map repairEntry entries).
  assert (Hns : nameServers env (flag_iterative f) (servers_string f) (config_file f)
                = Ok (map repairEntry entries, true)).
  { rewrite Hs. unfold nameServers. rewrite Hentries. cbn [bind].
    rewrite repairPorts_map. reflexivity. }
  split; [exact Hns |].
  split; [apply length_map |].
  split; [| split].
  - intros i e Hi. rewrite lookup_map, Hi. cbn [fmap option_fmap option_map].
    split.
    + intros He. rewrite repairEntry_with_port by exact He. reflexivity.
    + intros Hchanged. destruct (strings.Contains e ":") eqn:He; [| reflexivity].
      rewrite repairEntry_with_port in Hchanged by exact He. contradiction.
  - intros gc rt Hres.
    exact (proj1 (nameServers_resolved env factory module f gc rt _ _ Hns Hres)).
  - intros Hin. apply in_map_iff. exists " 1.2.3.4:5353".
    split; [reflexivity | exact Hin].
Qed.

Lemma entries_with_port_verbatim_witness :
  servers_string spacedFlags = String " " "1.2.3.4:5353, 8.8.8.8 "
  /\ designated spacedEnv " " "1.2.3.4:5353, 8.8.8.8 "
     = Ok [" 1.2.3.4:5353"; " 8.8.8.8 "]
  /\ nameServers spacedEnv (flag_iterative spacedFlags)
       (servers_string spacedFlags) (config_file spacedFlags)
     = Ok ([" 1.2.3.4:5353"; "8.8.8.8:53"], true)
  /\ exists ns,
       nameServers spacedEnv (flag_iterative spacedFlags)
         (servers_string spacedFlags) (config_file spacedFlags) = Ok (ns, true)
       /\ ns !! 0%nat = Some " 1.2.3.4:5353".
Proof.
  assert (Hs : servers_string spacedFlags = String " " "1.2.3.4:5353, 8.8.8.8 ")
    by reflexivity.
  assert (Hentries : designated spacedEnv " " "1.2.3.4:5353, 8.8.8.8 "
                     = Ok [" 1.2.3.4:5353"; " 8.8.8.8 "]) by reflexivity.
  destruct (entries_with_port_verbatim spacedEnv sampleFactory "A" spacedFlags
              _ _ _ Hs Hentries) as (ns & Hns & _ & Hkept & _).
  split; [exact Hs |]. split; [exact Hentries |].
  split; [vm_compute; reflexivity |].
  exists ns. split; [exact Hns |].
  exact (proj1 (Hkept 0%nat " 1.2.3.4:5353" eq_refl) eq_refl).
Defined.

(** * Further properties of [main] *)

(** ** The shape of the configuration *)

(** A successful resolution yields the parsed flags with the eight derived
    fields assigned, and the runtime settings. *)
Lemma resolveConf_Ok_shape (env : Env) (factory : GlobalLookupFactory)
    (module : string) (f : Flags) (gc : GlobalConf) (rt : Runtime) :
  resolveConf env factory module f = Ok (gc, rt) ->
  exists class ns groups name,
    gc = set_PassedName name
           (set_OutputGroups groups
              (set_TimeFormat
                 (if nanoSeconds f then time.RFC3339Nano else time.RFC3339)
                 (set_NameServersSpecified (snd ns)
                    (set_NameServers (fst ns)
                       (set_Class_ class
                          (set_IterationTimeout (time.ofSeconds (iterationTimeout f))
                             (set_Timeout (time.ofSeconds (timeout f))
                                (parsedConf module f))))))))
    /\ maxProcs rt = (if negb (flag_go_processes f =? 0)
                      then Some (flag_go_processes f) else None).
Proof.
  unfold resolveConf. intros H.
  apply bind_Ok_inv in H as (out & _ & H).
  apply bind_Ok_inv in H as (level & _ & H).
  apply bind_Ok_inv in H as (class & _ & H).
  apply bind_Ok_inv in H as (ns & _ & H).
  apply bind_Ok_inv in H as (u1 & _ & H).
  apply bind_Ok_inv in H as (u2 & _ & H).
  apply bind_Ok_inv in H as (groups & _ & H).
  apply bind_Ok_inv in H as (gc1 & Hname & H).
  apply bind_Ok_inv in H as (u3 & _ & H).
  injection H as <- <-.
  apply passedName_Ok_inv in Hname as [[_ ->] | [_ ->]].
  - exists class, ns, groups, "". split; reflexivity.
  - exists class, ns, groups, (nth 0 (Args f) ""). split; reflexivity.
Qed.

(** X5. [main] assigns the derived fields only: on success every field of
    [gc] that is bound to a flag holds the value that was parsed, the module
    name is the one looked up, and the time format is chosen by
    [--nanoseconds]. *)
Theorem flag_fields_kept (env : Env) (factory : GlobalLookupFactory)
    (module : string) (f : Flags) (gc : GlobalConf) (rt : Runtime) :
  resolveConf env factory module f = Ok (gc, rt) ->
  (Threads gc = flag_threads f /\ GoMaxProcs gc = flag_go_processes f
   /\ NamePrefix gc = flag_prefix f /\ AlexaFormat gc = flag_alexa f
   /\ IterativeResolution gc = flag_iterative f)
  /\ (InputFilePath gc = flag_input_file f /\ OutputFilePath gc = flag_output_file f
      /\ MetadataFilePath gc = flag_metadata_file f /\ LogFilePath gc = flag_log_file f)
  /\ (ResultVerbosity gc = flag_result_verbosity f
      /\ IncludeInOutput gc = flag_include_fields f
      /\ Verbosity gc = flag_verbosity f /\ Retries gc = flag_retries f
      /\ MaxDepth gc = flag_max_depth f /\ CacheSize gc = flag_cache_size f)
  /\ (InputHandler gc = flag_input_handler f /\ OutputHandler gc = flag_output_handler f
      /\ TCPOnly gc = flag_tcp_only f /\ UDPOnly gc = flag_udp_only f)
  /\ Module_ gc = module
  /\ (nanoSeconds f = true -> TimeFormat gc = time.RFC3339Nano)
  /\ (nanoSeconds f = false -> TimeFormat gc = time.RFC3339).
Proof.
  intros H. apply resolveConf_Ok_shape in H as (class & ns & groups & name & -> & _).
  cbn. repeat split; try reflexivity; intros ->; reflexivity.
Qed.

Lemma flag_fields_kept_witness :
  resolveConf defaultEnv sampleFactory "A" defaultFlags
  = Ok (parsedConfDefault, runtimeDefault)
  /\ Threads parsedConfDefault = 1000
  /\ TimeFormat parsedConfDefault = time.RFC3339.
Proof.
  assert (Hres : resolveConf defaultEnv sampleFactory "A" defaultFlags
                 = Ok (parsedConfDefault, runtimeDefault)) by (vm_compute; reflexivity).
  pose proof (flag_fields_kept defaultEnv sampleFactory "A" defaultFlags _ _ Hres)
    as ((Hthreads & _) & _ & _ & _ & _ & _ & Hformat).
  split; [exact Hres |]. split; [exact Hthreads | exact (Hformat eq_refl)].
Defined.

(** ** The log level *)

Lemma levelOf_range (v : Z) (l : log.Level) :
  levelOf v = Ok l -> 1 <= v <= 5 /\ levelValue l = v.
Proof.
  unfold levelOf.
  destruct (Z.eqb_spec v 1) as [-> | _]; [intros H; injection H as <-; simpl; lia |].
  destruct (Z.eqb_spec v 2) as [-> | _]; [intros H; injection H as <-; simpl; lia |].
  destruct (Z.eqb_spec v 3) as [-> | _]; [intros H; injection H as <-; simpl; lia |].
  destruct (Z.eqb_spec v 4) as [-> | _]; [intros H; injection H as <-; simpl; lia |].
  destruct (Z.eqb_spec v 5) as [-> | _]; [intros H; injection H as <-; simpl; lia |].
  discriminate.
Qed.

Lemma levelOf_outside (v : Z) :
  ~ (1 <= v <= 5) -> levelOf v = Fatal UnknownVerbosity.
Proof.
  intros Hv. unfold levelOf.
  destruct (Z.eqb_spec v 1) as [-> | _]; [lia |].
  destruct (Z.eqb_spec v 2) as [-> | _]; [lia |].
  destruct (Z.eqb_spec v 3) as [-> | _]; [lia |].
  destruct (Z.eqb_spec v 4) as [-> | _]; [lia |].
  destruct (Z.eqb_spec v 5) as [-> | _]; [lia |].
  reflexivity.
Qed.

(** X1. [--verbosity] from 1 to 5 selects the logrus level of that numeric
    value (1 fatal, 2 error, 3 warning, 4 info, 5 debug), so a larger
    verbosity gives a strictly more verbose level; every other value is
    fatal, and it is the second thing checked, after the log file. *)
Theorem verbosity_selects_level (env : Env) (factory : GlobalLookupFactory)
    (module : string) (f : Flags) :
  (forall v, 1 <= v <= 5 -> exists l, levelOf v = Ok l /\ levelValue l = v)
  /\ (forall v1 v2 l1 l2,
        levelOf v1 = Ok l1 -> levelOf v2 = Ok l2 -> v1 < v2 ->
        levelValue l1 < levelValue l2)
  /\ (forall gc rt,
        resolveConf env factory module f = Ok (gc, rt) ->
        1 <= flag_verbosity f <= 5 /\ levelValue (logLevel rt) = flag_verbosity f)
  /\ (~ (1 <= flag_verbosity f <= 5) ->
      (exists e, resolveConf env factory module f = Fatal e)
      /\ (Forall (fun o => o = None) (take 1 (checks env factory f)) ->
          resolveConf env factory module f = Fatal UnknownVerbosity)).
Proof.
  split; [| split; [| split]].
  - intros v Hv. destruct (levelOf v) as [e | l] eqn:E.
    + destruct (Z.eq_dec v 1) as [-> | ?]; [discriminate E |].
      destruct (Z.eq_dec v 2) as [-> | ?]; [discriminate E |].
      destruct (Z.eq_dec v 3) as [-> | ?]; [discriminate E |].
      destruct (Z.eq_dec v 4) as [-> | ?]; [discriminate E |].
      destruct (Z.eq_dec v 5) as [-> | ?]; [discriminate E | lia].
    + exists l. split; [reflexivity |]. exact (proj2 (levelOf_range v l E)).
  - intros v1 v2 l1 l2 H1 H2 Hlt.
    apply levelOf_range in H1 as [_ ->]. apply levelOf_range in H2 as [_ ->].
    exact Hlt.
  - intros gc rt Hres.
    apply resolveConf_Ok_inv in Hres as (_ & Hlevel & _).
    exact (levelOf_range _ _ Hlevel).
  - intros Hv. pose proof (levelOf_outside _ Hv) as Hfatal. split.
    + apply (resolveConf_fails env factory module f UnknownVerbosity).
      unfold checks. rewrite Hfatal. simpl. tauto.
    + intros Hpassed.
      pose proof (resolveConf_after 1 env factory module f Hpassed) as Hfail.
      cbn [drop checks firstFailure] in Hfail. rewrite Hfatal in Hfail.
      cbn in Hfail. apply failure_Some, Hfail.
Qed.

Lemma verbosity_selects_level_witness :
  1 <= flag_verbosity quietFlags <= 5
  /\ (exists l, levelOf (flag_verbosity quietFlags) = Ok l
                /\ levelValue l = flag_verbosity quietFlags)
  /\ ~ (1 <= flag_verbosity loudFlags <= 5)
  /\ resolveConf defaultEnv sampleFactory "A" loudFlags = Fatal UnknownVerbosity.
Proof.
  assert (Hin : 1 <= flag_verbosity quietFlags <= 5) by (split; discriminate).
  assert (Hout : ~ (1 <= flag_verbosity loudFlags <= 5)).
  { intros [_ H]. apply H. reflexivity. }
  assert (Hpassed : Forall (fun o => o = None)
                      (take 1 (checks defaultEnv sampleFactory loudFlags))).
  { vm_compute. repeat constructor. }
  pose proof (verbosity_selects_level defaultEnv sampleFactory "A" loudFlags)
    as (Hlevel & _ & _ & Hfatal).
  split; [exact Hin |]. split; [exact (Hlevel _ Hin) |]. split; [exact Hout |].
  exact (proj2 (Hfatal Hout) Hpassed).
Defined.

(** ** The log file *)

(** X4. Without [--log-file] no file is opened and the logger keeps its
    output.  With it, the file is opened before anything else is looked at:
    when that fails the run ends with the error of the log file, whatever
    the other flags are, and when the run goes on the logger writes to that
    file. *)
Theorem log_file_first (env : Env) (factory : GlobalLookupFactory)
    (module : string) (f : Flags) :
  (flag_log_file f = "" ->
   forall gc rt, resolveConf env factory module f = Ok (gc, rt) -> logOutput rt = None)
  /\ (flag_log_file f <> "" ->
      forall err,
        OpenFile env (flag_log_file f) = Some err ->
        resolveConf env factory module f
        = Fatal (LogFileUnopenable (flag_log_file f) err))
  /\ (flag_log_file f <> "" ->
      forall gc rt,
        resolveConf env factory module f = Ok (gc, rt) ->
        OpenFile env (flag_log_file f) = None
        /\ logOutput rt = Some (flag_log_file f)).
Proof.
  split; [| split].
  - intros Hempty gc rt Hres.
    apply resolveConf_Ok_inv in Hres as (Hlog & _).
    unfold openLog in Hlog. rewrite Hempty in Hlog. cbn in Hlog. congruence.
  - intros Hpath err Hopen.
    apply failure_Some. rewrite failure_resolveConf.
    unfold checks, openLog.
    apply String.eqb_neq in Hpath. rewrite Hpath, Hopen. reflexivity.
  - intros Hpath gc rt Hres.
    apply resolveConf_Ok_inv in Hres as (Hlog & _).
    unfold openLog in Hlog. apply String.eqb_neq in Hpath. rewrite Hpath in Hlog.
    destruct (OpenFile env (flag_log_file f)) as [err |]; [discriminate Hlog |].
    split; [reflexivity | congruence].
Qed.

Lemma log_file_first_witness :
  flag_log_file loggedFlags <> ""
  /\ OpenFile (readOnlyEnv loggedFlags) (flag_log_file loggedFlags)
     = Some "permission denied"
  /\ resolveConf (readOnlyEnv loggedFlags) sampleFactory "A" loggedFlags
     = Fatal (LogFileUnopenable "zdns.log" "permission denied")
  /\ flag_log_file defaultFlags = ""
  /\ failure (resolveConf loggedEnv sampleFactory "A" loggedFlags) = None.
Proof.
  assert (Hpath : flag_log_file loggedFlags <> "") by discriminate.
  assert (Hopen : OpenFile (readOnlyEnv loggedFlags) (flag_log_file loggedFlags)
                  = Some "permission denied") by reflexivity.
  pose proof (log_file_first (readOnlyEnv loggedFlags) sampleFactory "A" loggedFlags)
    as (_ & Hfatal & _).
  split; [exact Hpath |]. split; [exact Hopen |].
  split; [exact (Hfatal Hpath _ Hopen) |].
  split; [reflexivity |]. vm_compute. reflexivity.
Defined.

(** ** [--go-processes] *)

(** X2. A negative [--go-processes] is fatal.  Zero leaves [GOMAXPROCS]
    alone and a positive value sets it to that value; one is accepted like
    any other positive value. *)
Theorem go_processes_checked (env : Env) (factory : GlobalLookupFactory)
    (module : string) (f : Flags) :
  (flag_go_processes f < 0 ->
   (exists e, resolveConf env factory module f = Fatal e)
   /\ (Forall (fun o => o = None) (take 4 (checks env factory f)) ->
       resolveConf env factory module f = Fatal InvalidGoProcesses))
  /\ (forall gc rt,
        resolveConf env factory module f = Ok (gc, rt) ->
        0 <= flag_go_processes f
        /\ (flag_go_processes f = 0 -> maxProcs rt = None)
        /\ (0 < flag_go_processes f -> maxProcs rt = Some (flag_go_processes f))).
Proof.
  split.
  - intros Hneg. apply Z.ltb_lt in Hneg. split.
    + apply (resolveConf_fails env factory module f InvalidGoProcesses).
      unfold checks. rewrite Hneg. simpl. tauto.
    + intros Hpassed.
      pose proof (resolveConf_after 4 env factory module f Hpassed) as Hfail.
      cbn [drop checks firstFailure] in Hfail. rewrite Hneg in Hfail.
      cbn in Hfail. apply failure_Some, Hfail.
  - intros gc rt Hres.
    pose proof (resolveConf_Ok_shape _ _ _ _ _ _ Hres)
      as (_ & _ & _ & _ & _ & Hprocs).
    apply resolveConf_Ok_inv in Hres as (_ & _ & _ & _ & Hsign & _).
    apply Z.ltb_ge in Hsign.
    split; [exact Hsign |]. split.
    + intros Hzero. rewrite Hprocs, Hzero. reflexivity.
    + intros Hpos. rewrite Hprocs.
      destruct (Z.eqb_spec (flag_go_processes f) 0) as [Hzero | _]; [lia | reflexivity].
Qed.

Lemma go_processes_checked_witness :
  flag_go_processes negativeProcsFlags < 0
  /\ resolveConf defaultEnv sampleFactory "A" negativeProcsFlags
     = Fatal InvalidGoProcesses
  /\ 0 < flag_go_processes fourProcsFlags
  /\ maxProcs <$> (snd <$> failure_free
                     (resolveConf fourProcsEnv sampleFactory "A" fourProcsFlags))
     = Some (Some 4).
Proof.
  assert (Hneg : flag_go_processes negativeProcsFlags < 0) by reflexivity.
  assert (Hpassed : Forall (fun o => o = None)
                      (take 4 (checks defaultEnv sampleFactory negativeProcsFlags))).
  { vm_compute. repeat constructor. }
  pose proof (go_processes_checked defaultEnv sampleFactory "A" negativeProcsFlags)
    as (Hfatal & _).
  split; [exact Hneg |]. split; [exact (proj2 (Hfatal Hneg) Hpassed) |].
  split; [reflexivity |]. vm_compute. reflexivity.
Defined.

(** ** Modules that do not read standard input *)

(** X3. With a module that does not allow standard input, ["-"] as input
    file is fatal; and since a left-over argument is only accepted with
    ["-"] as input file, such a module never runs with a name given on the
    command line: when it runs, there is no left-over argument and
    [gc.PassedName] is empty. *)
Theorem stdin_not_allowed (env : Env) (factory : GlobalLookupFactory)
    (module : string) (f : Flags) :
  AllowStdIn factory = false ->
  (flag_input_file f = "-" ->
   (exists e, resolveConf env factory module f = Fatal e)
   /\ (Forall (fun o => o = None) (take 8 (checks env factory f)) ->
       resolveConf env factory module f = Fatal StdinNotAllowed))
  /\ (Args f <> [] -> exists e, resolveConf env factory module f = Fatal e)
  /\ (forall gc rt,
        resolveConf env factory module f = Ok (gc, rt) ->
        flag_input_file f <> "-" /\ Args f = [] /\ PassedName gc = "").
Proof.
  intros Hallow.
  assert (Hok : forall gc rt,
             resolveConf env factory module f = Ok (gc, rt) ->
             flag_input_file f <> "-" /\ Args f = [] /\ PassedName gc = "").
  { intros gc rt Hres.
    apply resolveConf_Ok_inv in Hres
      as (_ & _ & _ & _ & _ & _ & _ & Hname & Hstdin & _).
    rewrite Hallow in Hstdin. cbn in Hstdin. apply String.eqb_neq in Hstdin.
    split; [exact Hstdin |].
    destruct Hname as [[Hargs Hname] | [Hdig _]]; [split; assumption |].
    apply digLike_spec in Hdig as (_ & _ & Hpath). contradiction. }
  split; [| split; [| exact Hok]].
  - intros Hpath.
    assert (Hcheck : negb (AllowStdIn factory) && String.eqb (flag_input_file f) "-"
                     = true).
    { rewrite Hallow, Hpath. reflexivity. }
    split.
    + apply (resolveConf_fails env factory module f StdinNotAllowed).
      unfold checks. rewrite Hcheck. simpl. tauto.
    + intros Hpassed.
      pose proof (resolveConf_after 8 env factory module f Hpassed) as Hfail.
      cbn [drop checks firstFailure] in Hfail. rewrite Hcheck in Hfail.
      cbn in Hfail. apply failure_Some, Hfail.
  - intros Hargs.
    destruct (resolveConf env factory module f) as [e | [gc rt]] eqn:Hres;
      [exists e; reflexivity |].
    destruct (Hok gc rt eq_refl) as (_ & Hnone & _). contradiction.
Qed.

Lemma stdin_not_allowed_witness :
  AllowStdIn noStdinFactory = false
  /\ flag_input_file defaultFlags = "-"
  /\ resolveConf defaultEnv noStdinFactory "AXFR" defaultFlags = Fatal StdinNotAllowed
  /\ Args digFlags <> []
  /\ (exists e, resolveConf digEnv noStdinFactory "AXFR" digFlags = Fatal e)
  /\ failure (resolveConf defaultEnv noStdinFactory "AXFR" fileInputFlags) = None.
Proof.
  assert (Hallow : AllowStdIn noStdinFactory = false) by reflexivity.
  assert (Hpath : flag_input_file defaultFlags = "-") by reflexivity.
  assert (Hargs : Args digFlags <> []) by discriminate.
  assert (Hpassed : Forall (fun o => o = None)
                      (take 8 (checks defaultEnv noStdinFactory defaultFlags))).
  { vm_compute. repeat constructor. }
  pose proof (stdin_not_allowed defaultEnv noStdinFactory "AXFR" defaultFlags Hallow)
    as (Hfatal & _).
  pose proof (stdin_not_allowed digEnv noStdinFactory "AXFR" digFlags Hallow)
    as (_ & Hdig & _).
  split; [exact Hallow |]. split; [exact Hpath |].
  split; [exact (proj2 (Hfatal Hpath) Hpassed) |].
  split; [exact Hargs |]. split; [exact (Hdig Hargs) |].
  vm_compute. reflexivity.
Defined.

(** ** Explicit name servers *)

Lemma Contains_append_r (a b sub : string) :
  strings.Contains b sub = true -> strings.Contains (a +:+ b) sub = true.
Proof.
  intros Hb. induction a as [| x a IH]; [exact Hb |].
  rewrite append_cons. cbn [strings.Contains]. rewrite IH. apply orb_true_r.
Qed.

Lemma repairEntry_has_port (e : string) :
  strings.Contains (repairEntry e) ":" = true.
Proof.
  unfold repairEntry. destruct (strings.Contains e ":") eqn:He; cbn [negb].
  - exact He.
  - apply Contains_append_r. reflexivity.
Qed.

Lemma Forall_repaired (ns : list string) :
  Forall (fun e => strings.Contains e ":" = true) (map repairEntry ns).
Proof.
  induction ns as [| e ns IH]; constructor; [apply repairEntry_has_port | exact IH].
Qed.

Lemma map_repairEntry_fixed (ns : list string) :
  Forall (fun e => strings.Contains e ":" = true) ns -> map repairEntry ns = ns.
Proof.
  induction 1 as [| e ns He _ IH]; [reflexivity |].
  cbn [map]. rewrite repairEntry_with_port by exact He. rewrite IH. reflexivity.
Qed.

(** X9. Name servers given with [--name-servers], inline or in a file, all
    contain [':'] once [main] has gone over them, and are flagged as
    specified; going over them a second time would change nothing. *)
Theorem explicit_servers_have_port (env : Env) (factory : GlobalLookupFactory)
    (module : string) (f : Flags) :
  servers_string f <> "" ->
  (forall ns specified,
     nameServers env (flag_iterative f) (servers_string f) (config_file f)
     = Ok (ns, specified) ->
     specified = true
     /\ Forall (fun e => strings.Contains e ":" = true) ns
     /\ repairPorts ns = ns)
  /\ (forall gc rt,
        resolveConf env factory module f = Ok (gc, rt) ->
        NameServersSpecified gc = true
        /\ Forall (fun e => strings.Contains e ":" = true) (NameServers gc)).
Proof.
  intros Hs.
  assert (Hstage : forall ns specified,
             nameServers env (flag_iterative f) (servers_string f) (config_file f)
             = Ok (ns, specified) ->
             specified = true
             /\ Forall (fun e => strings.Contains e ":" = true) ns
             /\ repairPorts ns = ns).
  { intros ns specified Hns.
    destruct (servers_string f) as [| c rest]; [contradiction |].
    unfold nameServers in Hns.
    apply bind_Ok_inv in Hns as (entries & _ & Hns).
    rewrite repairPorts_map in Hns. injection Hns as <- <-.
    split; [reflexivity |].
    split; [apply Forall_repaired |].
    rewrite repairPorts_map. apply map_repairEntry_fixed, Forall_repaired. }
  split; [exact Hstage |].
  intros gc rt Hres.
  apply resolveConf_Ok_inv in Hres as (_ & _ & _ & Hns & _).
  destruct (Hstage _ _ Hns) as (Hspec & Hports & _).
  split; assumption.
Qed.

Lemma explicit_servers_have_port_witness :
  servers_string spacedFlags <> ""
  /\ nameServers spacedEnv (flag_iterative spacedFlags) (servers_string spacedFlags)
       (config_file spacedFlags)
     = Ok ([" 1.2.3.4:5353"; "8.8.8.8:53"], true)
  /\ Forall (fun e => strings.Contains e ":" = true) [" 1.2.3.4:5353"; "8.8.8.8:53"].
Proof.
  assert (Hs : servers_string spacedFlags <> "") by discriminate.
  assert (Hns : nameServers spacedEnv (flag_iterative spacedFlags)
                  (servers_string spacedFlags) (config_file spacedFlags)
                = Ok ([" 1.2.3.4:5353"; "8.8.8.8:53"], true))
    by (vm_compute; reflexivity).
  pose proof (explicit_servers_have_port spacedEnv sampleFactory "A" spacedFlags Hs)
    as (Hstage & _).
  split; [exact Hs |]. split; [exact Hns |].
  exact (proj1 (proj2 (Hstage _ _ Hns))).
Defined.

(** ** Counting the pieces *)

Lemma length_Split_byte (d : ascii) (s : string) :
  length (strings.Split s (String d "")) = S (countByte d s).
Proof.
  unfold strings.Split.
  induction s as [| c s IH]; [reflexivity |].
  cbn [strings.splitFrom strings.HasPrefix String.length Nat.sub countByte].
  pose proof (splitFrom_nonempty (String d "") 0 s) as Hne.
  destruct (Ascii.eqb c d).
  - cbn [length]. rewrite IH. reflexivity.
  - destruct (strings.splitFrom (String d "") 0 s) as [| y ys]; [contradiction |].
    exact IH.
Qed.

(** X10. A comma-separated flag with [k] commas gives [k + 1] pieces, the
    empty ones included: an inline [--name-servers] gives [k + 1] name
    servers, never none, and [--include-fields] gives [k + 2] output
    groups, whatever the name servers are. *)
Theorem pieces_counted (env : Env) (factory : GlobalLookupFactory)
    (module : string) (f : Flags) :
  (forall c rest,
     servers_string f = String c rest ->
     c <> "@"%char ->
     (exists ns,
        nameServers env (flag_iterative f) (servers_string f) (config_file f)
        = Ok (ns, true)
        /\ length ns = S (countByte "," (servers_string f)))
     /\ (forall gc rt,
           resolveConf env factory module f = Ok (gc, rt) ->
           length (NameServers gc) = S (countByte "," (servers_string f))))
  /\ (forall tier extra,
        In tier tiers ->
        exists groups,
          outputGroups [] tier extra = Ok groups
          /\ length groups = S (S (countByte "," extra)))
  /\ (forall gc rt,
        resolveConf env factory module f = Ok (gc, rt) ->
        length (OutputGroups gc) = S (S (countByte "," (flag_include_fields f)))).
Proof.
  split; [| split].
  - intros c rest Hs Hc.
    assert (Hns : nameServers env (flag_iterative f) (servers_string f) (config_file f)
                  = Ok (map repairEntry (strings.Split (servers_string f) ","), true)).
    { rewrite Hs. apply nameServers_inline, Hc. }
    assert (Hlen : length (map repairEntry (strings.Split (servers_string f) ","))
                   = S (countByte "," (servers_string f))).
    { rewrite length_map. apply length_Split_byte. }
    split; [eexists; split; [exact Hns | exact Hlen] |].
    intros gc rt Hres.
    pose proof (nameServers_resolved env factory module f gc rt _ _ Hns Hres) as [Hlist _].
    rewrite Hlist. exact Hlen.
  - intros tier extra Htier.
    exists (tier :: strings.Split extra ",").
    split; [exact (outputGroups_tier [] tier extra Htier) |].
    cbn [length]. rewrite length_Split_byte. reflexivity.
  - intros gc rt Hres.
    apply resolveConf_Ok_inv in Hres as (_ & _ & _ & _ & _ & _ & Hgroups & _).
    unfold outputGroups in Hgroups.
    apply bind_Ok_inv in Hgroups as (u & _ & Hgroups).
    assert (Hg : OutputGroups gc
                 = flag_result_verbosity f :: strings.Split (flag_include_fields f) ",")
      by (cbn [app] in Hgroups; congruence).
    rewrite Hg. cbn [length]. rewrite length_Split_byte. reflexivity.
Qed.

Lemma pieces_counted_witness :
  servers_string inlineFlags = String "1" "0.0.0.1,10.0.0.2:5353"
  /\ "1"%char <> "@"%char
  /\ (exists ns,
        nameServers inlineEnv (flag_iterative inlineFlags)
          (servers_string inlineFlags) (config_file inlineFlags) = Ok (ns, true)
        /\ length ns = S (countByte "," (servers_string inlineFlags)))
  /\ servers_string longFlags = ""
  /\ resolveConf longEnv sampleFactory "A" longFlags = Ok (longConf, runtimeDefault)
  /\ length (OutputGroups longConf) = S (S (countByte "," (flag_include_fields longFlags)))
  /\ countByte "," (flag_include_fields longFlags) = 1%nat.
Proof.
  assert (Hc : "1"%char <> "@"%char) by discriminate.
  assert (Hs : servers_string inlineFlags = String "1" "0.0.0.1,10.0.0.2:5353")
    by reflexivity.
  assert (Hres : resolveConf longEnv sampleFactory "A" longFlags
                 = Ok (longConf, runtimeDefault)) by (vm_compute; reflexivity).
  pose proof (pieces_counted inlineEnv sampleFactory "A" inlineFlags) as (Hservers & _).
  pose proof (pieces_counted longEnv sampleFactory "A" longFlags) as (_ & _ & Hgroups).
  split; [exact Hs |]. split; [exact Hc |].
  split; [exact (proj1 (Hservers _ _ Hs Hc)) |].
  split; [reflexivity |]. split; [exact Hres |].
  split; [exact (Hgroups _ _ Hres) | reflexivity].
Defined.

(** ** A file of blank lines *)

Lemma TrimRight_repeat (d : ascii) (n : nat) :
  strings.TrimRight (repeatByte d n) (String d "") = "".
Proof.
  induction n as [| n IH]; [reflexivity |].
  cbn [repeatByte strings.TrimRight]. rewrite IH, inCutset_byte, Ascii.eqb_refl.
  reflexivity.
Qed.

(** X11. The test for an empty file looks at the raw content: a file that
    holds line feeds and nothing else is not empty, its content is trimmed
    to nothing, and the run goes on with the single name server [":53"]. *)
Theorem file_of_line_feeds (env : Env) (iterative : bool)
    (path config_file : string) (k : nat) :
  ReadFile env path = inr (repeatByte (ascii_of_nat 10) (S k)) ->
  designated env "@" path = Ok [""]
  /\ nameServers env iterative (String "@" path) config_file = Ok ([":53"], true).
Proof.
  intros Hread.
  assert (Htrim : strings.Trim (repeatByte (ascii_of_nat 10) (S k)) LF = "").
  { unfold strings.Trim, LF. rewrite TrimRight_repeat. reflexivity. }
  split.
  - unfold designated. cbn [Ascii.eqb Bool.eqb]. rewrite Hread.
    cbn [repeatByte String.length Nat.eqb].
    change (String (ascii_of_nat 10) (repeatByte (ascii_of_nat 10) k))
      with (repeatByte (ascii_of_nat 10) (S k)).
    rewrite Htrim. reflexivity.
  - rewrite nameServers_file, Hread.
    cbn [repeatByte String.length Nat.eqb].
    change (String (ascii_of_nat 10) (repeatByte (ascii_of_nat 10) k))
      with (repeatByte (ascii_of_nat 10) (S k)).
    rewrite Htrim. vm_compute. reflexivity.
Qed.

Lemma file_of_line_feeds_witness :
  ReadFile blankFileEnv "servers.txt" = inr (repeatByte (ascii_of_nat 10) 3)
  /\ nameServers blankFileEnv false "@servers.txt" "/etc/resolv.conf"
     = Ok ([":53"], true).
Proof.
  assert (Hread : ReadFile blankFileEnv "servers.txt"
                  = inr (repeatByte (ascii_of_nat 10) 3)) by reflexivity.
  split; [exact Hread |].
  exact (proj2 (file_of_line_feeds blankFileEnv false "servers.txt"
                  "/etc/resolv.conf" 2 Hread)).
Defined.

(** ** Explicit name servers come from one place *)

(** X12. With an inline [--name-servers] the result is the same in every
    world and for every [--iterative] and [--conf-file]: no file is read, and
    neither the root servers nor the resolver configuration are used.  With
    a file it depends on what reading that file gives, and on nothing
    else. *)
Theorem explicit_designation_isolated (env1 env2 : Env) (iterative1 iterative2 : bool)
    (c : ascii) (rest config1 config2 : string) :
  (c <> "@"%char ->
   nameServers env1 iterative1 (String c rest) config1
   = nameServers env2 iterative2 (String c rest) config2)
  /\ (ReadFile env1 rest = ReadFile env2 rest ->
      nameServers env1 iterative1 (String "@" rest) config1
      = nameServers env2 iterative2 (String "@" rest) config2).
Proof.
  split.
  - intros Hc. rewrite !nameServers_inline by exact Hc. reflexivity.
  - intros Hread. rewrite !nameServers_file, Hread. reflexivity.
Qed.

Lemma explicit_designation_isolated_witness :
  "1"%char <> "@"%char
  /\ nameServers inlineEnv false "10.0.0.1,10.0.0.2:5353" "/etc/resolv.conf"
     = nameServers noArgsEnv true "10.0.0.1,10.0.0.2:5353" "/nowhere".
Proof.
  assert (Hc : "1"%char <> "@"%char) by discriminate.
  split; [exact Hc |].
  exact (proj1 (explicit_designation_isolated inlineEnv noArgsEnv false true
                  "1" "0.0.0.1,10.0.0.2:5353" "/etc/resolv.conf" "/nowhere") Hc).
Defined.

(** ** The module *)

Lemma moduleAndFlags_Ok_inv (env : Env) (factory : GlobalLookupFactory)
    (module : string) (f : Flags) :
  moduleAndFlags env = Ok (factory, module, f) ->
  exists prog name rest,
    osArgs env = prog :: name :: rest
    /\ module = strings.ToUpper (unicodeToUpper env) name
    /\ GetLookup env module = Some factory
    /\ flagsParse env (Some factory) rest = Some f.
Proof.
  unfold moduleAndFlags.
  destruct (osArgs env) as [| prog [| name rest]]; try discriminate.
  destruct (GetLookup env (strings.ToUpper (unicodeToUpper env) name))
    as [factory' |] eqn:Hlookup.
  - destruct (flagsParse env (Some factory') rest) as [f' |] eqn:Hparse;
      [| discriminate].
    intros H. injection H as <- <- <-.
    exists prog, name, rest. repeat split; assumption.
  - destruct (flagsParse env None (name :: rest)); discriminate.
Qed.

(** X6. Without a module name on the command line the run ends at once.
    When [main] gets as far as the hand-over, [gc.Module] is the first
    argument in upper case, the factory is the one registered under that
    name, and the flags are those parsed from the arguments after the
    module name with the module's own flags added.  A module that is known
    but whose command line does not parse ends in the exit of the flag
    package. *)
Theorem module_resolution (env : Env) :
  ((length (osArgs env) < 2)%nat ->
   configure env = Fatal (NoModuleSpecified (ValidlookupsString env))
   /\ main env = Fatal (NoModuleSpecified (ValidlookupsString env)))
  /\ (forall factory gc rt,
        configure env = Ok (factory, gc, rt) ->
        exists prog name rest f,
          osArgs env = prog :: name :: rest
          /\ Module_ gc = strings.ToUpper (unicodeToUpper env) name
          /\ GetLookup env (Module_ gc) = Some factory
          /\ flagsParse env (Some factory) rest = Some f
          /\ resolveConf env factory (Module_ gc) f = Ok (gc, rt))
  /\ (forall prog name rest factory,
        osArgs env = prog :: name :: rest ->
        GetLookup env (strings.ToUpper (unicodeToUpper env) name) = Some factory ->
        flagsParse env (Some factory) rest = None ->
        main env = Fatal FlagExit).
Proof.
  split; [| split].
  - intros Hlen. apply configure_stops. unfold moduleAndFlags.
    destruct (osArgs env) as [| prog [| name rest]]; try reflexivity.
    cbn in Hlen. lia.
  - intros factory gc rt Hconf.
    apply configure_Ok_inv in Hconf as (module & f & Hparse & Hres).
    apply moduleAndFlags_Ok_inv in Hparse
      as (prog & name & rest & Hargs & Hmodule & Hlookup & Hflags).
    pose proof (resolveConf_Ok_inv _ _ _ _ _ _ Hres) as Hinv.
    assert (Hname : Module_ gc = module) by apply Hinv.
    exists prog, name, rest, f. rewrite Hname.
    repeat split; assumption.
  - intros prog name rest factory Hargs Hlookup Hflags.
    apply configure_stops. unfold moduleAndFlags.
    rewrite Hargs, Hlookup, Hflags. reflexivity.
Qed.

Lemma module_resolution_witness :
  (length (osArgs noArgsEnv) < 2)%nat
  /\ main noArgsEnv = Fatal (NoModuleSpecified "A")
  /\ configure defaultEnv = Ok (sampleFactory, parsedConfDefault, runtimeDefault)
  /\ Module_ parsedConfDefault = "A".
Proof.
  assert (Hlen : (length (osArgs noArgsEnv) < 2)%nat) by (cbn; lia).
  assert (Hconf : configure defaultEnv
                  = Ok (sampleFactory, parsedConfDefault, runtimeDefault))
    by (vm_compute; reflexivity).
  pose proof (module_resolution noArgsEnv) as (Hnone & _).
  split; [exact Hlen |]. split; [exact (proj2 (Hnone Hlen)) |].
  split; [exact Hconf | reflexivity].
Defined.

(** ** The hand-over *)

(** X7. [main] ends well exactly when the checks pass and [Initialize],
    [DoLookups] and [Finalize] all succeed, [DoLookups] being given the
    configuration as [Initialize] left it.  A failure of [Initialize] is
    reported whatever the later calls would do, a failure of [DoLookups]
    whatever [Finalize] would do. *)
Theorem hand_over_sequence (env : Env) (factory : GlobalLookupFactory)
    (gc : GlobalConf) (rt : Runtime) :
  configure env = Ok (factory, gc, rt) ->
  (forall gc',
     main env = Ok gc' <->
     Initialize factory gc = (gc', None)
     /\ DoLookups env factory gc' = None
     /\ Finalize factory = None)
  /\ (forall gc1 e,
        Initialize factory gc = (gc1, Some e) -> main env = Fatal (InitializeFailed e))
  /\ (forall gc1 e,
        Initialize factory gc = (gc1, None) ->
        DoLookups env factory gc1 = Some e ->
        main env = Fatal (LookupsFailed e))
  /\ (forall gc1 e,
        Initialize factory gc = (gc1, None) ->
        DoLookups env factory gc1 = None ->
        Finalize factory = Some e ->
        main env = Fatal (FinalizeFailed e)).
Proof.
  intros Hconf.
  assert (Hmain : main env = handOver env factory gc).
  { unfold main. rewrite Hconf. reflexivity. }
  rewrite Hmain. unfold handOver.
  split; [| split; [| split]].
  - intros gc'. destruct (Initialize factory gc) as [gc1 [e |]].
    + split; [discriminate |]. intros (H & _). discriminate H.
    + destruct (DoLookups env factory gc1) as [e |] eqn:Hrun.
      * split; [discriminate |]. intros (H & Hrun' & _).
        injection H as <-. congruence.
      * destruct (Finalize factory) as [e |].
        -- split; [discriminate |]. intros (_ & _ & H). discriminate H.
        -- split.
           ++ intros H. injection H as <-. repeat split. exact Hrun.
           ++ intros (H & _). injection H as <-. reflexivity.
  - intros gc1 e ->. reflexivity.
  - intros gc1 e -> ->. reflexivity.
  - intros gc1 e -> -> ->. reflexivity.
Qed.

Lemma hand_over_sequence_witness :
  configure defaultEnv = Ok (sampleFactory, parsedConfDefault, runtimeDefault)
  /\ main defaultEnv = Ok parsedConfDefault.
Proof.
  assert (Hconf : configure defaultEnv
                  = Ok (sampleFactory, parsedConfDefault, runtimeDefault))
    by (vm_compute; reflexivity).
  pose proof (hand_over_sequence defaultEnv sampleFactory parsedConfDefault
                runtimeDefault Hconf) as (Hok & _).
  split; [exact Hconf |].
  apply Hok. repeat split.
Defined.

(** ** What the engine can rely on *)

Lemma classCode_codes (name : string) (code : Z) :
  classCode name = Some code -> In code classCodes.
Proof.
  unfold classCode.
  destruct (List.find (fun p => String.eqb name (fst p)) classTable)
    as [[name' code'] |] eqn:Hfind; [| discriminate].
  intros H. injection H as <-.
  apply find_some in Hfind as [Hin _].
  unfold classTable in Hin. simpl in Hin.
  destruct Hin as [H | [H | [H | [H | [H | [H | [H | [H | [H | [H | []]]]]]]]]]];
    injection H as _ <-; simpl; tauto.
Qed.

Lemma wrap64_range (z : Z) : - 2 ^ 63 <= time.wrap64 z < 2 ^ 63.
Proof.
  unfold time.wrap64.
  pose proof (Z.mod_pos_bound (z + 2 ^ 63) (2 ^ 64) ltac:(lia)). lia.
Qed.

Lemma nameServers_ports (env : Env) (iterative : bool)
    (servers config : string) (ns : list string) :
  nameServers env iterative servers config = Ok (ns, true) ->
  Forall (fun e => strings.Contains e ":" = true) ns.
Proof.
  unfold nameServers. destruct servers as [| c rest].
  - destruct iterative; [discriminate |].
    destruct (GetDNSServers env config); discriminate.
  - intros H. apply bind_Ok_inv in H as (entries & _ & H).
    rewrite repairPorts_map in H. injection H as <-.
    apply Forall_repaired.
Qed.

Lemma resolveConf_Ok_flags (env : Env) (factory : GlobalLookupFactory)
    (module : string) (f : Flags) (gc : GlobalConf) (rt : Runtime) :
  resolveConf env factory module f = Ok (gc, rt) ->
  Verbosity gc = flag_verbosity f
  /\ GoMaxProcs gc = flag_go_processes f
  /\ ResultVerbosity gc = flag_result_verbosity f.
Proof.
  intros H. apply resolveConf_Ok_shape in H as (class & ns & groups & name & -> & _).
  repeat split; reflexivity.
Qed.

(** X8. Every configuration that [main] hands to [Initialize] has a
    verbosity from 1 to 5, no negative [GoMaxProcs], not both transport
    restrictions, one of the four result verbosities at the head of the
    output groups, one of the six class codes, timeouts that fit 64 bits,
    a port in every name server that was given explicitly, an input file
    other than ["-"] when the module does not read standard input, and a
    passed name only with ["-"] as input file and a character device as
    standard input. *)
Theorem handed_over_configuration (env : Env) (factory : GlobalLookupFactory)
    (gc : GlobalConf) (rt : Runtime) :
  configure env = Ok (factory, gc, rt) ->
  1 <= Verbosity gc <= 5
  /\ 0 <= GoMaxProcs gc
  /\ UDPOnly gc && TCPOnly gc = false
  /\ In (ResultVerbosity gc) tiers
  /\ head (OutputGroups gc) = Some (ResultVerbosity gc)
  /\ In (Class_ gc) classCodes
  /\ (- 2 ^ 63 <= Timeout gc < 2 ^ 63 /\ - 2 ^ 63 <= IterationTimeout gc < 2 ^ 63)
  /\ (NameServersSpecified gc = true ->
      Forall (fun e => strings.Contains e ":" = true) (NameServers gc))
  /\ (AllowStdIn factory = false -> InputFilePath gc <> "-")
  /\ (PassedName gc <> "" -> InputFilePath gc = "-" /\ stdinCharDevice env).
Proof.
  intros Hconf.
  apply configure_Ok_inv in Hconf as (module & f & _ & Hres).
  pose proof (resolveConf_Ok_flags _ _ _ _ _ _ Hres) as (Hv & Hprocs & Htier).
  apply resolveConf_Ok_inv in Hres
    as (_ & Hlevel & Hclass & Hns & Hsign & Htransport & Hgroups & Hname & Hstdin
        & Ht & Hit & _ & Htcp & Hudp & Hpath & _).
  split. { rewrite Hv. destruct (levelOf (flag_verbosity f)) as [e | l] eqn:E;
             [discriminate Hlevel |]. exact (proj1 (levelOf_range _ _ E)). }
  split. { rewrite Hprocs. apply Z.ltb_ge, Hsign. }
  split. { rewrite Hudp, Htcp. exact Htransport. }
  assert (Hin : In (flag_result_verbosity f) tiers).
  { destruct (in_dec string_dec (flag_result_verbosity f) tiers) as [Hin | Hout];
      [exact Hin |].
    rewrite (outputGroups_other [] _ _ Hout) in Hgroups. discriminate Hgroups. }
  split. { rewrite Htier. exact Hin. }
  split. { rewrite (outputGroups_tier [] _ _ Hin) in Hgroups.
           injection Hgroups as Hgroups. rewrite <- Hgroups, Htier. reflexivity. }
  split. { rewrite classOf_table in Hclass.
           destruct (classCode _) as [code |] eqn:Hcode; [| discriminate Hclass].
           injection Hclass as <-. exact (classCode_codes _ _ Hcode). }
  split. { rewrite Ht, Hit. split; apply wrap64_range. }
  split. { intros Hspec. rewrite Hspec in Hns. exact (nameServers_ports _ _ _ _ _ Hns). }
  split.
  - intros Hallow. rewrite Hallow in Hstdin. cbn in Hstdin.
    rewrite Hpath. apply String.eqb_neq, Hstdin.
  - intros Hpassed. destruct Hname as [[_ Hnone] | [Hdig _]]; [contradiction |].
    apply digLike_spec in Hdig as (_ & Hterm & Hdash).
    rewrite Hpath. split; assumption.
Qed.

Lemma handed_over_configuration_witness :
  configure digEnv
  = Ok (sampleFactory, set_PassedName "example.com" parsedConfDefault, runtimeDefault)
  /\ InputFilePath (set_PassedName "example.com" parsedConfDefault) = "-"
  /\ stdinCharDevice digEnv.
Proof.
  assert (Hconf : configure digEnv
                  = Ok (sampleFactory, set_PassedName "example.com" parsedConfDefault,
                        runtimeDefault)) by (vm_compute; reflexivity).
  assert (Hname : PassedName (set_PassedName "example.com" parsedConfDefault) <> "")
    by discriminate.
  pose proof (handed_over_configuration digEnv sampleFactory _ _ Hconf)
    as (_ & _ & _ & _ & _ & _ & _ & _ & _ & Hpassed).
  split; [exact Hconf |]. exact (Hpassed Hname).
Defined.

(** ** Flags that are not checked *)

(** X13. [main] puts no condition on [--threads], [--retries],
    [--max-depth] and [--cache-size]: whatever their values, negative ones
    included, the outcome of the checks is the same, and on success the
    values are in the configuration as they were given. *)
Theorem limits_unchecked (env : Env) (factory : GlobalLookupFactory)
    (module : string) (f : Flags) (threads retries depth cache : Z) :
  failure (resolveConf env factory module (with_limits threads retries depth cache f))
  = failure (resolveConf env factory module f)
  /\ (forall gc rt,
        resolveConf env factory module (with_limits threads retries depth cache f)
        = Ok (gc, rt) ->
        Threads gc = threads /\ Retries gc = retries
        /\ MaxDepth gc = depth /\ CacheSize gc = cache).
Proof.
  split.
  - rewrite !failure_resolveConf. reflexivity.
  - intros gc rt H.
    apply resolveConf_Ok_shape in H as (class & ns & groups & name & -> & _).
    repeat split; reflexivity.
Qed.

Lemma limits_unchecked_witness :
  failure (resolveConf defaultEnv sampleFactory "A" negativeLimitsFlags) = None
  /\ Threads <$> conf (resolveConf defaultEnv sampleFactory "A" negativeLimitsFlags)
     = Some (-5).
Proof.
  pose proof (limits_unchecked defaultEnv sampleFactory "A" defaultFlags
                (-5) (-1) (-10) (-1)) as (Hsame & _).
  split; [| vm_compute; reflexivity].
  change negativeLimitsFlags with (with_limits (-5) (-1) (-10) (-1) defaultFlags).
  rewrite Hsame. vm_compute. reflexivity.
Defined.

(** ** The lines of a name server file *)

(** X14. The entries read from a name server file, joined by line feeds,
    are the content of the file without the line feeds at its ends, and no
    entry contains a line feed. *)
Theorem file_entries_round_trip (env : Env) (path content : string)
    (entries : list string) :
  ReadFile env path = inr content ->
  designated env "@" path = Ok entries ->
  strings.Join entries LF = strings.Trim content LF
  /\ Forall (fun e => strings.Contains e LF = false) entries
  /\ exists k1 k2,
       content = repeatByte (ascii_of_nat 10) k1 +:+ strings.Join entries LF
                 +:+ repeatByte (ascii_of_nat 10) k2.
Proof.
  intros Hread Hentries. unfold designated in Hentries.
  cbn [Ascii.eqb Bool.eqb] in Hentries. rewrite Hread in Hentries.
  destruct (String.length content =? 0)%nat; [discriminate Hentries |].
  assert (He : entries = strings.Split (strings.Trim content LF) LF) by congruence.
  subst entries.
  assert (Hjoin : strings.Join (strings.Split (strings.Trim content LF) LF) LF
                  = strings.Trim content LF) by apply Join_Split_byte.
  split; [exact Hjoin |]. split; [apply Split_byte_free |].
  rewrite Hjoin. exact (proj1 (Trim_byte (ascii_of_nat 10) content)).
Qed.

Lemma file_entries_round_trip_witness :
  ReadFile fileEnv "servers.txt" = inr twoLines
  /\ designated fileEnv "@" "servers.txt" = Ok ["a.b.c"; "d.e.f"]
  /\ strings.Join ["a.b.c"; "d.e.f"] LF = strings.Trim twoLines LF.
Proof.
  assert (Hread : ReadFile fileEnv "servers.txt" = inr twoLines) by reflexivity.
  assert (Hentries : designated fileEnv "@" "servers.txt" = Ok ["a.b.c"; "d.e.f"])
    by reflexivity.
  split; [exact Hread |]. split; [exact Hentries |].
  exact (proj1 (file_entries_round_trip fileEnv "servers.txt" twoLines _
                  Hread Hentries)).
Defined.

(** ** A failing [Stat] on standard input *)

(** X15. With left-over arguments and a failing [os.Stdin.Stat()], [main]
    ends in the nil dereference of line 193 and not in an "unused command
    line flags" error, whatever the arguments and the input file are; with
    no left-over argument [Stat] is not called and its failure changes
    nothing. *)
Theorem stat_failure_panics (env : Env) (factory : GlobalLookupFactory)
    (module : string) (f : Flags) :
  stdinStat env = None ->
  (Args f <> [] ->
   (forall gc0, passedName env (Args f) gc0 = Fatal NilStatPanic)
   /\ (exists e, resolveConf env factory module f = Fatal e)
   /\ (Forall (fun o => o = None) (take 7 (checks env factory f)) ->
       resolveConf env factory module f = Fatal NilStatPanic))
  /\ (Args f = [] ->
      (forall gc0, passedName env (Args f) gc0 = Ok gc0)
      /\ leftOverCheck env (flag_input_file f) (Args f) = None).
Proof.
  intros Hstat. split.
  - intros Hargs.
    assert (Hcheck : leftOverCheck env (flag_input_file f) (Args f) = Some NilStatPanic).
    { unfold leftOverCheck. rewrite Hstat.
      destruct (Args f); [contradiction | reflexivity]. }
    split; [| split].
    + intros gc0. unfold passedName. rewrite Hstat.
      destruct (Args f); [contradiction | reflexivity].
    + apply (resolveConf_fails env factory module f NilStatPanic).
      unfold checks. rewrite Hcheck. simpl. tauto.
    + intros Hpassed.
      pose proof (resolveConf_after 7 env factory module f Hpassed) as Hfail.
      cbn [drop checks firstFailure] in Hfail. rewrite Hcheck in Hfail.
      apply failure_Some, Hfail.
  - intros Hargs. unfold passedName, leftOverCheck. rewrite Hargs.
    split; [intros gc0 |]; reflexivity.
Qed.

Lemma stat_failure_panics_witness :
  stdinStat closedDigEnv = None
  /\ Args digFlags <> []
  /\ resolveConf closedDigEnv sampleFactory "A" digFlags = Fatal NilStatPanic
  /\ main closedDigEnv = Fatal NilStatPanic.
Proof.
  assert (Hstat : stdinStat closedDigEnv = None) by reflexivity.
  assert (Hargs : Args digFlags <> []) by discriminate.
  assert (Hpassed : Forall (fun o => o = None)
                      (take 7 (checks closedDigEnv sampleFactory digFlags))).
  { vm_compute. repeat constructor. }
  pose proof (stat_failure_panics closedDigEnv sampleFactory "A" digFlags Hstat)
    as (Hpanic & _).
  split; [exact Hstat |]. split; [exact Hargs |].
  split; [exact (proj2 (proj2 (Hpanic Hargs)) Hpassed) |].
  vm_compute. reflexivity.
Defined.
